(** * The line normalisation and merge pipeline of hrshadhin/hosts

    A shallow embedding of the parts of [helpers.py] that turn raw hosts
    lines into canonical rules: [determine_separator], [domain_to_idna],
    [strip_rule], [matches_exclusions], [normalize_rule] and the loop of
    [write_final_file], together with the pieces of the Python runtime
    they call ([str] methods, the [re] matcher on the patterns used, the
    [idna] and [punycode] codecs), and of the functions around them:
    [load_white_list], [create_initial_file] with the [readlines] of the
    merged file, and [sort_sources].

    Python strings are sequences of Unicode code points: [str] is
    [list N]; byte strings are sequences of bytes, [bytes], with the
    UTF-8 codec between the two.  Python integers are [Z], lengths and
    list indices [nat].
    Exceptions are values of [exn] carried by [result].  What the
    interpreter reads from its Unicode tables beyond ASCII is a parameter
    ([UnicodeData]); the set of seen hostnames is a [gset].

    The file has the definitions first ([Py], [Re], [Punycode], [Idna],
    then the functions of [helpers.py] under their own names), and then
    the properties: lemmas on the string methods and on the matcher, and
    the theorems on [normalize_rule], on the loop of [write_final_file],
    on [strip_rule] and on [domain_to_idna]; the last part has the run
    of the loop as a whole, the whitelist, the order of the sources and
    the patterns on rules in the usual form. *)

From Stdlib Require Import ZArith NArith Lia Bool List Ascii String Sorted.
From stdpp Require Import base list gmap.
Import ListNotations.

Set Default Proof Using "Type".

(** ** Code points and the Unicode database *)

Definition char := N.
Definition str := list char.

(** A Python [bytes] object: its bytes, each below 256. *)
Definition bytes := list N.

(** [ch "a"] is the code point of an ASCII character, [u "abc"] the Python
    string with these characters. *)
Definition ch (a : ascii) : char := N_of_ascii a.
Definition u (s : string) : str := List.map N_of_ascii (list_ascii_of_string s).
Arguments ch _%_char : simpl never.
Arguments u _%_string : simpl never.

(** What the interpreter looks up in its Unicode tables for code points
    beyond ASCII.  The ASCII rows are written out below; the theorems hold
    for every content of the other rows. *)
Class UnicodeData := {
  (** [Py_UNICODE_ISDECIMAL], regex [\d] *)
  uni_isdecimal : char -> bool;
  (** [Py_UNICODE_ISALNUM], regex [\w] without the underscore *)
  uni_isalnum : char -> bool;
  (** lower-case expansion of the character at index [i] of [s]
      ([str.lower] looks at the context for the final sigma) *)
  uni_tolower : str -> nat -> char -> str;
  (** [encodings.idna.nameprep]; [None] when it raises [UnicodeError] *)
  nameprep : str -> option str
}.

(** The exceptions that the embedded code raises.  [UnicodeDecodeError]
    and [UnicodeEncodeError] are subclasses of [UnicodeError] in Python;
    no handler of the embedded code catches by class, so they are kept
    apart here. *)
Inductive exn :=
| IndexError
| UnicodeError
| UnicodeDecodeError
| UnicodeEncodeError.

Inductive result (A : Type) :=
| Ok (a : A)
| Raise (e : exn).
Arguments Ok {A} a.
Arguments Raise {A} e.

#[global] Instance result_ret : MRet result := fun A a => Ok a.
#[global] Instance result_bind : MBind result := fun A B f r =>
  match r with
  | Ok a => f a
  | Raise e => Raise e
  end.

Module Py.

Definition is_ascii (c : char) : bool := (c <? 128)%N.

Definition in_range (lo hi c : char) : bool := ((lo <=? c) && (c <=? hi))%N.

Definition ascii_upper (c : char) : bool := in_range (ch "A") (ch "Z") c.
Definition ascii_lower (c : char) : bool := in_range (ch "a") (ch "z") c.
Definition ascii_letter (c : char) : bool := ascii_lower c || ascii_upper c.
Definition ascii_digit (c : char) : bool := in_range (ch "0") (ch "9") c.

(** [Py_UNICODE_ISSPACE]: [str.isspace], [str.strip()], [str.split()]
    and the regex class [\s]. *)
Definition isspace (c : char) : bool :=
  (in_range 9 13 c || in_range 28 32 c || (c =? 133) || (c =? 160)
   || (c =? 5760) || in_range 8192 8202 c || (c =? 8232)
   || (c =? 8233) || (c =? 8239) || (c =? 8287) || (c =? 12288))%N.

Section Tables.
Context `{UnicodeData}.

Definition isdecimal (c : char) : bool :=
  if is_ascii c then ascii_digit c else uni_isdecimal c.

Definition isalnum (c : char) : bool :=
  if is_ascii c then ascii_letter c || ascii_digit c else uni_isalnum c.

Definition tolower_ascii (c : char) : char :=
  if ascii_upper c then (c + 32)%N else c.

Fixpoint lower_from (whole : str) (i : nat) (s : str) : str :=
  match s with
  | [] => []
  | c :: s' =>
      (if is_ascii c then [tolower_ascii c] else uni_tolower whole i c)
        ++ lower_from whole (S i) s'
  end.

(** [s.lower()] *)
Definition lower (s : str) : str := lower_from s 0 s.
End Tables.

(** [s.startswith(p)] *)
Fixpoint startswith (s p : str) {struct p} : bool :=
  match p, s with
  | [], _ => true
  | a :: p', b :: s' => (a =? b)%N && startswith s' p'
  | _ :: _, [] => false
  end.

Fixpoint find_at (sub s : str) (i : Z) : Z :=
  if startswith s sub then i
  else match s with
       | [] => (-1)%Z
       | _ :: s' => find_at sub s' (i + 1)%Z
       end.

(** [s.find(sub)]: the lowest index of [sub] in [s], or -1. *)
Definition find (s sub : str) : Z := find_at sub s 0%Z.

(** [sub in s] *)
Definition contains (sub s : str) : bool := (0 <=? find s sub)%Z.

(** [s[:k]] with Python's reading of a negative bound. *)
Definition slice_to (s : str) (k : Z) : str :=
  if (k <? 0)%Z then take (Z.to_nat (Z.of_nat (length s) + k)) s
  else take (Z.to_nat k) s.

(** [s[k:]] for a bound that is not negative. *)
Definition slice_from (s : str) (k : Z) : str := drop (Z.to_nat k) s.

Fixpoint lstrip_by (p : char -> bool) (s : str) : str :=
  match s with
  | [] => []
  | c :: s' => if p c then lstrip_by p s' else s
  end.

Definition rstrip_by (p : char -> bool) (s : str) : str :=
  rev (lstrip_by p (rev s)).

(** [s.strip()] *)
Definition strip (s : str) : str := rstrip_by isspace (lstrip_by isspace s).

Definition mem (c : char) (chars : str) : bool := existsb (N.eqb c) chars.

(** [s.rstrip(chars)] *)
Definition rstrip (s chars : str) : str := rstrip_by (fun c => mem c chars) s.

(** The scan of [s.split(sep)] and [s.replace(old, new)] for a separator
    that is not empty: [cur] is the piece being read (reversed), [skip]
    the number of characters of a found separator still to pass. *)
Fixpoint split_scan (sep : str) (cur : str) (skip : nat) (s : str) : list str :=
  match s with
  | [] => [rev cur]
  | c :: s' =>
      match skip with
      | S k => split_scan sep cur k s'
      | O =>
          if startswith s sep
          then rev cur :: split_scan sep [] (length sep - 1) s'
          else split_scan sep (c :: cur) 0 s'
      end
  end.

(** [s.split(sep)] *)
Definition split (s sep : str) : list str := split_scan sep [] 0 s.

(** [sep.join(parts)] *)
Fixpoint join (sep : str) (parts : list str) : str :=
  match parts with
  | [] => []
  | [p] => p
  | p :: rest => p ++ sep ++ join sep rest
  end.

(** [s.replace(old, new)] *)
Definition replace (s old new : str) : str := join new (split s old).

(** [s.split()]: the maximal runs of characters that are not whitespace. *)
Fixpoint words_scan (cur : str) (s : str) : list str :=
  match s with
  | [] => match cur with [] => [] | _ => [rev cur] end
  | c :: s' =>
      if isspace c
      then match cur with
           | [] => words_scan [] s'
           | _ => rev cur :: words_scan [] s'
           end
      else words_scan (c :: cur) s'
  end.

Definition words (s : str) : list str := words_scan [] s.

(** [l[i]] *)
Definition index {A} (l : list A) (i : nat) : result A :=
  match l !! i with
  | Some x => Ok x
  | None => Raise IndexError
  end.

(** [s.strip(chars)] *)
Definition strip_chars (s chars : str) : str :=
  rstrip_by (fun c => mem c chars) (lstrip_by (fun c => mem c chars) s).

(** [a < b] on [str]: by code points, a proper prefix first. *)
Fixpoint ltb (a b : str) : bool :=
  match a, b with
  | _, [] => false
  | [], _ :: _ => true
  | x :: a', y :: b' => (x <? y)%N || ((x =? y)%N && ltb a' b')
  end.

(** [sorted(l, key=key)], the stable sort in ascending order of the
    keys: an item is put in front of the first item that does not have a
    smaller key. *)
Fixpoint insert_sorted {A} (key : A -> str) (x : A) (l : list A) : list A :=
  match l with
  | [] => [x]
  | y :: l' =>
      if ltb (key y) (key x) then y :: insert_sorted key x l' else x :: l
  end.

Definition sorted {A} (key : A -> str) (l : list A) : list A :=
  foldr (insert_sorted key) [] l.

(** The UTF-8 codec with [errors="strict"].  A code point from U+D800
    to U+DFFF, a lone surrogate, has no encoding; the model refuses as
    well the numbers above U+10FFFF, which are no characters of a Python
    string. *)
Definition is_surrogate (c : char) : bool := in_range 55296%N 57343%N c.

Definition is_scalar (c : char) : bool :=
  (c <? 1114112)%N && negb (is_surrogate c).

Definition encode_char (c : char) : result bytes :=
  if (c <? 128)%N then Ok [c]
  else if (c <? 2048)%N then Ok [192 + c / 64; 128 + c mod 64]%N
  else if (c <? 65536)%N then
    if is_surrogate c then Raise UnicodeEncodeError
    else Ok [224 + c / 4096; 128 + (c / 64) mod 64; 128 + c mod 64]%N
  else if (c <? 1114112)%N then
    Ok [240 + c / 262144; 128 + (c / 4096) mod 64; 128 + (c / 64) mod 64;
        128 + c mod 64]%N
  else Raise UnicodeEncodeError.

(** [bytes(s, "UTF-8")], [s.encode("UTF-8")] *)
Fixpoint encode_utf8 (s : str) : result bytes :=
  match s with
  | [] => Ok []
  | c :: s' =>
      b ← encode_char c;
      r ← encode_utf8 s';
      Ok (b ++ r)
  end.

(** A continuation byte. *)
Definition is_cont (b : N) : bool := in_range 128%N 191%N b.

(** [b.decode("UTF-8")]: the well-formed sequences of the Unicode
    standard, so no overlong form, no surrogate and nothing above
    U+10FFFF. *)
Fixpoint decode_utf8 (b : bytes) : result str :=
  match b with
  | [] => Ok []
  | b0 :: r0 =>
      if (b0 <? 128)%N then
        s ← decode_utf8 r0; Ok (b0 :: s)
      else if in_range 194%N 223%N b0 then
        match r0 with
        | b1 :: r1 =>
            if is_cont b1 then
              s ← decode_utf8 r1;
              Ok (((b0 - 192) * 64 + (b1 - 128))%N :: s)
            else Raise UnicodeDecodeError
        | _ => Raise UnicodeDecodeError
        end
      else if in_range 224%N 239%N b0 then
        match r0 with
        | b1 :: b2 :: r2 =>
            if in_range (if (b0 =? 224)%N then 160%N else 128%N)
                 (if (b0 =? 237)%N then 159%N else 191%N) b1
               && is_cont b2
            then
              s ← decode_utf8 r2;
              Ok (((b0 - 224) * 4096 + (b1 - 128) * 64 + (b2 - 128))%N :: s)
            else Raise UnicodeDecodeError
        | _ => Raise UnicodeDecodeError
        end
      else if in_range 240%N 244%N b0 then
        match r0 with
        | b1 :: b2 :: b3 :: r3 =>
            if in_range (if (b0 =? 240)%N then 144%N else 128%N)
                 (if (b0 =? 244)%N then 143%N else 191%N) b1
               && is_cont b2 && is_cont b3
            then
              s ← decode_utf8 r3;
              Ok (((b0 - 240) * 262144 + (b1 - 128) * 4096
                   + (b2 - 128) * 64 + (b3 - 128))%N :: s)
            else Raise UnicodeDecodeError
        | _ => Raise UnicodeDecodeError
        end
      else Raise UnicodeDecodeError
  end.

(** [l.pop(i)] for an index that is not negative: the item and the list
    without it. *)
Definition pop {A} (l : list A) (i : nat) : result (A * list A) :=
  match l !! i with
  | Some x => Ok (x, delete i l)
  | None => Raise IndexError
  end.

End Py.

(** ** The [re] matcher

    The patterns of [helpers.py] use anchors, character classes, greedy
    repetition of a single class, concatenation, alternation and groups.
    [run] is the backtracking matcher of [sre] on this fragment, written
    with a continuation: alternatives are tried in priority order (greedy
    repetition the longest first) and the first complete match is the
    answer, which fixes what the groups capture. *)
Module Re.

Inductive item :=
| IChar (c : char)          (* a literal character, also an escaped one *)
| IRange (lo hi : char)     (* a-z *)
| ISpace                    (* \s *)
| IDigit                    (* \d *)
| IWord.                    (* \w *)

Inductive cclass :=
| Dot                       (* . without DOTALL *)
| OneOf (items : list item). (* [...], or one escape or literal alone *)

Inductive regex :=
| Eps
| Bol                                         (* ^ without MULTILINE *)
| Eol                                         (* $ without MULTILINE *)
| One (c : cclass)
| Many (lo : nat) (hi : option nat) (c : cclass) (* c{lo,hi}, c*, c+ *)
| Seq (r1 r2 : regex)
| Alt (r1 r2 : regex)
| Group (i : nat) (r : regex).

(** [r{n}] *)
Fixpoint times (n : nat) (r : regex) : regex :=
  match n with
  | O => Eps
  | S n' => Seq r (times n' r)
  end.

(** [re.escape(s)] as a pattern: the characters of [s], literally. *)
Fixpoint literal (s : str) : regex :=
  match s with
  | [] => Eps
  | c :: s' => Seq (One (OneOf [IChar c])) (literal s')
  end.

Definition captures := list (nat * str).
Definition cont := nat -> str -> captures -> option captures.

(** [m.group(i)]; [None] when the group took no part in the match. *)
Fixpoint group (caps : captures) (i : nat) : option str :=
  match caps with
  | [] => None
  | (j, w) :: caps' => if Nat.eqb i j then Some w else group caps' i
  end.

(** Try [f n], [f (n-1)], ... down to [f lo]. *)
Fixpoint backoff {A} (f : nat -> option A) (lo n : nat) : option A :=
  if Nat.ltb n lo then None
  else match f n with
       | Some r => Some r
       | None => match n with
                 | O => None
                 | S n' => backoff f lo n'
                 end
       end.

Section Matcher.
Context `{UnicodeData}.

Definition item_matches (it : item) (c : char) : bool :=
  match it with
  | IChar x => (c =? x)%N
  | IRange lo hi => Py.in_range lo hi c
  | ISpace => Py.isspace c
  | IDigit => Py.isdecimal c
  | IWord => Py.isalnum c || (c =? ch "_")%N
  end.

Definition cmatch (cl : cclass) (c : char) : bool :=
  match cl with
  | Dot => negb (c =? 10)%N
  | OneOf items => existsb (fun it => item_matches it c) items
  end.

(** How many leading characters of [s] are in the class, up to [hi]. *)
Fixpoint span (cl : cclass) (hi : option nat) (s : str) : nat :=
  match hi, s with
  | Some O, _ => O
  | _, [] => O
  | _, c :: s' =>
      if cmatch cl c then S (span cl (pred <$> hi) s') else O
  end.

Fixpoint run (r : regex) (pos : nat) (s : str) (caps : captures)
    (k : cont) : option captures :=
  match r with
  | Eps => k pos s caps
  | Bol => if Nat.eqb pos 0 then k pos s caps else None
  | Eol =>
      match s with
      | [] => k pos s caps
      | [c] => if (c =? 10)%N then k pos s caps else None
      | _ => None
      end
  | One cl =>
      match s with
      | c :: s' => if cmatch cl c then k (S pos) s' caps else None
      | [] => None
      end
  | Many lo hi cl =>
      backoff (fun n => k (pos + n) (drop n s) caps) lo (span cl hi s)
  | Seq r1 r2 =>
      run r1 pos s caps (fun pos' s' caps' => run r2 pos' s' caps' k)
  | Alt r1 r2 =>
      match run r1 pos s caps k with
      | Some res => Some res
      | None => run r2 pos s caps k
      end
  | Group i r1 =>
      run r1 pos s caps
        (fun pos' s' caps' => k pos' s' ((i, take (pos' - pos) s) :: caps'))
  end.

Definition accept : cont := fun _ _ caps => Some caps.

(** [re.match(r, s)] *)
Definition rmatch (r : regex) (s : str) : option captures :=
  run r 0 s [] accept.

Fixpoint search_from (r : regex) (pos : nat) (s : str) : option captures :=
  match run r pos s [] accept with
  | Some caps => Some caps
  | None => match s with
            | [] => None
            | _ :: s' => search_from r (S pos) s'
            end
  end.

(** [re.search(r, s)] *)
Definition search (r : regex) (s : str) : option captures :=
  search_from r 0 s.

End Matcher.

(** Shorthands for the classes that occur alone in the patterns. *)
Definition sp : cclass := OneOf [ISpace].
Definition dg : cclass := OneOf [IDigit].
Definition lit (a : ascii) : cclass := OneOf [IChar (N_of_ascii a)].
Arguments lit _%_char.

End Re.

(** ** The [punycode] and [idna] codecs

    [encodings/punycode.py] and [encodings/idna.py] of the interpreter's
    library, the encoding direction.  The byte strings they produce are
    ASCII, so that decoding them as UTF-8 gives the same code points: a
    byte string is kept as a [str]. *)
Module Punycode.
Open Scope Z_scope.

Fixpoint insert_sorted (c : char) (l : list char) : list char :=
  match l with
  | [] => [c]
  | x :: l' =>
      if (c <? x)%N then c :: l
      else if (c =? x)%N then l
      else x :: insert_sorted c l'
  end.

(** 3.1 Basic code point segregation: the basic code points in order
    and [sorted(set(...))] of the others. *)
Definition segregate (s : str) : str * list char :=
  (List.filter Py.is_ascii s,
   fold_right insert_sorted [] (List.filter (fun c => negb (Py.is_ascii c)) s)).

Definition selective_len (s : str) (max : char) : Z :=
  Z.of_nat (length (List.filter (fun c => (c <? max)%N) s)).

(** [selective_find(str, char, index, pos)] where [rest] is [str] from
    [pos + 1] on. *)
Fixpoint selective_find (rest : str) (c : char) (index pos : Z) : Z * Z :=
  match rest with
  | [] => (-1, -1)
  | x :: rest' =>
      if (x =? c)%N then (index + 1, pos + 1)
      else selective_find rest' c (if (x <? c)%N then index + 1 else index)
             (pos + 1)
  end.

(** The inner loop of [insertion_unsort]; every turn moves [pos] to the
    right, so [length s + 1] turns are enough. *)
Fixpoint unsort_loop (fuel : nat) (s : str) (c : char)
    (index pos delta oldindex : Z) (res : list Z) : Z * list Z :=
  match fuel with
  | O => (oldindex, res)
  | S fuel' =>
      let '(index, pos) :=
        selective_find (drop (Z.to_nat (pos + 1)) s) c index pos in
      if index =? -1 then (oldindex, res)
      else unsort_loop fuel' s c index pos 0 index
             (res ++ [delta + (index - oldindex) - 1])
  end.

(** 3.2 Insertion unsort coding *)
Definition insertion_unsort (s : str) (extended : list char) : list Z :=
  let step (st : char * Z * list Z) (c : char) :=
    let '(oldchar, oldindex, res) := st in
    let curlen := selective_len s c in
    let delta := (curlen + 1) * (Z.of_N c - Z.of_N oldchar) in
    let '(oldindex, res) :=
      unsort_loop (S (length s)) s c (-1) (-1) delta oldindex res in
    (c, oldindex, res) in
  snd (fold_left step extended (128%N, -1, [])).

(** Punycode parameters: tmin = 1, tmax = 26, base = 36 *)
Definition T (j bias : Z) : Z :=
  let res := 36 * (j + 1) - bias in
  if res <? 1 then 1 else if 26 <? res then 26 else res.

Definition digits : str := u "abcdefghijklmnopqrstuvwxyz0123456789".

Definition digit (i : Z) : char := nth (Z.to_nat i) digits 0%N.

Fixpoint generalized_loop (fuel : nat) (n bias j : Z) (res : str) : str :=
  match fuel with
  | O => res
  | S fuel' =>
      let t := T j bias in
      if n <? t then res ++ [digit n]
      else generalized_loop fuel' ((n - t) / (36 - t)) bias (j + 1)
             (res ++ [digit (t + (n - t) mod (36 - t))])
  end.

(** 3.3 Generalized variable-length integers.  A turn that does not
    return divides [n] by 10 at least, so that the number of turns is
    at most the number of binary digits of [n] plus one. *)
Definition generate_generalized_integer (n bias : Z) : str :=
  generalized_loop (Z.to_nat (Z.log2 n) + 2) n bias 0 [].

Fixpoint adapt_loop (fuel : nat) (delta divisions : Z) : Z * Z :=
  match fuel with
  | O => (delta, divisions)
  | S fuel' =>
      if 455 <? delta then adapt_loop fuel' (delta / 35) (divisions + 36)
      else (delta, divisions)
  end.

Definition adapt (delta : Z) (first : bool) (numchars : Z) : Z :=
  let delta := if first then delta / 700 else delta / 2 in
  let delta := delta + delta / numchars in
  let '(delta, divisions) := adapt_loop (S (Z.to_nat (Z.log2 delta))) delta 0 in
  divisions + (36 * delta / (delta + 38)).

Fixpoint integers_loop (baselen : Z) (points : Z) (deltas : list Z)
    (bias : Z) (res : str) : str :=
  match deltas with
  | [] => res
  | delta :: deltas' =>
      let s := generate_generalized_integer delta bias in
      integers_loop baselen (points + 1) deltas'
        (adapt delta (points =? 0) (baselen + points + 1)) (res ++ s)
  end.

(** 3.4 Bias adaptation; initial bias = 72 *)
Definition generate_integers (baselen : Z) (deltas : list Z) : str :=
  integers_loop baselen 0 deltas 72 [].

Definition punycode_encode (text : str) : str :=
  let '(base, extended) := segregate text in
  let deltas := insertion_unsort text extended in
  let extended := generate_integers (Z.of_nat (length base)) deltas in
  match base with
  | [] => extended
  | _ => base ++ u "-" ++ extended
  end.

End Punycode.

Module Idna.

(** IDNA section 3.1: the four characters that separate labels. *)
Definition is_dot (c : char) : bool :=
  ((c =? 46) || (c =? 12290) || (c =? 65294) || (c =? 65377))%N.

(** [dots.split(input)] *)
Fixpoint split_dots (cur : str) (s : str) : list str :=
  match s with
  | [] => [rev cur]
  | c :: s' =>
      if is_dot c then rev cur :: split_dots [] s'
      else split_dots (c :: cur) s'
  end.

(** [0 < len(label) < 64] *)
Definition label_ok (label : str) : bool :=
  Nat.ltb 0 (length label) && Nat.ltb (length label) 64.

Definition sace_prefix : str := u "xn--".

Section Codec.
Context `{UnicodeData}.

Definition ToASCII (label : str) : result str :=
  if forallb Py.is_ascii label then
    if label_ok label then Ok label else Raise UnicodeError
  else
    match nameprep label with
    | None => Raise UnicodeError
    | Some label =>
        if forallb Py.is_ascii label then
          if label_ok label then Ok label else Raise UnicodeError
        else if Py.startswith label sace_prefix then Raise UnicodeError
        else
          let label := sace_prefix ++ Punycode.punycode_encode label in
          if label_ok label then Ok label else Raise UnicodeError
    end.

Fixpoint encode_labels (labels : list str) (res : str) : result str :=
  match labels with
  | [] => Ok res
  | label :: labels' =>
      let res := match res with [] => res | _ => res ++ u "." end in
      a ← ToASCII label;
      encode_labels labels' (res ++ a)
  end.

(** [input.encode("IDNA").decode("UTF-8")] *)
Definition encode (input : str) : result str :=
  match input with
  | [] => Ok []
  | _ =>
      if forallb Py.is_ascii input then
        let labels := Py.split input (u ".") in
        if negb (forallb label_ok (removelast labels))
        then Raise UnicodeError
        else if Nat.leb 64 (length (List.last labels []))
        then Raise UnicodeError
        else Ok input
      else
        let labels := split_dots [] input in
        let '(labels, trailing_dot) :=
          match List.last labels [0%N] with
          | [] => (removelast labels, u ".")
          | _ => (labels, [])
          end in
        res ← encode_labels labels [];
        Ok (res ++ trailing_dot)
  end.
End Codec.

End Idna.

(** ** helpers.py *)

Import Re.

Infix "@@" := Seq (at level 60, right associativity).

Definition nl : str := [10%N].
Definition tab : str := [9%N].

(** Truth value of a string, of [None], of a match object. *)
Definition nonempty (s : str) : bool :=
  match s with
  | [] => false
  | _ :: _ => true
  end.

Definition truthy (o : option str) : bool :=
  match o with
  | Some s => nonempty s
  | None => false
  end.

Definition matched (o : option captures) : bool :=
  match o with
  | Some _ => true
  | None => false
  end.

(** The pieces of the three patterns of [normalize_rule]. *)
Definition octet : regex := Many 1 (Some 3) dg.

Definition ipv4 : regex :=
  octet @@ One (lit ".") @@ octet @@ One (lit ".") @@ octet
    @@ One (lit ".") @@ octet.

Definition host : regex :=
  Many 1 None (OneOf [IWord; IChar (ch "."); IChar (ch "-")])
    @@ One (OneOf [IRange (ch "a") (ch "z"); IRange (ch "A") (ch "Z")]).

(** first try, spaced out:  ^ \s* ( \d{1,3} \. ){3} \d{1,3} \s+ ( [\w\.-]+ [a-zA-Z] ) ( .* )  *)
Definition ip_domain_regex : regex :=
  Bol @@ Many 0 None sp @@ times 3 (Group 1 (octet @@ One (lit ".")))
    @@ octet @@ Many 1 None sp @@ Group 2 host @@ Group 3 (Many 0 None Dot).

(** next try:  ^ \s* ( IPV4 ) \s+ ( IPV4 ) \s* ( .* )  where IPV4 is
    \d{1,3} \. \d{1,3} \. \d{1,3} \. \d{1,3}  *)
Definition ip_ip_regex : regex :=
  Bol @@ Many 0 None sp @@ Group 1 ipv4 @@ Many 1 None sp @@ Group 2 ipv4
    @@ Many 0 None sp @@ Group 3 (Many 0 None Dot).

(** last try:  ^ \s* ( [\w\.-]+ [a-zA-Z] ) ( .* )  *)
Definition raw_domain_regex : regex :=
  Bol @@ Many 0 None sp @@ Group 1 host @@ Group 2 (Many 0 None Dot).

(** the pattern  ^ \s* $  *)
Definition blank_regex : regex := Bol @@ Many 0 None sp @@ Eol.

(** ( ^ | [\s\.] ), then [re.escape(exclude)], then \s *)
Definition exclusion_word_regex (exclude : str) : regex :=
  Group 1 (Alt Bol (One (OneOf [ISpace; IChar (ch ".")])))
    @@ literal exclude @@ One sp.

(** What [write_data] puts into the output file: a line passed through
    as it is, or a normalised rule.  The hostname of a rule is kept beside
    its text; the bytes in the file are the UTF-8 encoding of
    [write_text]. *)
Inductive write :=
| Verbatim (line : str)
| Rule (hostname : str) (normalized_rule : str).

Definition write_text (w : write) : str :=
  match w with
  | Verbatim line => line
  | Rule _ normalized_rule => normalized_rule
  end.

Definition rule_key (w : write) : option str :=
  match w with
  | Verbatim _ => None
  | Rule hostname _ => Some hostname
  end.

(** [write_data(f, data)], that is [f.write(bytes(data, "UTF-8"))]: the
    file with the data at its end, or the exception of the encoding. *)
Definition write_data (f : list write) (data : write) : result (list write) :=
  _ ← Py.encode_utf8 (write_text data);
  Ok (f ++ [data]).

(** The entries of [settings] that [write_final_file] reads.  A compiled
    exclusion pattern is kept as its [search] method, a predicate. *)
Record settings := {
  number_of_rules : Z;
  minimise : bool;
  empty_target_ip : bool;
  target_ip : str;
  exclusion_regexes : list (str -> bool);
  exclusions : list str
}.

(** The local variables of [write_final_file] that live across the turns
    of its loop, the output file and the standard output.  The standard
    output is a text stream that takes every character, so [print] adds
    to it and does not raise; the files are read and written without
    errors of the operating system.  The exceptions of a run are then
    those of [line[0]], of [line.decode] and of [bytes(data, "UTF-8")]. *)
Record loop_state := {
  final_file : list write;
  hostnames : gset str;
  rules : Z;
  stdout : str
}.

Section Helpers.
Context `{UnicodeData}.

Definition determine_separator (line : str) : str :=
  let tabs := tab in
  let space := u " " in
  let tabs_position := Py.find line tabs in
  let space_position := Py.find line space in
  if ((-1 <? tabs_position) && (-1 <? space_position))%Z then
    if (space_position <? tabs_position)%Z then space else tabs
  else if negb (tabs_position =? -1)%Z then tabs
  else if negb (space_position =? -1)%Z then space
  else [].

(** The [while] loop of [domain_to_idna]: [rest] is [splited_line] from
    [index] on. *)
Fixpoint skip_empty (rest : list str) (index : nat) : nat :=
  match rest with
  | [] => index
  | tok :: rest' => if nonempty tok then index else skip_empty rest' (S index)
  end.

(** The body of the [try] statement, returning [splited_line]. *)
Definition encode_domain_token (splited_line : list str) : result (list str) :=
  let index := skip_empty (drop 1 splited_line) 1 in
  tok ← Py.index splited_line index;
  splited_line ←
    (if Py.contains (u "#") tok then
       let index_comment := Py.find tok (u "#") in
       if (-1 <? index_comment)%Z then
         let comment := Py.slice_from tok index_comment in
         domain ← Py.index (Py.split tok comment) 0;
         encoded ← Idna.encode domain;
         Ok (<[index := encoded ++ comment]> splited_line)
       else Ok splited_line
     else Ok splited_line);
  tok ← Py.index splited_line index;
  encoded ← Idna.encode tok;
  Ok (<[index := encoded]> splited_line).

Definition domain_to_idna (line : str) : result str :=
  if negb (Py.startswith line (u "#")) then
    let separator := determine_separator line in
    if nonempty separator then
      let splited_line := Py.split line separator in
      match encode_domain_token splited_line with
      | Ok splited_line => Ok (Py.join separator splited_line)
      | Raise IndexError => Ok (Py.join separator splited_line)
      | Raise e => Raise e
      end
    else Idna.encode line
  else Ok line.

Definition strip_rule (line : str) (remove_comments : bool) : str :=
  if remove_comments
  then Py.strip (Py.slice_to line (Py.find line (u "#")))
  else line.

Definition matches_exclusions (stripped_rule : str)
    (exclusion_regexes : list (str -> bool)) : bool :=
  let stripped_domain :=
    match Py.index (Py.words stripped_rule) 1 with
    | Ok d => d
    | Raise _ => stripped_rule
    end in
  existsb (fun exclusionRegex => exclusionRegex stripped_domain)
    exclusion_regexes.

Definition normalize_response (target_ip : str) (keep_domain_comments : bool)
    (extracted_hostname : str) (extracted_suffix : option str) : str * str :=
  let final_rule :=
    if Nat.ltb 0 (length target_ip) then
      let final_rule := target_ip ++ u " " ++ extracted_hostname in
      let final_rule :=
        if keep_domain_comments && truthy extracted_suffix
        then final_rule ++ u " #" ++ default [] extracted_suffix
        else final_rule in
      final_rule ++ nl
    else extracted_hostname ++ nl in
  (extracted_hostname, final_rule).

(** The value returned and what [print] wrote. *)
Definition normalize_rule (rule target_ip : str) (keep_domain_comments : bool)
    : (option str * option str) * str :=
  let respond hostname suffix :=
    let '(h, r) :=
      normalize_response target_ip keep_domain_comments hostname suffix in
    ((Some h, Some r), []) in
  match search ip_domain_regex rule with
  | Some result =>
      let hostname := default [] (group result 2) in
      let suffix := group result 3 in
      let hostname := Py.strip (Py.lower hostname) in
      respond hostname suffix
  | None =>
      match search ip_ip_regex rule with
      | Some result =>
          let ip_host := default [] (group result 2) in
          let suffix := group result 3 in
          let ip_host := Py.strip ip_host in
          respond ip_host suffix
      | None =>
          match search raw_domain_regex rule with
          | Some result =>
              let hostname := default [] (group result 1) in
              let suffix := group result 2 in
              let hostname := Py.strip (Py.lower hostname) in
              respond hostname suffix
          | None =>
              ((None, None), u "==>" ++ rule ++ u "<==" ++ nl)
          end
      end
  end.

(** The replacement and the trimming at the head of the loop body. *)
Definition preprocess (line : str) : str :=
  let line := Py.replace line (tab ++ u "+") (u " ") in
  Py.rstrip line (u " .").

(** [not minimise and (line[0] == "#" or re.match(r"^\s*$", line[0]))] *)
Definition passes_through (minimise : bool) (line : str) : result bool :=
  if negb minimise then
    c ← Py.index line 0;
    Ok ((c =? ch "#")%N || matched (rmatch blank_regex [c]))
  else Ok false.

(** The loop body from the decoded [line] on. *)
Definition loop_body (cfg : settings) (st : loop_state) (line : str)
    : result loop_state :=
  let target_ip := if empty_target_ip cfg then [] else target_ip cfg in
  let line := preprocess line in
  pass ← passes_through (minimise cfg) line;
  if pass : bool then
    final_file ← write_data (final_file st) (Verbatim line);
    Ok {| final_file := final_file;
          hostnames := hostnames st; rules := rules st;
          stdout := stdout st |}
  else if Py.contains (u "::1") line then Ok st
  else
    let stripped_rule := strip_rule line (minimise cfg) in
    if negb (nonempty stripped_rule)
       || matches_exclusions stripped_rule (exclusion_regexes cfg)
    then Ok st
    else if Py.contains (u "@") stripped_rule then Ok st
    else
      let '((hostname, normalized_rule), printed) :=
        normalize_rule stripped_rule target_ip (minimise cfg) in
      let st := {| final_file := final_file st; hostnames := hostnames st;
                   rules := rules st; stdout := stdout st ++ printed |} in
      let write_line :=
        negb (existsb
                (fun exclude =>
                   matched (search (exclusion_word_regex exclude) line))
                (exclusions cfg)) in
      match hostname, normalized_rule with
      | Some hostname, Some normalized_rule =>
          if nonempty normalized_rule
             && negb (bool_decide (hostname ∈ hostnames st))
             && write_line
          then
            final_file ←
              write_data (final_file st) (Rule hostname normalized_rule);
            Ok {| final_file := final_file;
                  hostnames := {[hostname]} ∪ hostnames st;
                  rules := (rules st + 1)%Z;
                  stdout := stdout st |}
          else Ok st
      | _, _ => Ok st
      end.

(** A turn of the loop on a line as [readlines] gives it:
    [line = line.decode("UTF-8")], then the rest of the body. *)
Definition loop_turn (cfg : settings) (st : loop_state) (line : bytes)
    : result loop_state :=
  line ← Py.decode_utf8 line;
  loop_body cfg st line.

(** The [for] loop: the state when the lines are used up, or the state
    at the turn that raised, and the exception. *)
Fixpoint loop (cfg : settings) (lines : list bytes) (st : loop_state)
    : loop_state * option exn :=
  match lines with
  | [] => (st, None)
  | line :: lines' =>
      match loop_turn cfg st line with
      | Ok st' => loop cfg lines' st'
      | Raise e => (st, Some e)
      end
  end.

Definition reserved_hostnames : gset str :=
  {[ u "localhost"; u "localhost.localdomain"; u "local"; u "broadcasthost" ]}.

Definition initial_state (cfg : settings) (final_file : list write)
    (stdout : str) : loop_state :=
  {| final_file := final_file; hostnames := reserved_hostnames;
     rules := number_of_rules cfg; stdout := stdout |}.

(** [write_final_file(temp_file, final_file, settings)] for the lines
    that [temp_file.readlines()] gives: the output file, the seen
    hostnames and the standard output at the end, and either [settings]
    with its counter written back or the exception that ended the run. *)
Definition write_final_file (temp_file : list bytes) (final_file : list write)
    (cfg : settings) : loop_state * result settings :=
  let '(st, raised) := loop cfg temp_file (initial_state cfg final_file []) in
  (st,
   match raised with
   | Some e => Raise e
   | None =>
       Ok {| number_of_rules := rules st; minimise := minimise cfg;
             empty_target_ip := empty_target_ip cfg;
             target_ip := target_ip cfg;
             exclusion_regexes := exclusion_regexes cfg;
             exclusions := exclusions cfg |}
   end).

End Helpers.

(** ** Definitions used to state the properties *)

(** The settings of [get_defaults()], as far as [write_final_file] reads
    them. *)
Definition get_defaults : settings :=
  {| number_of_rules := 0; minimise := false; empty_target_ip := false;
     target_ip := u "0.0.0.0"; exclusion_regexes := []; exclusions := [] |}.

(** A database with nothing beyond ASCII: no digits or letters there,
    [lower] and [nameprep] leave the text as it is.  It serves to run the
    functions on inputs for which the tables do not matter. *)
Definition ascii_tables : UnicodeData :=
  {| uni_isdecimal := fun _ => false;
     uni_isalnum := fun _ => false;
     uni_tolower := fun _ _ c => [c];
     nameprep := fun s => Some s |}.

Section Statements.
Context `{UnicodeData}.

(** The hostname and the suffix that [normalize_rule] passes to
    [normalize_response], from the first pattern that matches. *)
Definition extract (rule : str) : option (str * option str) :=
  match search ip_domain_regex rule with
  | Some result =>
      Some (Py.strip (Py.lower (default [] (group result 2))), group result 3)
  | None =>
      match search ip_ip_regex rule with
      | Some result =>
          Some (Py.strip (default [] (group result 2)), group result 3)
      | None =>
          match search raw_domain_regex rule with
          | Some result =>
              Some (Py.strip (Py.lower (default [] (group result 1))),
                    group result 2)
          | None => None
          end
      end
  end.

(** The hostnames of the rules written to the file, in order. *)
Definition written_keys (st : loop_state) : list str :=
  omap rule_key (final_file st).

(** The invariant of the loop: the keys of the written rules are all
    different and not reserved, and they are, with the reserved
    hostnames, what the seen set holds. *)
Definition seen_ok (st : loop_state) : Prop :=
  NoDup (written_keys st) /\
  Forall (fun key => key ∉ reserved_hostnames) (written_keys st) /\
  hostnames st = reserved_hostnames ∪ list_to_set (written_keys st).

(** The lower-case forms of the tables are characters again: what
    [str.lower] gives for a text without lone surrogates has none. *)
Definition lower_keeps_scalars : Prop :=
  forall (whole : str) (i : nat) (c : char),
    Py.is_scalar c = true ->
    forallb Py.is_scalar (uni_tolower whole i c) = true.

(** The local variable [target_ip] of [write_final_file]. *)
Definition effective_target_ip (cfg : settings) : str :=
  if empty_target_ip cfg then [] else target_ip cfg.

(** A write that is a normalised rule. *)
Definition is_rule (w : write) : Prop :=
  exists hostname text, w = Rule hostname text.

(** The state in which [write_final_file] leaves its loop. *)
Definition final_state (temp_file : list bytes) (cfg : settings) : loop_state :=
  fst (write_final_file temp_file [] cfg).

End Statements.

Section Language.
Context `{UnicodeData}.

(** The texts a pattern can consume, whatever surrounds them: what a
    successful run of the matcher is known to have read. *)
Fixpoint lang (r : regex) (w : str) : Prop :=
  match r with
  | Eps | Bol | Eol => w = []
  | One cl => exists c, w = [c] /\ cmatch cl c = true
  | Many lo hi cl =>
      lo <= length w /\ Forall (fun c => cmatch cl c = true) w /\
      match hi with
      | Some h => length w <= h
      | None => True
      end
  | Seq r1 r2 => exists w1 w2, w = w1 ++ w2 /\ lang r1 w1 /\ lang r2 w2
  | Alt r1 r2 => lang r1 w \/ lang r2 w
  | Group _ r1 => lang r1 w
  end.

(** The groups of a pattern. *)
Fixpoint group_ids (r : regex) : list nat :=
  match r with
  | Seq r1 r2 | Alt r1 r2 => group_ids r1 ++ group_ids r2
  | Group i r1 => i :: group_ids r1
  | _ => []
  end.

Definition rejected (target_ip : str) (keep_domain_comments : bool)
    (rule : str) : Prop :=
  search ip_domain_regex rule = None /\
  search ip_ip_regex rule = None /\
  search raw_domain_regex rule = None /\
  normalize_rule rule target_ip keep_domain_comments
  = ((None, None), u "==>" ++ rule ++ u "<==" ++ nl).
End Language.

(** The first whitespace-delimited token of a text. *)
Definition first_token (s : str) : option str := head (Py.words s).

(** [s] ends with one newline and not with two. *)
Definition ends_with_one_newline (s : str) : Prop :=
  exists body, s = body ++ nl /\ forall body', body <> body' ++ nl.

(** The output line as the specification words it: a ['#'] that leads
    the extracted suffix is dropped before the marker is put in front. *)
Definition spec_suffix (suffix : str) : str :=
  match suffix with
  | c :: rest => if (c =? ch "#")%N then rest else suffix
  | [] => []
  end.

Definition spec_output_with_comment (target_ip key suffix : str) : str :=
  target_ip ++ u " " ++ key ++ u " #" ++ spec_suffix suffix ++ nl.

(** The characters of a host name label: letters, digits, hyphen. *)
Definition label_char (c : char) : bool :=
  Py.ascii_letter c || Py.ascii_digit c || (c =? ch "-")%N.

(** A line is blank, a line is a comment. *)
Definition is_blank (line : str) : bool := forallb Py.isspace line.
Definition is_comment (line : str) : bool :=
  Py.startswith (Py.lstrip_by Py.isspace line) (u "#").

(** ** The whitelist *)

(** The characters that [load_white_list] strips from a line. *)
Definition white_list_chars : str := u " " ++ tab ++ nl ++ [13%N].

(** [load_white_list(settings)].  [white_list_file] is what iterating
    over the file gives, the lines with their line ends, or [None] when
    there is no such file. *)
Definition load_white_list (white_list_file : option (list str))
    (cfg : settings) : settings :=
  match white_list_file with
  | Some ins =>
      fold_left
        (fun cfg line =>
           let line := Py.strip_chars line white_list_chars in
           if nonempty line && negb (Py.startswith line (u "#"))
           then {| number_of_rules := number_of_rules cfg;
                   minimise := minimise cfg;
                   empty_target_ip := empty_target_ip cfg;
                   target_ip := target_ip cfg;
                   exclusion_regexes := exclusion_regexes cfg;
                   exclusions := exclusions cfg ++ [line] |}
           else cfg)
        ins cfg
  | None => cfg
  end.

(** ** The order of the sources *)
Section Sources.
Context `{UnicodeData}.

(** The key of [sorted] in [sort_sources]. *)
Definition sort_key (x : str) : str :=
  Py.replace (Py.replace (Py.replace (Py.lower x) (u "-") []) (u "_") [])
    (u " ") [].

Definition is_hrshadhin (y : str) : bool :=
  Py.contains (u "hrshadhin") (Py.lower y).

(** [[x for x, y in enumerate(result) if "hrshadhin" in y.lower()]],
    counting from [x]. *)
Fixpoint positions_from (x : nat) (sources : list str) : list nat :=
  match sources with
  | [] => []
  | y :: sources' =>
      if is_hrshadhin y then x :: positions_from (S x) sources'
      else positions_from (S x) sources'
  end.

(** The [for] loop: [result.insert(0, result.pop(index))]. *)
Fixpoint move_to_top (positions : list nat) (sources : list str)
    : result (list str) :=
  match positions with
  | [] => Ok sources
  | index :: positions' =>
      '(x, sources) ← Py.pop sources index;
      move_to_top positions' (x :: sources)
  end.

Definition sort_sources (sources : list str) : result (list str) :=
  let sources := Py.sorted sort_key sources in
  let positions := positions_from 0 sources in
  move_to_top positions sources.

End Sources.

(** ** Lines in the usual form *)

(** One to three ASCII digits. *)
Definition octet_text (o : str) : bool :=
  nonempty o && Nat.leb (length o) 3 && forallb Py.ascii_digit o.

(** Spaces and tabs. *)
Definition blanks (s : str) : bool :=
  forallb (fun c => (c =? ch " ") || (c =? 9))%N s.

(** The ASCII characters of the class of the hostname pattern: letters,
    digits, underscore, period, hyphen. *)
Definition host_char (c : char) : bool :=
  (Py.ascii_letter c || Py.ascii_digit c || (c =? ch "_") || (c =? ch ".")
   || (c =? ch "-"))%N.

(** What follows a hostname: nothing, or an ASCII character that is not
    of the class. *)
Definition ends_host (rest : str) : bool :=
  match rest with
  | [] => true
  | c :: _ => Py.is_ascii c && negb (host_char c)
  end.

(** The text up to the first newline. *)
Fixpoint upto_newline (s : str) : str :=
  match s with
  | [] => []
  | c :: s' => if (c =? 10)%N then [] else c :: upto_newline s'
  end.

(** An address of four octets. *)
Definition ipv4_text (o1 o2 o3 o4 : str) : str :=
  o1 ++ u "." ++ o2 ++ u "." ++ o3 ++ u "." ++ o4.

(** The characters of a line in the usual form, before its newline. *)
Definition usual_char (c : char) : bool :=
  (Py.ascii_digit c || (c =? ch ".") || (c =? ch " ") || (c =? 9)
   || host_char c)%N.

(** A line of a hosts file in the usual form, with its newline: an
    address, blanks, a hostname whose last character [l] is a letter;
    [h] is the hostname before that letter. *)
Definition usual_line (o1 o2 o3 o4 ws h : str) (l : char) : str :=
  ipv4_text o1 o2 o3 o4 ++ ws ++ h ++ [l] ++ nl.

(** [usual_form line hostname]: [line] is in the usual form and names
    [hostname], which is in lower case.  The hostname has two characters
    or more, as the pattern [[\w\.-]+[a-zA-Z]] asks: one or more of the
    class, then a letter. *)
Inductive usual_form : str -> str -> Prop :=
| usual_form_intro (o1 o2 o3 o4 ws h : str) (l : char) :
    octet_text o1 = true -> octet_text o2 = true ->
    octet_text o3 = true -> octet_text o4 = true ->
    ws <> [] -> blanks ws = true ->
    h <> [] -> forallb host_char h = true -> Py.ascii_letter l = true ->
    usual_form (usual_line o1 o2 o3 o4 ws h l)
      (map Py.tolower_ascii (h ++ [l])).

(** The rule that [write_final_file] writes for a hostname that nothing
    follows. *)
Definition plain_rule (cfg : settings) (hostname : str) : write :=
  Rule hostname
    (if nonempty (effective_target_ip cfg)
     then effective_target_ip cfg ++ u " " ++ hostname ++ nl
     else hostname ++ nl).

(** The hostnames met for the first time, in their order. *)
Fixpoint first_seen (seen : gset str) (hostnames : list str) : list str :=
  match hostnames with
  | [] => []
  | hostname :: hostnames' =>
      if bool_decide (hostname ∈ seen) then first_seen seen hostnames'
      else hostname :: first_seen ({[hostname]} ∪ seen) hostnames'
  end.

(** ** The merged file *)

(** [f.readlines()] on a binary file: the lines of the data, each with
    its newline byte; the last line is without one when the data does
    not end with one. *)
Fixpoint readlines_scan (cur : bytes) (data : bytes) : list bytes :=
  match data with
  | [] => match cur with [] => [] | _ => [rev cur] end
  | c :: data' =>
      if (c =? 10)%N then rev (c :: cur) :: readlines_scan [] data'
      else readlines_scan (c :: cur) data'
  end.

Definition readlines (data : bytes) : list bytes := readlines_scan [] data.

(** [write_data(f, data)] on the merge file, of which the bytes are
    kept. *)
Definition write_data_bytes (f : bytes) (data : str) : result bytes :=
  b ← Py.encode_utf8 data;
  Ok (f ++ b).

(** The first loop of [create_initial_file]. *)
Fixpoint write_sources (sources : list (str * str)) (merge_file : bytes)
    : result bytes :=
  match sources with
  | [] => Ok merge_file
  | (name, content) :: sources' =>
      let start := u "# Start " ++ name ++ nl ++ nl in
      let end_ := nl ++ u "# End " ++ name ++ nl ++ nl in
      merge_file ← write_data_bytes merge_file (start ++ content ++ end_);
      write_sources sources' merge_file
  end.

(** [create_initial_file(settings)]: what is written to the merge file.
    [sources] has, for each file that [recursive_glob] finds, the name of
    its directory and what [read()] returns; [black_list] is what the
    blacklist file holds, when there is such a file. *)
Definition create_initial_file (sources : list (str * str))
    (black_list : option str) : result bytes :=
  merge_file ← write_sources sources [];
  match black_list with
  | Some content => write_data_bytes merge_file content
  | None => Ok merge_file
  end.
(** * Properties *)

(** ** Strings *)
Module PyFacts.
Import Py.

Lemma startswith_app (p r : str) : startswith (p ++ r) p = true.
Proof.
  induction p as [|a p IH]; simpl; [reflexivity|].
  rewrite N.eqb_refl. exact IH.
Qed.

Lemma startswith_inv (s p : str) :
  startswith s p = true -> exists r, s = p ++ r.
Proof.
  revert s. induction p as [|a p IH]; intros s Hs; simpl in *.
  - exists s. reflexivity.
  - destruct s as [|b s]; [discriminate|].
    apply andb_prop in Hs as [Hab Hs].
    apply N.eqb_eq in Hab. subst b.
    destruct (IH _ Hs) as [r ->]. exists r. reflexivity.
Qed.

Lemma find_at_range (sub s : str) (i : Z) :
  find_at sub s i = (-1)%Z \/ (i <= find_at sub s i)%Z.
Proof.
  revert i. induction s as [|c s IH]; intros i; simpl.
  - destruct (startswith [] sub); [right; lia | left; reflexivity].
  - destruct (startswith (c :: s) sub); [right; lia|].
    destruct (IH (i + 1)%Z) as [-> | Hle]; [left; reflexivity | right; lia].
Qed.

Lemma find_at_here (sub s : str) (i : Z) :
  startswith s sub = true -> find_at sub s i = i.
Proof. intros Hs. destruct s; simpl; rewrite Hs; reflexivity. Qed.

Lemma find_at_occurs (sub a b : str) (i : Z) :
  (i <= find_at sub (a ++ sub ++ b) i)%Z.
Proof.
  revert i. induction a as [|c a IH]; intros i.
  - simpl. rewrite find_at_here by apply startswith_app. lia.
  - simpl. destruct (startswith (c :: a ++ sub ++ b) sub); [lia|].
    specialize (IH (i + 1)%Z). lia.
Qed.

Lemma find_at_inv (sub s : str) (i : Z) :
  find_at sub s i <> (-1)%Z -> (0 <= i)%Z -> exists a b, s = a ++ sub ++ b.
Proof.
  revert i. induction s as [|c s IH]; intros i Hf Hi; simpl in Hf.
  - destruct (startswith [] sub) eqn:E; [|congruence].
    apply startswith_inv in E as [r ->]. exists [], r. reflexivity.
  - destruct (startswith (c :: s) sub) eqn:E.
    + apply startswith_inv in E as [r ->]. exists [], r. reflexivity.
    + destruct (IH (i + 1)%Z Hf ltac:(lia)) as (a & b & ->).
      exists (c :: a), b. reflexivity.
Qed.

(** [sub in s] holds exactly when [s] is some text, [sub], some text. *)
Lemma contains_spec (sub s : str) :
  contains sub s = true <-> exists a b, s = a ++ sub ++ b.
Proof.
  unfold contains, find. split.
  - intros Hc. apply Z.leb_le in Hc.
    apply (find_at_inv sub s 0%Z); lia.
  - intros (a & b & ->). apply Z.leb_le. apply find_at_occurs.
Qed.

Lemma lstrip_by_cases (p : char -> bool) (s : str) :
  lstrip_by p s = [] \/
  exists c r, lstrip_by p s = c :: r /\ p c = false.
Proof.
  induction s as [|c s IH]; simpl; [left; reflexivity|].
  destruct (p c) eqn:E; [exact IH|]. right. exists c, s. auto.
Qed.

Lemma lstrip_by_suffix (p : char -> bool) (s : str) :
  exists a, s = a ++ lstrip_by p s /\ forallb p a = true.
Proof.
  induction s as [|c s (a & Ha & Hp)]; simpl.
  - exists []. auto.
  - destruct (p c) eqn:E.
    + exists (c :: a). simpl. rewrite E, Hp. split; [congruence|reflexivity].
    + exists []. auto.
Qed.

Lemma lstrip_by_keep (p : char -> bool) (a : str) (c : char) (r : str) :
  p c = false -> forallb p a = true ->
  lstrip_by p (a ++ c :: r) = c :: r.
Proof.
  intros Hc. induction a as [|x a IH]; simpl; intros Ha.
  - rewrite Hc. reflexivity.
  - apply andb_prop in Ha as [-> Ha]. auto.
Qed.

(** What is left of a string after [rstrip]/[strip] is empty or ends
    with a character that is not stripped. *)
Lemma rstrip_by_cases (p : char -> bool) (s : str) :
  rstrip_by p s = [] \/
  exists z c, rstrip_by p s = z ++ [c] /\ p c = false.
Proof.
  unfold rstrip_by.
  destruct (lstrip_by_cases p (rev s)) as [-> | (c & r & -> & Hc)].
  - left. reflexivity.
  - right. exists (rev r), c. simpl. auto.
Qed.

Lemma rstrip_by_keep (p : char -> bool) (x : str) (c : char) (y : str) :
  p c = false ->
  rstrip_by p (x ++ c :: y) = x ++ c :: rstrip_by p y.
Proof.
  intros Hc. unfold rstrip_by.
  rewrite rev_app_distr. simpl. rewrite <- app_assoc. simpl.
  destruct (lstrip_by_suffix p (rev y)) as (a & Ha & Hp).
  destruct (lstrip_by p (rev y)) as [|d r] eqn:E.
  - rewrite app_nil_r in Ha. rewrite Ha.
    rewrite lstrip_by_keep by assumption.
    simpl. rewrite rev_involutive. reflexivity.
  - destruct (lstrip_by_cases p (rev y)) as [E' | (d' & r' & E' & Hd)];
      rewrite E in E'; [discriminate|]. injection E' as <- <-.
    rewrite Ha at 1. rewrite <- app_assoc. simpl.
    rewrite lstrip_by_keep by assumption.
    simpl. rewrite rev_app_distr. simpl. rewrite rev_involutive.
    rewrite <- !app_assoc. reflexivity.
Qed.

Lemma strip_cases (s : str) :
  strip s = [] \/ exists z c, strip s = z ++ [c] /\ isspace c = false.
Proof. apply rstrip_by_cases. Qed.

(** A character that is not whitespace survives [strip]. *)
Lemma strip_keeps (x : str) (c : char) (y : str) :
  isspace c = false -> exists x' y', strip (x ++ c :: y) = x' ++ c :: y'.
Proof.
  intros Hc. unfold strip.
  destruct (lstrip_by_suffix isspace x) as (a & Ha & Hp).
  destruct (lstrip_by isspace x) as [|d r] eqn:E.
  - rewrite app_nil_r in Ha. subst a.
    rewrite lstrip_by_keep by assumption.
    exists [], (rstrip_by isspace y).
    apply (rstrip_by_keep isspace [] c y Hc).
  - destruct (lstrip_by_cases isspace x) as [E' | (d' & r' & E' & Hd)];
      rewrite E in E'; [discriminate|]. injection E' as <- <-.
    clear E. subst x. rewrite <- app_assoc. simpl.
    rewrite lstrip_by_keep by assumption.
    exists (d :: r), (rstrip_by isspace y).
    apply (rstrip_by_keep isspace (d :: r) c y Hc).
Qed.

Lemma strip_nonempty (x : str) (c : char) (y : str) :
  isspace c = false -> strip (x ++ c :: y) <> [].
Proof.
  intros Hc E. destruct (strip_keeps x c y Hc) as (x' & y' & E').
  rewrite E in E'. destruct x'; discriminate.
Qed.

End PyFacts.

(** ** The patterns of [normalize_rule] *)
Section Rejection.
Context `{UnicodeData}.

(** C1.  On "128.0.0.1", "0.0.0 google" and "0.1.2.3.4 foo/bar" none of
    the three patterns matches, and [normalize_rule] returns
    [(None, None)] and prints the rule between "==>" and "<==", whatever
    the target IP and the comment flag are. *)
Theorem normalize_rule_no_match (target_ip : str) (keep_domain_comments : bool) :
  rejected target_ip keep_domain_comments (u "128.0.0.1") /\
  rejected target_ip keep_domain_comments (u "0.0.0 google") /\
  rejected target_ip keep_domain_comments (u "0.1.2.3.4 foo/bar") /\
  u "==>" ++ u "128.0.0.1" ++ u "<==" ++ nl = u "==>128.0.0.1<==" ++ nl.
Proof.
  unfold rejected. repeat split; vm_compute; reflexivity.
Qed.
End Rejection.

(** ** The matcher reads what the pattern describes *)
Section MatcherFacts.
Context `{UnicodeData}.

Lemma backoff_inv {A} (f : nat -> option A) (lo n : nat) (res : A) :
  backoff f lo n = Some res -> exists m, lo <= m <= n /\ f m = Some res.
Proof.
  induction n as [|n IH]; simpl.
  - destruct (Nat.ltb_spec 0 lo); [discriminate|].
    destruct (f 0) eqn:E; [|discriminate].
    intros [= ->]. exists 0. split; [lia | assumption].
  - destruct (Nat.ltb_spec (S n) lo); [discriminate|].
    destruct (f (S n)) eqn:E.
    + intros [= ->]. exists (S n). split; [lia | assumption].
    + intros Hb. destruct (IH Hb) as (m & Hm & Hf).
      exists m. split; [lia | assumption].
Qed.

Lemma span_spec (cl : cclass) (hi : option nat) (s : str) (m : nat) :
  m <= span cl hi s ->
  m <= length s /\ Forall (fun c => cmatch cl c = true) (take m s) /\
  match hi with
  | Some h => m <= h
  | None => True
  end.
Proof.
  revert hi m. induction s as [|c s IH]; intros hi m Hm.
  - assert (m = 0) as ->.
    { destruct hi as [[|h]|]; simpl in Hm; lia. }
    split_and!; [simpl; lia | constructor | destruct hi; [lia | exact I]].
  - destruct m as [|m].
    { split_and!; [simpl; lia | constructor | destruct hi; [lia | exact I]]. }
    assert (cmatch cl c = true /\ m <= span cl (pred <$> hi) s /\
            hi <> Some 0) as (Hc & Hm' & Hhi).
    { destruct hi as [[|h]|]; simpl in Hm |- *; try lia;
        destruct (cmatch cl c); try lia; split_and!; try lia;
        try reflexivity; discriminate. }
    destruct (IH _ _ Hm') as (Hlen & Hall & Hbound).
    split_and!; [simpl; lia | simpl; constructor; assumption |].
    destruct hi as [[|h]|]; simpl in *; [congruence | lia | exact I].
Qed.

(** A run that succeeds has read some [w] of the language of the
    pattern, recorded captures of its own groups only, and gone on with
    the continuation behind [w]. *)
Lemma run_sound (r : regex) :
  forall pos s caps k res,
    run r pos s caps k = Some res ->
    exists w s' extra,
      s = w ++ s' /\ lang r w /\
      Forall (fun p => p.1 ∈ group_ids r) extra /\
      k (pos + length w) s' (extra ++ caps) = Some res.
Proof.
  induction r as [ | | | cl | lo hi cl | r1 IH1 r2 IH2 | r1 IH1 r2 IH2 | i r1 IH1];
    intros pos s caps k res Hrun; simpl in Hrun.
  - exists [], s, []. simpl. rewrite Nat.add_0_r. auto.
  - destruct (Nat.eqb pos 0); [|discriminate].
    exists [], s, []. simpl. rewrite Nat.add_0_r. auto.
  - exists [], s, []. simpl. rewrite Nat.add_0_r.
    destruct s as [|c [|d s]]; [auto | | discriminate].
    destruct (c =? 10)%N; [auto | discriminate].
  - destruct s as [|c s]; [discriminate|].
    destruct (cmatch cl c) eqn:Hc; [|discriminate].
    exists [c], s, []. simpl. rewrite Nat.add_1_r. eauto 6.
  - apply backoff_inv in Hrun as (m & [Hlo Hm] & Hk).
    destruct (span_spec cl hi s m Hm) as (Hlen & Hall & Hhi).
    exists (take m s), (drop m s), [].
    rewrite take_drop, length_take, Nat.min_l by lia.
    split_and!; [reflexivity | | constructor | exact Hk].
    simpl. rewrite length_take, Nat.min_l by lia. auto.
  - apply IH1 in Hrun as (w1 & s1 & e1 & -> & Hw1 & He1 & Hrun).
    apply IH2 in Hrun as (w2 & s2 & e2 & -> & Hw2 & He2 & Hk).
    exists (w1 ++ w2), s2, (e2 ++ e1).
    rewrite length_app, Nat.add_assoc, <- (app_assoc e2). split_and!.
    + apply app_assoc.
    + simpl. exists w1, w2. auto.
    + simpl. apply Forall_app. split.
      * eapply Forall_impl; [exact He2|]. intros p Hp.
        apply elem_of_app. right. exact Hp.
      * eapply Forall_impl; [exact He1|]. intros p Hp.
        apply elem_of_app. left. exact Hp.
    + exact Hk.
  - destruct (run r1 pos s caps k) eqn:E1.
    + injection Hrun as ->.
      apply IH1 in E1 as (w & s' & e & -> & Hw & He & Hk).
      exists w, s', e. simpl. split_and!; auto.
      eapply Forall_impl; [exact He|]. intros p Hp.
      apply elem_of_app. left. exact Hp.
    + apply IH2 in Hrun as (w & s' & e & -> & Hw & He & Hk).
      exists w, s', e. simpl. split_and!; auto.
      eapply Forall_impl; [exact He|]. intros p Hp.
      apply elem_of_app. right. exact Hp.
  - apply IH1 in Hrun as (w & s' & e & -> & Hw & He & Hk).
    exists w, s', ((i, w) :: e).
    replace (pos + length w - pos) with (length w) in Hk by lia.
    rewrite take_app_length in Hk.
    simpl. split_and!; auto. constructor; [left|].
    eapply Forall_impl; [exact He|]. intros p Hp. right. exact Hp.
Qed.

Lemma no_groups_no_captures (extra : captures) :
  Forall (fun p => p.1 ∈ @nil nat) extra -> extra = [].
Proof.
  destruct extra as [|p extra]; [reflexivity|].
  intros Hall. apply Forall_cons in Hall as [Hp _]. inversion Hp.
Qed.

Lemma run_seq (r1 r2 : regex) pos s caps k res :
  run (r1 @@ r2) pos s caps k = Some res ->
  exists w s' caps',
    s = w ++ s' /\ lang r1 w /\ run r2 (pos + length w) s' caps' k = Some res.
Proof.
  simpl. intros Hrun.
  apply run_sound in Hrun as (w & s' & e & -> & Hw & _ & Hk). eauto 6.
Qed.

(** A pattern without groups leaves the captures as they are. *)
Lemma run_seq_plain (r1 r2 : regex) pos s caps k res :
  group_ids r1 = [] ->
  run (r1 @@ r2) pos s caps k = Some res ->
  exists w s',
    s = w ++ s' /\ lang r1 w /\ run r2 (pos + length w) s' caps k = Some res.
Proof.
  simpl. intros Hg Hrun.
  apply run_sound in Hrun as (w & s' & e & -> & Hw & He & Hk).
  rewrite Hg in He. apply no_groups_no_captures in He as ->. eauto.
Qed.

(** A group records what its pattern read. *)
Lemma run_group (i : nat) (r : regex) pos s caps k res :
  group_ids r = [] ->
  run (Group i r) pos s caps k = Some res ->
  exists w s',
    s = w ++ s' /\ lang r w /\
    k (pos + length w) s' ((i, w) :: caps) = Some res.
Proof.
  simpl. intros Hg Hrun.
  apply run_sound in Hrun as (w & s' & e & -> & Hw & He & Hk).
  rewrite Hg in He. apply no_groups_no_captures in He as ->.
  exists w, s'.
  replace (pos + length w - pos) with (length w) in Hk by lia.
  rewrite take_app_length in Hk. auto.
Qed.

Lemma run_seq_group (i : nat) (r r2 : regex) pos s caps k res :
  group_ids r = [] ->
  run (Group i r @@ r2) pos s caps k = Some res ->
  exists w s',
    s = w ++ s' /\ lang r w /\
    run r2 (pos + length w) s' ((i, w) :: caps) k = Some res.
Proof.
  intros Hg Hrun. change (run (Group i r @@ r2) pos s caps k)
    with (run (Group i r) pos s caps
            (fun pos' s' caps' => run r2 pos' s' caps' k)) in Hrun.
  apply run_group in Hrun; assumption.
Qed.

(** Without [MULTILINE] a pattern that starts with [^] can only match
    at the start of the text. *)
Lemma search_from_bol (r : regex) (s : str) (pos : nat) :
  search_from (Bol @@ r) (S pos) s = None.
Proof.
  revert pos. induction s as [|c s IH]; intros pos; simpl; [reflexivity|].
  apply IH.
Qed.

Lemma search_bol (r : regex) (s : str) :
  search (Bol @@ r) s = run r 0 s [] accept.
Proof.
  unfold search. destruct s as [|c s]; simpl.
  - destruct (run r 0 [] [] accept); reflexivity.
  - destruct (run r 0 (c :: s) [] accept); [reflexivity|].
    apply search_from_bol.
Qed.

End MatcherFacts.

(** ** What the three patterns capture *)

Ltac bool_lia :=
  repeat rewrite ?orb_true_iff, ?orb_false_iff, ?andb_true_iff,
    ?andb_false_iff, ?N.leb_le, ?N.leb_gt, ?N.eqb_eq, ?N.eqb_neq,
    ?N.ltb_lt, ?N.ltb_ge in *;
  lia.

Ltac eval_ch :=
  repeat match goal with
         | |- context [ch ?a] =>
             let v := eval vm_compute in (ch a) in change (ch a) with v
         end.

Section CharFacts.
Import Py.

Lemma ascii_letter_is_ascii (c : char) :
  ascii_letter c = true -> is_ascii c = true.
Proof.
  unfold ascii_letter, ascii_lower, ascii_upper, in_range, is_ascii.
  eval_ch. bool_lia.
Qed.

Lemma tolower_letter_not_space (c : char) :
  ascii_letter c = true -> isspace (tolower_ascii c) = false.
Proof.
  unfold tolower_ascii, ascii_letter, ascii_lower, ascii_upper.
  eval_ch. intros Hc.
  destruct (in_range 65%N 90%N c) eqn:E; unfold isspace, in_range in *; bool_lia.
Qed.

Lemma not_space_not_newline (c : char) : isspace c = false -> c <> 10%N.
Proof. intros Hc ->. discriminate. Qed.

Lemma dot_not_space : isspace (ch ".") = false.
Proof. reflexivity. Qed.
End CharFacts.

Section PatternFacts.
Context `{UnicodeData}.

Lemma lower_from_snoc (whole x : str) (i : nat) (c : char) :
  Py.is_ascii c = true ->
  Py.lower_from whole i (x ++ [c])
  = Py.lower_from whole i x ++ [Py.tolower_ascii c].
Proof.
  intros Hc. revert i. induction x as [|d x IH]; intros i; simpl.
  - rewrite Hc. reflexivity.
  - rewrite IH, app_assoc. reflexivity.
Qed.

Lemma host_shape (w : str) :
  lang host w -> exists x c, w = x ++ [c] /\ Py.ascii_letter c = true.
Proof.
  intros (w1 & w2 & -> & _ & c & -> & Hc). exists w1, c. split; [reflexivity|].
  simpl in Hc. rewrite orb_false_r in Hc. exact Hc.
Qed.

Lemma dotstar_no_newline (w : str) :
  lang (Many 0 None Dot) w -> Forall (fun c => c <> 10%N) w.
Proof.
  intros (_ & Hall & _). eapply Forall_impl; [exact Hall|].
  intros c Hc. simpl in Hc. intros ->. discriminate.
Qed.

Lemma ipv4_has_dot (w : str) :
  lang ipv4 w -> exists x y, w = x ++ ch "." :: y.
Proof.
  intros (w1 & w2 & -> & _ & w3 & w4 & -> & (c & -> & Hc) & _).
  exists w1, w4. simpl in Hc. rewrite orb_false_r in Hc.
  apply N.eqb_eq in Hc. subst c. reflexivity.
Qed.

(** The hostname of a match, lower-cased and stripped, ends with a
    character that is not whitespace. *)
Lemma host_key_shape (w : str) :
  lang host w ->
  exists z c, Py.strip (Py.lower w) = z ++ [c] /\ Py.isspace c = false.
Proof.
  intros Hw. destruct (host_shape w Hw) as (x & c & -> & Hc).
  unfold Py.lower.
  rewrite lower_from_snoc by (apply ascii_letter_is_ascii; exact Hc).
  pose proof (tolower_letter_not_space c Hc) as Hsp.
  destruct (PyFacts.strip_cases
              (Py.lower_from (x ++ [c]) 0 x ++ [Py.tolower_ascii c]))
    as [E | (z & d & E & Hd)].
  - exfalso. eapply PyFacts.strip_nonempty; [exact Hsp | exact E].
  - exists z, d. auto.
Qed.

Lemma ipv4_key_shape (w : str) :
  lang ipv4 w ->
  exists z c, Py.strip w = z ++ [c] /\ Py.isspace c = false.
Proof.
  intros Hw. destruct (ipv4_has_dot w Hw) as (x & y & ->).
  destruct (PyFacts.strip_cases (x ++ ch "." :: y)) as [E | (z & d & E & Hd)].
  - exfalso. eapply PyFacts.strip_nonempty; [exact dot_not_space | exact E].
  - exists z, d. auto.
Qed.

Lemma ip_domain_groups (rule : str) (res : captures) :
  search ip_domain_regex rule = Some res ->
  exists w2 w3,
    group res 2 = Some w2 /\ group res 3 = Some w3 /\
    lang host w2 /\ lang (Many 0 None Dot) w3.
Proof.
  unfold ip_domain_regex. rewrite search_bol. intros Hrun.
  apply run_seq in Hrun as (? & ? & ? & _ & _ & Hrun).
  apply run_seq in Hrun as (? & ? & ? & _ & _ & Hrun).
  apply run_seq in Hrun as (? & ? & ? & _ & _ & Hrun).
  apply run_seq in Hrun as (? & ? & ? & _ & _ & Hrun).
  apply run_seq_group in Hrun as (w2 & ? & _ & Hw2 & Hrun); [|reflexivity].
  apply run_group in Hrun as (w3 & ? & _ & Hw3 & Hrun); [|reflexivity].
  injection Hrun as <-. exists w2, w3. simpl. auto.
Qed.

Lemma ip_ip_groups (rule : str) (res : captures) :
  search ip_ip_regex rule = Some res ->
  exists w2 w3,
    group res 2 = Some w2 /\ group res 3 = Some w3 /\
    lang ipv4 w2 /\ lang (Many 0 None Dot) w3.
Proof.
  unfold ip_ip_regex. rewrite search_bol. intros Hrun.
  apply run_seq in Hrun as (? & ? & ? & _ & _ & Hrun).
  apply run_seq in Hrun as (? & ? & ? & _ & _ & Hrun).
  apply run_seq in Hrun as (? & ? & ? & _ & _ & Hrun).
  apply run_seq_group in Hrun as (w2 & ? & _ & Hw2 & Hrun); [|reflexivity].
  apply run_seq_plain in Hrun as (? & ? & _ & _ & Hrun); [|reflexivity].
  apply run_group in Hrun as (w3 & ? & _ & Hw3 & Hrun); [|reflexivity].
  injection Hrun as <-. exists w2, w3. simpl. auto.
Qed.

Lemma raw_domain_groups (rule : str) (res : captures) :
  search raw_domain_regex rule = Some res ->
  exists w1 w2,
    group res 1 = Some w1 /\ group res 2 = Some w2 /\
    lang host w1 /\ lang (Many 0 None Dot) w2.
Proof.
  unfold raw_domain_regex. rewrite search_bol. intros Hrun.
  apply run_seq in Hrun as (? & ? & ? & _ & _ & Hrun).
  apply run_seq_group in Hrun as (w1 & ? & _ & Hw1 & Hrun); [|reflexivity].
  apply run_group in Hrun as (w2 & ? & _ & Hw2 & Hrun); [|reflexivity].
  injection Hrun as <-. exists w1, w2. simpl. auto.
Qed.

(** Whatever pattern matched: the key ends with a character that is not
    whitespace, and the suffix is there and holds no newline. *)
Lemma extract_shape (rule key : str) (suffix : option str) :
  extract rule = Some (key, suffix) ->
  (exists z c, key = z ++ [c] /\ Py.isspace c = false) /\
  exists w, suffix = Some w /\ Forall (fun c => c <> 10%N) w.
Proof.
  unfold extract.
  destruct (search ip_domain_regex rule) as [res|] eqn:E1.
  { destruct (ip_domain_groups _ _ E1) as (w2 & w3 & -> & -> & Hw2 & Hw3).
    intros [= <- <-]. split.
    - apply host_key_shape, Hw2.
    - exists w3. split; [reflexivity | apply dotstar_no_newline, Hw3]. }
  destruct (search ip_ip_regex rule) as [res|] eqn:E2.
  { destruct (ip_ip_groups _ _ E2) as (w2 & w3 & -> & -> & Hw2 & Hw3).
    intros [= <- <-]. split.
    - apply ipv4_key_shape, Hw2.
    - exists w3. split; [reflexivity | apply dotstar_no_newline, Hw3]. }
  destruct (search raw_domain_regex rule) as [res|] eqn:E3; [|discriminate].
  destruct (raw_domain_groups _ _ E3) as (w1 & w2 & -> & -> & Hw1 & Hw2).
  intros [= <- <-]. split.
  - apply host_key_shape, Hw1.
  - exists w2. split; [reflexivity | apply dotstar_no_newline, Hw2].
Qed.

(** [normalize_rule] is [normalize_response] on what [extract] finds. *)
Lemma normalize_rule_extract (rule target_ip : str) (keep : bool) :
  normalize_rule rule target_ip keep =
  match extract rule with
  | Some (key, suffix) =>
      ((Some key, Some (snd (normalize_response target_ip keep key suffix))), [])
  | None => ((None, None), u "==>" ++ rule ++ u "<==" ++ nl)
  end.
Proof.
  unfold normalize_rule, extract.
  destruct (search ip_domain_regex rule); [reflexivity|].
  destruct (search ip_ip_regex rule); [reflexivity|].
  destruct (search raw_domain_regex rule); reflexivity.
Qed.

End PatternFacts.

(** ** The output line of [normalize_rule] *)
Section OutputFacts.
Context `{UnicodeData}.

Lemma words_scan_token (t rest cur : str) (c : char) :
  Forall (fun x => Py.isspace x = false) t ->
  Py.isspace c = true ->
  rev cur ++ t <> [] ->
  Py.words_scan cur (t ++ c :: rest)
  = (rev cur ++ t) :: Py.words_scan [] rest.
Proof.
  intros Ht Hc. revert cur.
  induction Ht as [|x t Hx Ht IH]; intros cur Hne; simpl.
  - rewrite Hc. rewrite app_nil_r in *.
    destruct cur; [contradiction Hne; reflexivity | reflexivity].
  - rewrite Hx. rewrite IH.
    + simpl. rewrite <- app_assoc. reflexivity.
    + simpl. rewrite <- app_assoc. simpl.
      intros E. apply app_eq_nil in E as [_ E]. discriminate.
Qed.

Lemma first_token_prefix (t rest : str) :
  t <> [] -> Forall (fun x => Py.isspace x = false) t ->
  first_token (t ++ u " " ++ rest) = Some t.
Proof.
  intros Hne Ht. unfold first_token, Py.words.
  change (u " " ++ rest) with (32%N :: rest).
  rewrite words_scan_token; [reflexivity | assumption | reflexivity | exact Hne].
Qed.

Lemma one_newline (x : str) (c : char) :
  c <> 10%N -> ends_with_one_newline ((x ++ [c]) ++ nl).
Proof.
  intros Hc. exists (x ++ [c]). split; [reflexivity|].
  intros body' E. apply app_inj_tail in E as [_ E]. exact (Hc E).
Qed.

Lemma last_of_nonempty (w : str) :
  w <> [] -> Forall (fun c => c <> 10%N) w ->
  exists x c, w = x ++ [c] /\ c <> 10%N.
Proof.
  intros Hne Hall. destruct (exists_last Hne) as (x & c & ->).
  exists x, c. split; [reflexivity|].
  apply Forall_app in Hall as [_ Hc]. apply Forall_cons in Hc as [Hc _].
  exact Hc.
Qed.

Lemma nonempty_true (s : str) : nonempty s = true <-> s <> [].
Proof. destruct s; simpl; split; intros; congruence. Qed.

Lemma length_pos_nonempty (s : str) : Nat.ltb 0 (length s) = nonempty s.
Proof. destruct s; reflexivity. Qed.

(** C2, as the code has it.  For a rule that one of the three patterns
    matches, with a target IP that is not empty, comments kept and a
    suffix that is not empty, the output line is the target IP, a
    space, the key, " #", the extracted suffix as it is, and a newline:
    nothing is taken away from the suffix. *)
Theorem normalize_rule_appends_suffix (rule target_ip key suffix : str) :
  extract rule = Some (key, Some suffix) ->
  target_ip <> [] ->
  suffix <> [] ->
  normalize_rule rule target_ip true
  = ((Some key,
      Some (target_ip ++ u " " ++ key ++ u " #" ++ suffix ++ nl)), []).
Proof.
  intros Hex Ht Hs. rewrite normalize_rule_extract, Hex.
  unfold normalize_response. rewrite length_pos_nonempty.
  apply nonempty_true in Ht, Hs. rewrite Ht. cbn [truthy]. rewrite Hs.
  cbn [andb snd]. change (default [] (Some suffix)) with suffix.
  rewrite <- !app_assoc. reflexivity.
Qed.

(** C3, as the code has it.  When [normalize_rule] returns a key and an
    output line: the line ends with one newline and not two, the key is
    not empty, with an empty target IP the line is the key and a
    newline, and with a target IP that is not empty and holds no
    whitespace the first whitespace-delimited token of the line is the
    target IP. *)
Theorem normalize_rule_output (rule target_ip : str) (keep : bool)
    (key out printed : str) :
  normalize_rule rule target_ip keep = ((Some key, Some out), printed) ->
  ends_with_one_newline out /\
  key <> [] /\
  (target_ip = [] -> out = key ++ nl) /\
  (target_ip <> [] ->
   Forall (fun c => Py.isspace c = false) target_ip ->
   first_token out = Some target_ip).
Proof.
  rewrite normalize_rule_extract.
  destruct (extract rule) as [[key' suffix]|] eqn:Hex; [|discriminate].
  intros Heq.
  pose proof (f_equal (fun r => r.1.1) Heq) as Hk.
  pose proof (f_equal (fun r => r.1.2) Heq) as Ho.
  cbn [fst snd] in Hk, Ho.
  apply (inj Some) in Hk, Ho. subst key out. clear Heq.
  destruct (extract_shape _ _ _ Hex) as ((z & c & -> & Hc) & w & -> & Hw).
  pose proof (not_space_not_newline c Hc) as Hc'.
  unfold normalize_response. rewrite length_pos_nonempty. cbn [snd].
  split_and!.
  - destruct (nonempty target_ip); [|apply one_newline, Hc'].
    destruct (keep && truthy (Some w)) eqn:Hk.
    + apply andb_prop in Hk as [_ Hk]. cbn [truthy] in Hk.
      apply nonempty_true in Hk.
      destruct (last_of_nonempty w Hk Hw) as (x & d & -> & Hd).
      change (default [] (Some (x ++ [d]))) with (x ++ [d]).
      rewrite !app_assoc. apply one_newline, Hd.
    + rewrite !app_assoc. apply one_newline, Hc'.
  - destruct z; discriminate.
  - intros ->. reflexivity.
  - intros Hne Hsp. apply nonempty_true in Hne as Hne'. rewrite Hne'.
    destruct (keep && truthy (Some w));
      rewrite <- ?app_assoc; apply first_token_prefix; assumption.
Qed.

End OutputFacts.

(** ** The two theorems above at concrete rules, and where the
    specification's wording of them fails *)

Lemma normalize_rule_appends_suffix_witness :
  let rule := u "127.0.0.1 1.google.co.uk foo" in
  let target_ip := u "8.8.8.8" in
  extract (H := ascii_tables) rule = Some (u "1.google.co.uk", Some (u " foo")) /\
  target_ip <> [] /\
  u " foo" <> [] /\
  normalize_rule (H := ascii_tables) rule target_ip true
  = ((Some (u "1.google.co.uk"),
      Some (target_ip ++ u " " ++ u "1.google.co.uk" ++ u " #" ++ u " foo" ++ nl)),
     []).
Proof.
  cbv zeta. split_and!.
  - vm_compute. reflexivity.
  - discriminate.
  - discriminate.
  - apply (normalize_rule_appends_suffix (H := ascii_tables)).
    + vm_compute. reflexivity.
    + discriminate.
    + discriminate.
Defined.

(** C2, as the specification words it, fails: the suffix "#c" that the
    first pattern extracts from "0.0.0.0 example.com#c" keeps its ['#']
    behind the marker that [normalize_response] adds. *)
Lemma normalize_rule_duplicates_marker :
  let rule := u "0.0.0.0 example.com#c" in
  extract (H := ascii_tables) rule = Some (u "example.com", Some (u "#c")) /\
  normalize_rule (H := ascii_tables) rule (u "0.0.0.0") true
  = ((Some (u "example.com"), Some (u "0.0.0.0 example.com ##c" ++ nl)), []) /\
  spec_output_with_comment (u "0.0.0.0") (u "example.com") (u "#c")
  = u "0.0.0.0 example.com #c" ++ nl /\
  u "0.0.0.0 example.com ##c" ++ nl
  <> spec_output_with_comment (u "0.0.0.0") (u "example.com") (u "#c").
Proof.
  cbv zeta. split_and!; [vm_compute; reflexivity .. | ].
  vm_compute. discriminate.
Qed.

Lemma normalize_rule_output_witness :
  let rule := u "127.0.0.1 1.google.com foo" in
  let target_ip := u "8.8.8.8" in
  let out := u "8.8.8.8 1.google.com # foo" ++ nl in
  normalize_rule (H := ascii_tables) rule target_ip true
  = ((Some (u "1.google.com"), Some out), []) /\
  ends_with_one_newline out /\
  u "1.google.com" <> [] /\
  (target_ip = [] -> out = u "1.google.com" ++ nl) /\
  (target_ip <> [] ->
   Forall (fun c => Py.isspace c = false) target_ip ->
   first_token out = Some target_ip).
Proof.
  cbv zeta.
  assert (Hrun : normalize_rule (H := ascii_tables)
                   (u "127.0.0.1 1.google.com foo") (u "8.8.8.8") true
                 = ((Some (u "1.google.com"),
                     Some (u "8.8.8.8 1.google.com # foo" ++ nl)), []))
    by (vm_compute; reflexivity).
  split; [exact Hrun|].
  exact (normalize_rule_output (H := ascii_tables) _ _ _ _ _ _ Hrun).
Defined.

(** C3, as the specification words it, fails for a target IP that holds
    whitespace: the first token of the line is then only a part of it. *)
Lemma first_token_is_not_target_ip :
  let target_ip := u "8.8.8.8 dns" in
  normalize_rule (H := ascii_tables) (u "127.0.0.1 1.google.com foo")
    target_ip false
  = ((Some (u "1.google.com"), Some (u "8.8.8.8 dns 1.google.com" ++ nl)), []) /\
  target_ip <> [] /\
  first_token (u "8.8.8.8 dns 1.google.com" ++ nl) = Some (u "8.8.8.8") /\
  first_token (u "8.8.8.8 dns 1.google.com" ++ nl) <> Some target_ip.
Proof.
  cbv zeta. split_and!.
  - vm_compute. reflexivity.
  - discriminate.
  - vm_compute. reflexivity.
  - vm_compute. discriminate.
Qed.

(** ** [replace] and [rstrip] keep a text that shares no character with
    what they look for *)
Section ReplaceFacts.
Import Py.

Lemma split_scan_cur (sep cur : str) (skip : nat) (s : str) :
  exists h t,
    split_scan sep [] skip s = h :: t /\
    split_scan sep cur skip s = (rev cur ++ h) :: t.
Proof.
  revert cur skip. induction s as [|c s IH]; intros cur skip; simpl.
  - exists [], []. rewrite app_nil_r. auto.
  - destruct skip as [|k].
    + destruct (startswith (c :: s) sep).
      * eexists _, _. split; [reflexivity|]. rewrite app_nil_r. reflexivity.
      * destruct (IH [c] 0) as (h & t & E0 & E1).
        destruct (IH (c :: cur) 0) as (h' & t' & E0' & E1').
        rewrite E0 in E0'. injection E0' as <- <-.
        exists (c :: h), t. rewrite E1, E1'. simpl.
        rewrite <- app_assoc. auto.
    + apply IH.
Qed.

Lemma join_split_scan_cur (sep new cur : str) (skip : nat) (s : str) :
  join new (split_scan sep cur skip s)
  = rev cur ++ join new (split_scan sep [] skip s).
Proof.
  destruct (split_scan_cur sep cur skip s) as (h & t & -> & ->).
  destruct t; simpl; [reflexivity|]. rewrite <- app_assoc. reflexivity.
Qed.

Lemma join_cons_split_scan (sep new p cur : str) (skip : nat) (s : str) :
  join new (p :: split_scan sep cur skip s)
  = p ++ new ++ join new (split_scan sep cur skip s).
Proof.
  destruct (split_scan_cur sep cur skip s) as (h & t & _ & ->). reflexivity.
Qed.

Lemma startswith_head (s sep : str) (c : char) :
  sep <> [] -> c ∉ sep -> startswith (c :: s) sep = false.
Proof.
  intros Hne Hc. destruct sep as [|d sep]; [contradiction|]. simpl.
  destruct (N.eqb_spec d c) as [->|]; [|reflexivity].
  exfalso. apply Hc. constructor.
Qed.

(** Reading through [m], whose characters are not in [sep]. *)
Lemma scan_through (sep new m b : str) :
  sep <> [] -> Forall (fun c => c ∉ sep) m ->
  join new (split_scan sep [] 0 (m ++ b))
  = m ++ join new (split_scan sep [] 0 b).
Proof.
  intros Hne Hm. induction Hm as [|c m Hc Hm IH]; [reflexivity|].
  simpl app. cbn [split_scan]. rewrite startswith_head by assumption.
  rewrite join_split_scan_cur, IH. reflexivity.
Qed.

Lemma scan_keeps (sep new : str) (c0 : char) (m b a : str) :
  sep <> [] -> Forall (fun c => c ∉ sep) (c0 :: m) ->
  forall skip t,
    length t = skip -> Forall (fun c => c ∈ sep) t ->
    (exists r, a ++ (c0 :: m) ++ b = t ++ r) ->
    exists a' b',
      join new (split_scan sep [] skip (a ++ (c0 :: m) ++ b))
      = a' ++ (c0 :: m) ++ b'.
Proof.
  intros Hne Hm. remember ((c0 :: m) ++ b) as rest eqn:Hrest.
  induction a as [|x a IH]; intros skip t Hlen Ht (r & Hr).
  - destruct t as [|y t].
    + simpl in Hlen. subst skip rest.
      exists [], (join new (split_scan sep [] 0 b)).
      exact (scan_through sep new (c0 :: m) b Hne Hm).
    + exfalso. subst rest. simpl in Hr. injection Hr as <- _.
      apply Forall_cons in Ht as [Hy _]. apply Forall_cons in Hm as [Hc _].
      exact (Hc Hy).
  - change ((x :: a) ++ rest) with (x :: a ++ rest) in *.
    destruct t as [|y t]; simpl in Hlen; subst skip.
    + cbn [split_scan].
      destruct (startswith (x :: a ++ rest) sep) eqn:E.
      * apply PyFacts.startswith_inv in E as (r' & E).
        destruct sep as [|d sep]; [contradiction|].
        simpl in E. injection E as -> E.
        destruct (IH (length (d :: sep) - 1) sep) as (a' & b' & E').
        { simpl. lia. }
        { apply Forall_forall. intros z Hz. right. exact Hz. }
        { exists r'. exact E. }
        rewrite join_cons_split_scan, E'.
        exists (new ++ a'), b'.
        simpl. rewrite <- app_assoc. reflexivity.
      * rewrite join_split_scan_cur.
        destruct (IH 0 []) as (a' & b' & E');
          [reflexivity | constructor | eexists; reflexivity |].
        rewrite E'. exists (x :: a'), b'. reflexivity.
    + cbn [split_scan]. simpl in Hr. injection Hr as -> Hr.
      apply Forall_cons in Ht as [_ Ht].
      apply (IH (length t) t); [reflexivity | assumption | eauto].
Qed.

(** [s.replace(old, new)] keeps an occurrence of a text that shares no
    character with [old]. *)
Lemma replace_keeps (old new m s : str) :
  old <> [] -> m <> [] -> Forall (fun c => c ∉ old) m ->
  contains m s = true -> contains m (replace s old new) = true.
Proof.
  intros Hne Hm Hall Hc. apply PyFacts.contains_spec in Hc as (a & b & ->).
  destruct m as [|c0 m]; [contradiction|].
  destruct (scan_keeps old new c0 m b a Hne Hall 0 [])
    as (a' & b' & E); [reflexivity | constructor | eexists; reflexivity |].
  apply PyFacts.contains_spec. exists a', b'. exact E.
Qed.

(** [s.rstrip(chars)] keeps an occurrence of a text that ends with a
    character outside [chars]. *)
Lemma rstrip_keeps (chars m : str) (c : char) (s : str) :
  mem c chars = false ->
  contains (m ++ [c]) s = true -> contains (m ++ [c]) (rstrip s chars) = true.
Proof.
  intros Hc Hs. apply PyFacts.contains_spec in Hs as (a & b & ->).
  apply PyFacts.contains_spec. unfold rstrip.
  exists a, (rstrip_by (fun c => mem c chars) b).
  replace (a ++ (m ++ [c]) ++ b) with ((a ++ m) ++ c :: b)
    by (rewrite <- !app_assoc; reflexivity).
  rewrite PyFacts.rstrip_by_keep by exact Hc.
  rewrite <- !app_assoc. reflexivity.
Qed.

End ReplaceFacts.

(** ** The loop of [write_final_file] *)
Section LoopFacts.
Context `{UnicodeData}.

(** Writing and decoding, when they return. *)
Lemma write_data_inv (f f' : list write) (data : write) :
  write_data f data = Ok f' -> f' = f ++ [data].
Proof.
  unfold write_data. destruct (Py.encode_utf8 (write_text data));
    cbn [mbind result_bind]; [|discriminate].
  intros E. injection E as <-. reflexivity.
Qed.

Lemma loop_turn_inv (cfg : settings) (st st' : loop_state) (raw : bytes) :
  loop_turn cfg st raw = Ok st' ->
  exists line, Py.decode_utf8 raw = Ok line /\ loop_body cfg st line = Ok st'.
Proof.
  unfold loop_turn. destruct (Py.decode_utf8 raw) as [line|e];
    cbn [mbind result_bind]; [|discriminate].
  intros Hbody. exists line. auto.
Qed.

Lemma loop_turn_decoded (cfg : settings) (st : loop_state) (raw : bytes)
    (line : str) :
  Py.decode_utf8 raw = Ok line -> loop_turn cfg st raw = loop_body cfg st line.
Proof. unfold loop_turn. intros ->. reflexivity. Qed.

Lemma loop_app (cfg : settings) (before after : list bytes) (st : loop_state) :
  loop cfg (before ++ after) st =
  match loop cfg before st with
  | (st', None) => loop cfg after st'
  | (st', Some e) => (st', Some e)
  end.
Proof.
  revert st. induction before as [|line before IH]; intros st; simpl.
  - reflexivity.
  - destruct (loop_turn cfg st line); [apply IH | reflexivity].
Qed.

(** The loopback text survives the first lines of the loop body. *)
Lemma preprocess_keeps_loopback (line : str) :
  Py.contains (u "::1") line = true ->
  Py.contains (u "::1") (preprocess line) = true.
Proof.
  intros Hc. unfold preprocess.
  apply (rstrip_keeps (u " .") (u "::") (ch "1")); [reflexivity|].
  apply replace_keeps; [discriminate | discriminate | | exact Hc].
  vm_compute. repeat constructor; intros Hin;
    repeat (apply elem_of_cons in Hin as [Hin|Hin]; [discriminate|]);
    inversion Hin.
Qed.

(** C5.  A line that holds "::1" and is not passed through as a blank
    or comment line leaves the output file, the seen hostnames, the
    counter and the standard output as they are, whatever the settings
    are: the run goes as if the line were not in the stream.  [line] is
    what the line [raw] of the stream decodes to. *)
Theorem loopback_line_dropped (cfg : settings) (st : loop_state)
    (raw : bytes) (line : str) (before after : list bytes) :
  Py.decode_utf8 raw = Ok line ->
  Py.contains (u "::1") line = true ->
  passes_through (minimise cfg) (preprocess line) = Ok false ->
  loop_body cfg st line = Ok st /\
  loop_turn cfg st raw = Ok st /\
  loop cfg (before ++ raw :: after) st = loop cfg (before ++ after) st.
Proof.
  intros Hraw Hc Hp.
  assert (Hbody : forall st', loop_body cfg st' line = Ok st').
  { intros st'. unfold loop_body. rewrite Hp. cbn [mbind result_bind].
    rewrite preprocess_keeps_loopback by exact Hc. reflexivity. }
  split; [apply Hbody|].
  split; [rewrite (loop_turn_decoded _ _ _ _ Hraw); apply Hbody|].
  rewrite !loop_app. destruct (loop cfg before st) as [st' [e|]];
    [reflexivity|].
  simpl. rewrite (loop_turn_decoded _ _ _ _ Hraw), Hbody. reflexivity.
Qed.

End LoopFacts.

Lemma loopback_line_dropped_witness :
  let line := u "::1 ip6-localhost" ++ nl in
  let raw : bytes := line in
  let st := initial_state get_defaults [] [] in
  let before : list bytes := [u "0.0.0.0 example.com" ++ nl] in
  Py.decode_utf8 raw = Ok line /\
  Py.contains (u "::1") line = true /\
  passes_through (H := ascii_tables) (minimise get_defaults) (preprocess line)
  = Ok false /\
  loop_body (H := ascii_tables) get_defaults st line = Ok st /\
  loop_turn (H := ascii_tables) get_defaults st raw = Ok st /\
  loop (H := ascii_tables) get_defaults (before ++ raw :: []) st
  = loop (H := ascii_tables) get_defaults (before ++ []) st.
Proof.
  cbv zeta. split; [vm_compute; reflexivity|].
  split; [vm_compute; reflexivity|].
  split; [vm_compute; reflexivity|].
  apply (loopback_line_dropped (H := ascii_tables)).
  - vm_compute. reflexivity.
  - vm_compute. reflexivity.
  - vm_compute. reflexivity.
Defined.

(** ** The seen hostnames *)
Section Dedup.
Context `{UnicodeData}.

(** What a turn of the loop can do to the file and the seen set. *)
Lemma loop_body_cases (cfg : settings) (st st' : loop_state) (line : str) :
  loop_body cfg st line = Ok st' ->
  (hostnames st' = hostnames st /\
   (final_file st' = final_file st \/
    exists text,
      final_file st' = final_file st ++ [Verbatim text] /\
      minimise cfg = false)) \/
  (exists hostname text,
     (hostname ∉ hostnames st) /\
     hostnames st' = {[hostname]} ∪ hostnames st /\
     final_file st' = final_file st ++ [Rule hostname text]).
Proof.
  unfold loop_body.
  destruct (passes_through (minimise cfg) (preprocess line)) as [pass|e]
    eqn:Hpass; cbn [mbind result_bind]; [|discriminate].
  destruct pass.
  { destruct (write_data (final_file st) (Verbatim (preprocess line)))
      as [f|e] eqn:Hw; cbn [mbind result_bind]; [|discriminate].
    apply write_data_inv in Hw as ->.
    intros [= <-]. left. simpl. split; [reflexivity|]. right.
    eexists. split; [reflexivity|].
    destruct (minimise cfg); [discriminate Hpass | reflexivity]. }
  clear Hpass.
  destruct (Py.contains (u "::1") (preprocess line)).
  { intros [= <-]. left. eauto. }
  destruct (negb (nonempty (strip_rule (preprocess line) (minimise cfg)))
            || (matches_exclusions
                  (strip_rule (preprocess line) (minimise cfg))
                  (exclusion_regexes cfg))).
  { intros [= <-]. left. eauto. }
  destruct (Py.contains (u "@") (strip_rule (preprocess line) (minimise cfg))).
  { intros [= <-]. left. eauto. }
  destruct (normalize_rule _ _ _) as [[hostname normalized_rule] printed].
  destruct hostname as [hostname|], normalized_rule as [normalized_rule|];
    try (intros [= <-]; left; simpl; eauto).
  cbn [hostnames final_file].
  destruct (nonempty normalized_rule); cbn [andb];
    [|intros [= <-]; left; simpl; eauto].
  destruct (bool_decide (hostname ∈ hostnames st)) eqn:Hin; cbn [negb andb];
    [intros [= <-]; left; simpl; eauto|].
  apply bool_decide_eq_false in Hin.
  destruct (negb (existsb _ (exclusions cfg)));
    [|intros [= <-]; left; simpl; eauto].
  destruct (write_data (final_file st) (Rule hostname normalized_rule))
    as [f|e] eqn:Hw; cbn [mbind result_bind]; [|discriminate].
  apply write_data_inv in Hw as ->.
  intros [= <-]. right. exists hostname, normalized_rule. simpl. auto.
Qed.

Lemma loop_body_seen (cfg : settings) (st st' : loop_state) (line : str) :
  loop_body cfg st line = Ok st' ->
  seen_ok st -> seen_ok st' /\ hostnames st ⊆ hostnames st'.
Proof.
  intros Hbody (Hnd & Hres & Hseen).
  destruct (loop_body_cases _ _ _ _ Hbody)
    as [(Hh & [Hf | (text & Hf & _)]) | (hostname & text & Hnew & Hh & Hf)];
    unfold seen_ok, written_keys in *; rewrite Hh, Hf.
  - auto.
  - rewrite omap_app. simpl. rewrite app_nil_r. auto.
  - rewrite omap_app. simpl. rewrite Hseen in Hnew.
    apply not_elem_of_union in Hnew as [Hnew1 Hnew2].
    rewrite elem_of_list_to_set in Hnew2.
    split; [split_and!|].
    + apply NoDup_app. split_and!; [exact Hnd | | apply NoDup_singleton].
      intros k Hk Hk'. apply list_elem_of_singleton in Hk' as ->.
      exact (Hnew2 Hk).
    + apply Forall_app. split; [exact Hres|].
      constructor; [exact Hnew1 | constructor].
    + rewrite Hseen, list_to_set_app_L. simpl.
      rewrite (union_empty_r_L {[hostname]}).
      rewrite (union_comm_L {[hostname]}), (assoc_L (∪)). reflexivity.
    + apply union_subseteq_r.
Qed.

Lemma loop_seen (cfg : settings) (lines : list bytes) (st : loop_state) :
  seen_ok st ->
  seen_ok (fst (loop cfg lines st)) /\
  hostnames st ⊆ hostnames (fst (loop cfg lines st)).
Proof.
  revert st. induction lines as [|raw lines IH]; intros st Hok; simpl.
  - auto.
  - destruct (loop_turn cfg st raw) as [st'|e] eqn:Hturn; simpl; [|auto].
    apply loop_turn_inv in Hturn as (line & _ & Hbody).
    destruct (loop_body_seen _ _ _ _ Hbody Hok) as [Hok' Hsub].
    destruct (IH st' Hok') as [Hok'' Hsub']. split; [exact Hok''|].
    etrans; eassumption.
Qed.

Lemma final_state_loop (temp_file : list bytes) (cfg : settings) :
  final_state temp_file cfg
  = fst (loop cfg temp_file (initial_state cfg [] [])).
Proof.
  unfold final_state, write_final_file.
  destruct (loop cfg temp_file (initial_state cfg [] [])). reflexivity.
Qed.

(** X24: the rules of a run.  In every run of [write_final_file], over
    the lines [prefix ++ rest] and with any settings, also when the run
    is ended by an exception: no hostname is the key of two written
    rules, none of the four reserved hostnames is the key of a written
    rule, the set of seen hostnames is the four reserved ones and the
    keys of the written rules, and it holds all that was seen after
    [prefix].  The lines passed through as they are have no key: what
    they hold is not looked at (see C4 and C6). *)
Theorem seen_hostnames_invariant (cfg : settings) (prefix rest : list bytes) :
  let st := final_state (prefix ++ rest) cfg in
  NoDup (written_keys st) /\
  Forall (fun key => key ∉ reserved_hostnames) (written_keys st) /\
  hostnames st = reserved_hostnames ∪ list_to_set (written_keys st) /\
  hostnames (final_state prefix cfg) ⊆ hostnames st.
Proof.
  cbv zeta. rewrite !final_state_loop.
  assert (Hinit : seen_ok (initial_state cfg [] [])).
  { split_and!; [constructor | constructor |].
    simpl. rewrite (right_id_L ∅ (∪)). reflexivity. }
  destruct (loop_seen cfg (prefix ++ rest) _ Hinit) as [(Hnd & Hres & Hseen) _].
  split_and!; [exact Hnd | exact Hres | exact Hseen |].
  rewrite loop_app.
  destruct (loop_seen cfg prefix _ Hinit) as [Hok _].
  destruct (loop cfg prefix (initial_state cfg [] [])) as [st' [e|]];
    [reflexivity|].
  apply loop_seen. exact Hok.
Qed.

(** C4, where the code leaves it.  With the default settings (minimise
    off) the lines that begin with a space are written as they are,
    whatever they hold: the body then has a rule for the reserved
    hostname "localhost", and the hostname "a.com" twice, once in the
    normalised rule and once in the indented line.  The counter has one
    rule. *)
Theorem verbatim_lines_escape_dedup :
  let temp_file : list bytes :=
    [u " 0.0.0.0 localhost" ++ nl; u "0.0.0.0 a.com" ++ nl;
     u " 0.0.0.0 a.com" ++ nl] in
  minimise get_defaults = false /\
  map write_text (final_file (final_state temp_file get_defaults))
  = [u " 0.0.0.0 localhost" ++ nl; u "0.0.0.0 a.com" ++ nl;
     u " 0.0.0.0 a.com" ++ nl] /\
  written_keys (final_state temp_file get_defaults) = [u "a.com"] /\
  rules (final_state temp_file get_defaults) = 1%Z.
Proof.
  cbv zeta. split_and!; vm_compute; reflexivity.
Qed.

(** With minimise on no line is passed through: the file holds
    normalised rules only, one for each key. *)
Lemma loop_rules_only (cfg : settings) (lines : list bytes) (st : loop_state) :
  minimise cfg = true ->
  Forall is_rule (final_file st) ->
  Forall is_rule (final_file (fst (loop cfg lines st))).
Proof.
  intros Hm. revert st. induction lines as [|raw lines IH]; intros st Hst.
  - exact Hst.
  - simpl. destruct (loop_turn cfg st raw) as [st'|e] eqn:Hturn; [|exact Hst].
    apply loop_turn_inv in Hturn as (line & _ & Hbody).
    apply IH.
    destruct (loop_body_cases _ _ _ _ Hbody)
      as [(_ & [Hf | (text & _ & Hv)]) | (hostname & text & _ & _ & Hf)].
    + rewrite Hf. exact Hst.
    + congruence.
    + rewrite Hf. apply Forall_app. split; [exact Hst|].
      constructor; [|constructor]. exists hostname, text. reflexivity.
Qed.

Lemma minimise_writes_rules_only (cfg : settings) (temp_file : list bytes) :
  minimise cfg = true ->
  Forall is_rule (final_file (final_state temp_file cfg)).
Proof.
  intros Hm. rewrite final_state_loop.
  apply loop_rules_only; [exact Hm | constructor].
Qed.

End Dedup.

(** ** The first lines of the loop body *)
Section PassThrough.
Context `{UnicodeData}.

(** With minimise off a line is passed through exactly when its first
    character is ['#'] or whitespace; on an empty line the test raises. *)
Lemma passes_through_first_char (c : char) (rest : str) :
  passes_through false (c :: rest)
  = Ok ((c =? ch "#")%N || Py.isspace c).
Proof.
  unfold passes_through. cbn [negb Py.index lookup list_lookup mbind result_bind].
  f_equal. f_equal. unfold rmatch, blank_regex. cbn [run Nat.eqb].
  cbn [span cmatch sp existsb item_matches fmap option_fmap option_map].
  destruct (Py.isspace c) eqn:Hc; simpl.
  - destruct (c =? 10)%N eqn:E; [reflexivity|]. reflexivity.
  - destruct (c =? 10)%N eqn:E; [|reflexivity].
    apply N.eqb_eq in E. subst c. discriminate.
Qed.

Lemma passes_through_empty : passes_through false [] = Raise IndexError.
Proof. reflexivity. Qed.

Lemma passes_through_minimise (line : str) : passes_through true line = Ok false.
Proof. reflexivity. Qed.

(** C6, where the code leaves it.  With the default settings (minimise
    off) the line " 0.0.0.0 example.com", which is neither blank nor a
    comment, is written to the output as it is: the seen hostnames and
    the counter do not move, and the rule is not normalised. *)
Theorem indented_rule_passed_through (st : loop_state) :
  let line := u " 0.0.0.0 example.com" ++ nl in
  is_blank line = false /\
  is_comment line = false /\
  minimise get_defaults = false /\
  loop_body get_defaults st line
  = Ok {| final_file := final_file st ++ [Verbatim line];
          hostnames := hostnames st; rules := rules st;
          stdout := stdout st |}.
Proof.
  cbv zeta. split_and!; reflexivity.
Qed.

Lemma replace_without_plus (line new : str) :
  ch "+" ∉ line -> Py.replace line (tab ++ u "+") new = line.
Proof.
  unfold Py.replace, Py.split. induction line as [|c line IH]; intros Hc.
  - reflexivity.
  - cbn [Py.split_scan].
    destruct (Py.startswith (c :: line) (tab ++ u "+")) eqn:E.
    + apply PyFacts.startswith_inv in E as (r & E).
      exfalso. apply Hc. rewrite E. right. left.
    + rewrite join_split_scan_cur, IH; [reflexivity|].
      intros Hin. apply Hc. right. exact Hin.
Qed.

(** C7, where the code leaves it.  The text looked for by the first
    line of the preprocessing is a tab followed by ['+'], so that the
    tab of "0.0.0.0<tab>example.com" stays where it is. *)
Theorem preprocess_keeps_tab :
  let line := u "0.0.0.0" ++ tab ++ u "example.com" ++ nl in
  preprocess line = line /\
  Py.contains tab (preprocess line) = true /\
  preprocess (u "0.0.0.0" ++ tab ++ u "+example.com..")
  = u "0.0.0.0 example.com".
Proof.
  cbv zeta. split_and!; reflexivity.
Qed.

End PassThrough.

(** ** [strip_rule] *)
Section StripRule.
Context `{UnicodeData}.

Lemma find_at_char_first (c : char) (x r : str) (i : Z) :
  c ∉ x -> Py.find_at [c] (x ++ c :: r) i = (i + Z.of_nat (length x))%Z.
Proof.
  revert i. induction x as [|d x IH]; intros i Hc; simpl.
  - rewrite N.eqb_refl. simpl. lia.
  - destruct (N.eqb_spec c d) as [->|Hne].
    + exfalso. apply Hc. left.
    + simpl. rewrite IH; [lia|]. intros Hin. apply Hc. right. exact Hin.
Qed.

Lemma find_at_char_absent (c : char) (s : str) (i : Z) :
  c ∉ s -> Py.find_at [c] s i = (-1)%Z.
Proof.
  revert i. induction s as [|d s IH]; intros i Hc; simpl; [reflexivity|].
  destruct (N.eqb_spec c d) as [->|Hne].
  - exfalso. apply Hc. left.
  - simpl. apply IH. intros Hin. apply Hc. right. exact Hin.
Qed.

Lemma slice_to_length (x r : str) :
  Py.slice_to (x ++ r) (Z.of_nat (length x)) = x.
Proof.
  unfold Py.slice_to. destruct (Z.ltb_spec (Z.of_nat (length x)) 0); [lia|].
  rewrite Nat2Z.id. apply take_app_length.
Qed.

Lemma forallb_false_split (p : char -> bool) (s : str) :
  forallb p s = false -> exists x c y, s = x ++ c :: y /\ p c = false.
Proof.
  induction s as [|d s IH]; simpl; [discriminate|].
  destruct (p d) eqn:E; simpl.
  - intros Hs. destruct (IH Hs) as (x & c & y & -> & Hc).
    exists (d :: x), c, y. auto.
  - intros _. exists [], d, s. auto.
Qed.

Lemma strip_blank (s : str) : is_blank s = true -> Py.strip s = [].
Proof.
  unfold is_blank, Py.strip. intros Hs.
  destruct (PyFacts.lstrip_by_cases Py.isspace s) as [-> | (c & r & E & Hc)];
    [reflexivity|].
  destruct (PyFacts.lstrip_by_suffix Py.isspace s) as (a & Ha & _).
  rewrite E in Ha. rewrite Ha, forallb_app in Hs.
  apply andb_prop in Hs as [_ Hs]. simpl in Hs. rewrite Hc in Hs. discriminate.
Qed.

Lemma strip_empty_iff (s : str) : Py.strip s = [] <-> is_blank s = true.
Proof.
  split; [|apply strip_blank].
  intros Hs. destruct (is_blank s) eqn:E; [reflexivity|].
  apply forallb_false_split in E as (x & c & y & -> & Hc).
  exfalso. exact (PyFacts.strip_nonempty x c y Hc Hs).
Qed.

(** C8, as the code has it.  Without [remove_comments] the line comes
    back as it is.  With [remove_comments], on a line that holds a
    ['#'], the result is the text before the first ['#'] with the
    whitespace around it removed, and it is empty exactly when that text
    is blank. *)
Theorem strip_rule_behaviour (line before after : str) :
  ch "#" ∉ before ->
  strip_rule line false = line /\
  strip_rule (before ++ u "#" ++ after) true = Py.strip before /\
  (strip_rule (before ++ u "#" ++ after) true = [] <-> is_blank before = true).
Proof.
  intros Hb.
  assert (E : strip_rule (before ++ u "#" ++ after) true = Py.strip before).
  { unfold strip_rule, Py.find.
    change (u "#" ++ after) with (ch "#" :: after).
    change (u "#") with [ch "#"].
    rewrite find_at_char_first by exact Hb.
    rewrite Z.add_0_l, slice_to_length. reflexivity. }
  split_and!; [reflexivity | exact E |].
  rewrite E. apply strip_empty_iff.
Qed.

End StripRule.

Lemma strip_rule_behaviour_witness :
  let before := u "twitter.com " in
  let after := u " comments here galore more text... twitter.com" in
  (ch "#" ∉ before) /\
  strip_rule (u "  twitter.com  ") false = u "  twitter.com  " /\
  strip_rule (before ++ u "#" ++ after) true = Py.strip before /\
  (strip_rule (before ++ u "#" ++ after) true = [] <-> is_blank before = true).
Proof.
  cbv zeta.
  assert (Hb : ch "#" ∉ u "twitter.com ").
  { vm_compute. intros Hin.
    repeat (apply elem_of_cons in Hin as [Hin|Hin]; [discriminate|]).
    inversion Hin. }
  split; [exact Hb|].
  exact (strip_rule_behaviour (u "  twitter.com  ") _ _ Hb).
Defined.

(** C8, as the specification words it, fails: without [remove_comments]
    the whitespace around the rule stays. *)
Lemma strip_rule_keeps_whitespace :
  strip_rule (u "  twitter.com  ") false = u "  twitter.com  " /\
  Py.strip (u "  twitter.com  ") = u "twitter.com" /\
  strip_rule (u "  twitter.com  ") false <> Py.strip (u "  twitter.com  ").
Proof.
  split_and!; [reflexivity | reflexivity |]. vm_compute. discriminate.
Qed.

(** On a line without ['#'] the bound of the slice is the -1 that [find]
    returns, and the last character goes. *)
Lemma strip_rule_without_marker :
  strip_rule (u "twitter.com") true = u "twitter.co" /\
  strip_rule (u "0.0.0.0 twitter.com" ++ nl) true = u "0.0.0.0 twitter.com".
Proof. split; reflexivity. Qed.

(** ** The loops of the punycode encoder are given turns enough

    Each of the three [while] loops is written with a number of turns.
    With the number it is called with, a loop returns before its turns
    are used up: more turns give the same result. *)
Section PunycodeLoops.
Import Punycode.
Open Scope Z_scope.

Lemma T_range (j bias : Z) : 1 <= T j bias <= 26.
Proof.
  unfold T. destruct (Z.ltb_spec (36 * (j + 1) - bias) 1); [lia|].
  destruct (Z.ltb_spec 26 (36 * (j + 1) - bias)); lia.
Qed.

Lemma log2_quotient (n q : Z) :
  1 <= q -> 2 * q <= n -> Z.log2 q + 1 <= Z.log2 n.
Proof.
  intros Hq Hn. pose proof (Z.log2_double q ltac:(lia)) as E.
  pose proof (Z.log2_le_mono (2 * q) n Hn). lia.
Qed.

Lemma generalized_loop_turns (fuel extra : nat) (n bias j : Z) (res : str) :
  0 <= n -> (if n =? 0 then 1 else Z.log2 n + 2) <= Z.of_nat fuel ->
  generalized_loop (fuel + extra) n bias j res
  = generalized_loop fuel n bias j res.
Proof.
  revert n j res. induction fuel as [|fuel IH]; intros n j res Hn Hfuel.
  - exfalso. destruct (Z.eqb_spec n 0); [lia|].
    pose proof (Z.log2_nonneg n). lia.
  - cbn [Nat.add generalized_loop].
    pose proof (T_range j bias) as Ht.
    destruct (Z.ltb_spec n (T j bias)); [reflexivity|].
    apply IH.
    + apply Z.div_pos; lia.
    + set (q := (n - T j bias) / (36 - T j bias)).
      assert (Hq : 0 <= q) by (apply Z.div_pos; lia).
      assert (Hqn : 10 * q <= n).
      { assert (q * (36 - T j bias) <= n - T j bias).
        { unfold q. rewrite Z.mul_comm. apply Z.mul_div_le. lia. }
        nia. }
      destruct (Z.eqb_spec n 0); [lia|].
      destruct (Z.eqb_spec q 0) as [->|Hq0].
      * pose proof (Z.log2_nonneg n). lia.
      * pose proof (log2_quotient n q ltac:(lia) ltac:(lia)). lia.
Qed.

Lemma generate_generalized_integer_turns (extra : nat) (n bias : Z) :
  0 <= n ->
  generalized_loop (Z.to_nat (Z.log2 n) + 2 + extra) n bias 0 []
  = generate_generalized_integer n bias.
Proof.
  intros Hn. unfold generate_generalized_integer.
  apply generalized_loop_turns; [exact Hn|].
  pose proof (Z.log2_nonneg n). destruct (Z.eqb_spec n 0); lia.
Qed.

Lemma adapt_loop_turns (fuel extra : nat) (delta divisions : Z) :
  0 <= delta -> Z.log2 delta < Z.of_nat fuel ->
  adapt_loop (fuel + extra) delta divisions = adapt_loop fuel delta divisions.
Proof.
  revert delta divisions.
  induction fuel as [|fuel IH]; intros delta divisions Hd Hfuel.
  - pose proof (Z.log2_nonneg delta). lia.
  - cbn [Nat.add adapt_loop].
    destruct (Z.ltb_spec 455 delta); [|reflexivity].
    apply IH.
    + apply Z.div_pos; lia.
    + set (q := delta / 35).
      assert (Hq : 35 * q <= delta) by (apply Z.mul_div_le; lia).
      assert (Hq1 : 1 <= q).
      { unfold q. apply Z.div_le_lower_bound; lia. }
      pose proof (log2_quotient delta q ltac:(lia) ltac:(lia)). lia.
Qed.

Lemma selective_find_pos (rest : str) (c : char) (index pos : Z) :
  -1 <= index ->
  let '(index', pos') := selective_find rest c index pos in
  index' = -1 \/
  (0 <= index' /\ pos < pos' <= pos + Z.of_nat (length rest)).
Proof.
  revert index pos. induction rest as [|x rest IH]; intros index pos Hi.
  - left. reflexivity.
  - cbn [selective_find length]. destruct (x =? c)%N.
    + right. lia.
    + specialize (IH (if (x <? c)%N then index + 1 else index) (pos + 1)).
      destruct (selective_find rest c _ (pos + 1)) as [index' pos'].
      destruct IH as [->|IH]; [destruct (x <? c)%N; lia | left; reflexivity |].
      right. lia.
Qed.

Lemma unsort_loop_turns (fuel extra : nat) (s : str) (c : char)
    (index pos delta oldindex : Z) (res : list Z) :
  -1 <= index -> -1 <= pos ->
  Z.of_nat (length s) - pos <= Z.of_nat fuel ->
  unsort_loop (fuel + extra) s c index pos delta oldindex res
  = unsort_loop fuel s c index pos delta oldindex res.
Proof.
  revert index pos delta oldindex res.
  induction fuel as [|fuel IH]; intros index pos delta oldindex res Hi Hp Hfuel.
  - destruct extra as [|extra]; [reflexivity|].
    cbn [Nat.add unsort_loop].
    rewrite drop_ge by lia. reflexivity.
  - cbn [Nat.add unsort_loop].
    pose proof (selective_find_pos (drop (Z.to_nat (pos + 1)) s) c index pos Hi)
      as Hfind.
    destruct (selective_find (drop (Z.to_nat (pos + 1)) s) c index pos)
      as [index' pos'].
    destruct (Z.eqb_spec index' (-1)); [reflexivity|].
    destruct Hfind as [?|[Hi' Hp']]; [contradiction|].
    rewrite length_drop in Hp'.
    apply IH; lia.
Qed.

End PunycodeLoops.

(** ** The codecs: what they return is ASCII, what they raise is
    [UnicodeError] *)
Lemma Ok_inj {A} (a b : A) : Ok a = Ok b -> a = b.
Proof. intros [= ->]. reflexivity. Qed.

Section CodecFacts.
Context `{UnicodeData}.
Import Punycode Idna.

Local Notation "'all_ascii' s" := (forallb Py.is_ascii s = true)
  (at level 10, s at level 9).

Lemma ascii_app (a b : str) : all_ascii a -> all_ascii b -> all_ascii (a ++ b).
Proof. intros Ha Hb. rewrite forallb_app, Ha, Hb. reflexivity. Qed.

Lemma digit_ascii (i : Z) : Py.is_ascii (digit i) = true.
Proof.
  unfold digit.
  assert (Hd : Forall (fun c => Py.is_ascii c = true) digits)
    by (vm_compute; repeat constructor).
  generalize (Z.to_nat i). intros n. revert n.
  induction Hd as [|c l Hc Hl IH]; intros [|n]; simpl; auto.
Qed.

Lemma generalized_loop_ascii (fuel : nat) (n bias j : Z) (res : str) :
  all_ascii res -> all_ascii (generalized_loop fuel n bias j res).
Proof.
  revert n j res. induction fuel as [|fuel IH]; intros n j res Hres; simpl.
  - exact Hres.
  - destruct (n <? T j bias)%Z.
    + apply ascii_app; [exact Hres|]. simpl. rewrite digit_ascii. reflexivity.
    + apply IH. apply ascii_app; [exact Hres|].
      simpl. rewrite digit_ascii. reflexivity.
Qed.

Lemma integers_loop_ascii (baselen points : Z) (deltas : list Z)
    (bias : Z) (res : str) :
  all_ascii res -> all_ascii (integers_loop baselen points deltas bias res).
Proof.
  revert points bias res.
  induction deltas as [|delta deltas IH]; intros points bias res Hres; simpl.
  - exact Hres.
  - apply IH. apply ascii_app; [exact Hres|].
    apply generalized_loop_ascii. reflexivity.
Qed.

Lemma filter_ascii (s : str) : all_ascii (List.filter Py.is_ascii s).
Proof.
  induction s as [|c s IH]; simpl; [reflexivity|].
  destruct (Py.is_ascii c) eqn:E; simpl; [rewrite E|]; exact IH.
Qed.

Lemma punycode_encode_ascii (text : str) : all_ascii (punycode_encode text).
Proof.
  unfold punycode_encode, segregate.
  pose proof (filter_ascii text) as Hbase.
  pose proof (integers_loop_ascii
                (Z.of_nat (length (List.filter Py.is_ascii text))) 0
                (insertion_unsort text
                   (fold_right insert_sorted []
                      (List.filter (fun c => negb (Py.is_ascii c)) text)))
                72 [] eq_refl) as Hext.
  destruct (List.filter Py.is_ascii text) as [|b base] eqn:E.
  - exact Hext.
  - apply ascii_app; [exact Hbase|].
    apply ascii_app; [reflexivity | exact Hext].
Qed.

Lemma ToASCII_ok (label a : str) : ToASCII label = Ok a -> all_ascii a.
Proof.
  unfold ToASCII.
  destruct (forallb Py.is_ascii label) eqn:E.
  { destruct (label_ok label); [|discriminate]. intros [= <-]. exact E. }
  destruct (nameprep label) as [label'|]; [|discriminate].
  destruct (forallb Py.is_ascii label') eqn:E'.
  { destruct (label_ok label'); [|discriminate]. intros [= <-]. exact E'. }
  destruct (Py.startswith label' sace_prefix); [discriminate|].
  destruct (label_ok _); [|discriminate]. intros Ha.
  apply Ok_inj in Ha. subst a.
  exact (ascii_app sace_prefix _ eq_refl (punycode_encode_ascii label')).
Qed.

Lemma ToASCII_raise (label : str) (e : exn) :
  ToASCII label = Raise e -> e = UnicodeError.
Proof.
  unfold ToASCII.
  repeat match goal with
         | |- context [match ?b with _ => _ end] => destruct b
         end; congruence.
Qed.

Lemma encode_labels_ok (labels : list str) (res r : str) :
  encode_labels labels res = Ok r -> all_ascii res -> all_ascii r.
Proof.
  revert res. induction labels as [|label labels IH]; intros res; simpl.
  - intros [= <-]. auto.
  - destruct (ToASCII label) as [a|e] eqn:E; cbn [mbind result_bind];
      [|discriminate].
    intros Hr Hres. apply (IH _ Hr). apply ToASCII_ok in E.
    apply ascii_app; [|exact E].
    destruct res; [reflexivity | apply ascii_app; [exact Hres | reflexivity]].
Qed.

Lemma encode_labels_raise (labels : list str) (res : str) (e : exn) :
  encode_labels labels res = Raise e -> e = UnicodeError.
Proof.
  revert res. induction labels as [|label labels IH]; intros res; simpl.
  - discriminate.
  - destruct (ToASCII label) as [a|e'] eqn:E; cbn [mbind result_bind].
    + apply IH.
    + intros [= <-]. exact (ToASCII_raise _ _ E).
Qed.

(** What [encode] returns is ASCII. *)
Lemma encode_ok (input r : str) : encode input = Ok r -> all_ascii r.
Proof.
  unfold encode. destruct input as [|c input]; [intros [= <-]; reflexivity|].
  destruct (forallb Py.is_ascii (c :: input)) eqn:E.
  { destruct (negb _); [discriminate|].
    destruct (Nat.leb _ _); [discriminate|]. intros [= <-]. exact E. }
  destruct (List.last (split_dots [] (c :: input)) [0%N]) as [|x l];
    match goal with
    | |- context [encode_labels ?ls []] =>
        destruct (encode_labels ls []) as [res|e] eqn:El
    end; cbn [mbind result_bind]; try discriminate;
    intros [= <-]; apply ascii_app;
    try exact (encode_labels_ok _ _ _ El eq_refl); reflexivity.
Qed.

(** What [encode] raises is [UnicodeError]. *)
Lemma encode_raise (input : str) (e : exn) :
  encode input = Raise e -> e = UnicodeError.
Proof.
  unfold encode. destruct input as [|c input]; [discriminate|].
  destruct (forallb Py.is_ascii (c :: input)).
  { destruct (negb _); [congruence|].
    destruct (Nat.leb _ _); [congruence | discriminate]. }
  destruct (List.last (split_dots [] (c :: input)) [0%N]) as [|x l];
    match goal with
    | |- context [encode_labels ?ls []] =>
        destruct (encode_labels ls []) as [res|e'] eqn:El
    end; cbn [mbind result_bind]; try discriminate;
    intros [= <-]; exact (encode_labels_raise _ _ _ El).
Qed.

End CodecFacts.

(** ** Splitting on one character *)
Section SplitFacts.
Import Py.

Lemma split1_app (c : char) (x r cur : str) :
  split_scan [c] cur 0 (x ++ c :: r)
  = split_scan [c] cur 0 x ++ split_scan [c] [] 0 r.
Proof.
  revert cur. induction x as [|d x IH]; intros cur; simpl.
  - rewrite N.eqb_refl. reflexivity.
  - destruct (c =? d)%N; simpl; rewrite IH; reflexivity.
Qed.

Lemma split1_absent (c : char) (s cur : str) :
  c ∉ s -> split_scan [c] cur 0 s = [rev cur ++ s].
Proof.
  revert cur. induction s as [|d s IH]; intros cur Hc; simpl.
  - rewrite app_nil_r. reflexivity.
  - destruct (N.eqb_spec c d) as [->|Hne].
    + exfalso. apply Hc. left.
    + simpl. rewrite IH.
      * simpl. rewrite <- app_assoc. reflexivity.
      * intros Hin. apply Hc. right. exact Hin.
Qed.

Lemma split_scan_nonempty (sep cur : str) (skip : nat) (s : str) :
  split_scan sep cur skip s <> [].
Proof.
  destruct (split_scan_cur sep cur skip s) as (h & t & _ & ->). discriminate.
Qed.

Lemma contains_char_absent (c : char) (s : str) :
  c ∉ s -> contains [c] s = false.
Proof.
  intros Hc. unfold contains, find.
  rewrite find_at_char_absent by exact Hc. reflexivity.
Qed.

End SplitFacts.

Ltac not_in_list :=
  vm_compute; intros Hin;
  repeat (apply elem_of_cons in Hin as [Hin|Hin]; [discriminate|]);
  inversion Hin.

Section EncodeFacts.
Context `{UnicodeData}.
Import Idna.

(** An ASCII name with an empty label that is not the last one. *)
Lemma encode_empty_label (x y : str) :
  forallb Py.is_ascii (x ++ u ".." ++ y) = true ->
  encode (x ++ u ".." ++ y) = Raise UnicodeError.
Proof.
  intros Ha. unfold encode.
  destruct (x ++ u ".." ++ y) as [|c s] eqn:E.
  { apply app_eq_nil in E as [_ E]. discriminate. }
  cbv beta iota. rewrite Ha, <- E. clear c s E Ha.
  change (u ".." ++ y) with (ch "." :: ch "." :: y).
  change (u ".") with [ch "."]. unfold Py.split.
  rewrite split1_app.
  change (Py.split_scan [ch "."] [] 0 (ch "." :: y))
    with ([] :: Py.split_scan [ch "."] [] 0 y).
  pose proof (split_scan_nonempty [ch "."] [] 0 y) as Hne.
  destruct (Py.split_scan [ch "."] [] 0 y) as [|l ls]; [contradiction|].
  rewrite removelast_app by discriminate.
  rewrite forallb_app. cbn [removelast forallb label_ok length Nat.ltb Nat.leb andb].
  rewrite andb_false_r. reflexivity.
Qed.

(** An ASCII name whose first label has 64 characters or more. *)
Lemma encode_long_label (label rest : str) :
  forallb Py.is_ascii (label ++ u "." ++ rest) = true ->
  ch "." ∉ label -> 64 <= length label ->
  encode (label ++ u "." ++ rest) = Raise UnicodeError.
Proof.
  intros Ha Hdot Hlen. unfold encode.
  destruct (label ++ u "." ++ rest) as [|c s] eqn:E.
  { apply app_eq_nil in E as [_ E]. discriminate. }
  cbv beta iota. rewrite Ha, <- E. clear c s E Ha.
  change (u "." ++ rest) with (ch "." :: rest).
  change (u ".") with [ch "."]. unfold Py.split.
  rewrite split1_app, split1_absent by exact Hdot.
  pose proof (split_scan_nonempty [ch "."] [] 0 rest) as Hne.
  destruct (Py.split_scan [ch "."] [] 0 rest) as [|l ls]; [contradiction|].
  rewrite removelast_app by discriminate.
  rewrite forallb_app. cbn [forallb rev app].
  assert (Hbad : label_ok label = false).
  { unfold label_ok. destruct (Nat.ltb_spec (length label) 64); [lia|].
    apply andb_false_r. }
  rewrite Hbad. reflexivity.
Qed.

Lemma determine_separator_space (x r : str) :
  ch " " ∉ x -> 9%N ∉ x ++ u " " ++ r ->
  determine_separator (x ++ u " " ++ r) = u " ".
Proof.
  intros Hsp Htab. unfold determine_separator, Py.find.
  change tab with [9%N]. change (u " ") with [ch " "].
  rewrite find_at_char_absent by exact Htab.
  change ([ch " "] ++ r) with (ch " " :: r).
  rewrite find_at_char_first by exact Hsp.
  cbn [Z.ltb Z.compare andb Z.eqb negb].
  destruct (Z.eqb_spec (0 + Z.of_nat (length x)) (-1)); [lia | reflexivity].
Qed.

(** A line made of "0.0.0.0", a space and one token without comment. *)
Lemma domain_to_idna_one_token (tok : str) :
  tok <> [] -> 9%N ∉ tok -> ch " " ∉ tok -> ch "#" ∉ tok ->
  domain_to_idna (u "0.0.0.0 " ++ tok)
  = match encode tok with
    | Ok encoded => Ok (u "0.0.0.0 " ++ encoded)
    | Raise _ => Raise UnicodeError
    end.
Proof.
  intros Hne Htab Hsp Hhash.
  change (u "0.0.0.0 " ++ tok) with (u "0.0.0.0" ++ u " " ++ tok).
  unfold domain_to_idna.
  change (Py.startswith (u "0.0.0.0" ++ u " " ++ tok) (u "#")) with false.
  cbn [negb].
  rewrite determine_separator_space.
  2: { not_in_list. }
  2: { intros Hin. apply elem_of_app in Hin as [Hin|Hin].
       - revert Hin. not_in_list.
       - apply elem_of_cons in Hin as [Hin|Hin]; [discriminate|].
         exact (Htab Hin). }
  change (nonempty (u " ")) with true. cbv iota.
  change (u " " ++ tok) with (ch " " :: tok).
  unfold Py.split. change (u " ") with [ch " "].
  rewrite split1_app, split1_absent by not_in_list.
  rewrite split1_absent by exact Hsp.
  cbn [rev app]. unfold encode_domain_token.
  cbn [drop skip_empty].
  destruct tok as [|c tok]; [contradiction|].
  cbn [nonempty Py.index lookup list_lookup mbind result_bind].
  change (u "#") with [ch "#"].
  rewrite contains_char_absent by exact Hhash.
  cbn [Py.index lookup list_lookup mbind result_bind].
  destruct (encode (c :: tok)) as [encoded|e] eqn:E;
    cbn [mbind result_bind].
  - reflexivity.
  - apply encode_raise in E. subst e. reflexivity.
Qed.

End EncodeFacts.

(** ** [domain_to_idna] *)
Section DomainToIdna.
Context `{UnicodeData}.

Lemma label_char_facts (c : char) :
  label_char c = true ->
  Py.is_ascii c = true /\ c <> 9%N /\ c <> ch " " /\ c <> ch "#" /\ c <> ch ".".
Proof.
  unfold label_char, Py.ascii_letter, Py.ascii_lower, Py.ascii_upper,
    Py.ascii_digit, Py.in_range, Py.is_ascii.
  eval_ch. intros Hc. split_and!; bool_lia.
Qed.

Lemma label_chars (label : str) (c : char) :
  Forall (fun x => label_char x = true) label ->
  c = 9%N \/ c = ch " " \/ c = ch "#" \/ c = ch "." -> c ∉ label.
Proof.
  intros Hall Hc Hin. rewrite Forall_forall in Hall.
  destruct (label_char_facts c (Hall c Hin)) as (_ & H1 & H2 & H3 & H4).
  destruct Hc as [?|[?|[?|?]]]; contradiction.
Qed.

Lemma label_ascii (label : str) :
  Forall (fun x => label_char x = true) label ->
  forallb Py.is_ascii label = true.
Proof.
  intros Hall. apply forallb_forall. intros c Hc.
  rewrite Forall_forall in Hall.
  apply label_char_facts, Hall, list_elem_of_In, Hc.
Qed.

(** C10.  [domain_to_idna] lets the [UnicodeError] of the codec out: on
    "0.0.0.0 a..com", whose domain has an empty label, and on every
    line "0.0.0.0 <label>.com" whose label has 64 characters or more.
    An [IndexError] is what it catches: "0.0.0.0 ", where no token
    follows the separator, comes back as it is. *)
Theorem domain_to_idna_raises (label : str) :
  Forall (fun c => label_char c = true) label ->
  64 <= length label ->
  domain_to_idna (u "0.0.0.0 a..com") = Raise UnicodeError /\
  domain_to_idna (u "0.0.0.0 " ++ label ++ u ".com") = Raise UnicodeError /\
  domain_to_idna (u "0.0.0.0 ") = Ok (u "0.0.0.0 ").
Proof.
  intros Hall Hlen. split_and!; [reflexivity | | reflexivity].
  assert (Hout : forall c, c = 9%N \/ c = ch " " \/ c = ch "#" ->
                           c ∉ label ++ u ".com").
  { intros c Hc Hin. apply elem_of_app in Hin as [Hin|Hin].
    - revert Hin. apply label_chars; [exact Hall | tauto].
    - revert Hin. destruct Hc as [->|[->| ->]]; not_in_list. }
  rewrite domain_to_idna_one_token.
  - change (u ".com") with (u "." ++ u "com").
    rewrite encode_long_label; [reflexivity | | | exact Hlen].
    + rewrite forallb_app, label_ascii by exact Hall. reflexivity.
    + apply label_chars; [exact Hall | tauto].
  - intros E. apply app_eq_nil in E as [_ E]. discriminate.
  - apply Hout. tauto.
  - apply Hout. tauto.
  - apply Hout. tauto.
Qed.

Lemma encode_comment_with_dots (a : str) :
  forallb Py.is_ascii a = true ->
  Idna.encode (a ++ u "# a..b") = Raise UnicodeError.
Proof.
  intros Ha.
  change (u "# a..b") with (u "# a" ++ u ".." ++ u "b").
  rewrite app_assoc. apply encode_empty_label.
  rewrite <- app_assoc, forallb_app, Ha. reflexivity.
Qed.

(** C9, where the code leaves it.  On the line
    "0.0.0.0<tab>Google.com # a..b", where G stands for the letter
    U+0262, the separator is the tab, the comment is part of the token
    that holds the domain, and the second call of the codec, on the
    encoded domain with the comment behind it, raises [UnicodeError]
    for the empty label between the two dots of the comment. *)
Theorem domain_to_idna_comment_raises :
  domain_to_idna (u "0.0.0.0" ++ tab ++ [610%N] ++ u "oogle.com # a..b")
  = Raise UnicodeError.
Proof.
  cbv -[Idna.encode].
  destruct (Idna.encode _) as [a|e] eqn:E.
  - apply encode_ok in E. cbv -[Idna.encode].
    match goal with
    | |- context [Idna.encode ?x] => change x with (a ++ u "# a..b")
    end.
    rewrite encode_comment_with_dots by exact E. reflexivity.
  - apply encode_raise in E. subst e. reflexivity.
Qed.

(** The lines of the test suite, for a database that leaves the label
    U+0262 "oogle" as it is. *)
Lemma ToASCII_google :
  nameprep ([610%N] ++ u "oogle") = Some ([610%N] ++ u "oogle") ->
  Idna.ToASCII ([610%N] ++ u "oogle") = Ok (u "xn--oogle-wmc").
Proof.
  intros Hn. unfold Idna.ToASCII.
  change (forallb Py.is_ascii ([610%N] ++ u "oogle")) with false.
  cbv iota. rewrite Hn. vm_compute. reflexivity.
Qed.

Lemma encode_google :
  nameprep ([610%N] ++ u "oogle") = Some ([610%N] ++ u "oogle") ->
  Idna.encode ([610%N] ++ u "oogle.com") = Ok (u "xn--oogle-wmc.com").
Proof.
  intros Hn. apply ToASCII_google in Hn.
  cbv -[Idna.ToASCII] in Hn |- *. rewrite Hn. vm_compute. reflexivity.
Qed.

Lemma domain_to_idna_google :
  nameprep ([610%N] ++ u "oogle") = Some ([610%N] ++ u "oogle") ->
  domain_to_idna (u "0.0.0.0 " ++ [610%N] ++ u "oogle.com")
  = Ok (u "0.0.0.0 xn--oogle-wmc.com") /\
  domain_to_idna (u "0.0.0.0" ++ tab ++ tab ++ [610%N] ++ u "oogle.com")
  = Ok (u "0.0.0.0" ++ tab ++ tab ++ u "xn--oogle-wmc.com") /\
  domain_to_idna (u "0.0.0.0   " ++ [610%N] ++ u "oogle.com # Hello World")
  = Ok (u "0.0.0.0   xn--oogle-wmc.com # Hello World") /\
  domain_to_idna
    (u "0.0.0.0" ++ tab ++ [610%N] ++ u "oogle.com" ++ tab ++ u " # Hello World")
  = Ok (u "0.0.0.0" ++ tab ++ u "xn--oogle-wmc.com" ++ tab ++ u " # Hello World").
Proof.
  intros Hn. apply encode_google in Hn. cbv -[Idna.encode] in Hn.
  split_and!; cbv -[Idna.encode]; rewrite Hn; vm_compute; reflexivity.
Qed.

End DomainToIdna.

Lemma domain_to_idna_raises_witness :
  let label := repeat (ch "a") 64 in
  Forall (fun c => label_char c = true) label /\
  64 <= length label /\
  domain_to_idna (H := ascii_tables) (u "0.0.0.0 a..com") = Raise UnicodeError /\
  domain_to_idna (H := ascii_tables) (u "0.0.0.0 " ++ label ++ u ".com")
  = Raise UnicodeError /\
  domain_to_idna (H := ascii_tables) (u "0.0.0.0 ") = Ok (u "0.0.0.0 ").
Proof.
  cbv zeta.
  assert (Hall : Forall (fun c => label_char c = true) (repeat (ch "a") 64))
    by (apply Forall_forall; intros c Hc;
        apply list_elem_of_In, repeat_spec in Hc; subst c; reflexivity).
  assert (Hlen : 64 <= length (repeat (ch "a") 64))
    by (rewrite repeat_length; lia).
  split; [exact Hall|]. split; [exact Hlen|].
  exact (domain_to_idna_raises (H := ascii_tables) _ Hall Hlen).
Defined.
(** * The UTF-8 codec *)
Section Utf8.
Import Py.

Lemma result_bind_assoc {A B C} (m : result A) (f : A -> result B)
    (g : B -> result C) :
  (m ≫= f) ≫= g = m ≫= (fun a => f a ≫= g).
Proof. destruct m; reflexivity. Qed.

Lemma encode_char_scalar (c : char) :
  if is_scalar c
  then exists b, encode_char c = Ok b /\ b <> []
  else encode_char c = Raise UnicodeEncodeError.
Proof.
  unfold is_scalar, encode_char, is_surrogate, in_range.
  destruct (c <? 128)%N eqn:E1.
  { replace (c <? 1114112)%N with true by (symmetry; bool_lia).
    replace ((55296 <=? c) && (c <=? 57343))%N with false
      by (symmetry; bool_lia).
    eexists. split; [reflexivity | discriminate]. }
  destruct (c <? 2048)%N eqn:E2.
  { replace (c <? 1114112)%N with true by (symmetry; bool_lia).
    replace ((55296 <=? c) && (c <=? 57343))%N with false
      by (symmetry; bool_lia).
    eexists. split; [reflexivity | discriminate]. }
  destruct (c <? 65536)%N eqn:E3.
  { replace (c <? 1114112)%N with true by (symmetry; bool_lia).
    destruct ((55296 <=? c) && (c <=? 57343))%N; cbn [andb negb];
      [reflexivity|].
    eexists. split; [reflexivity | discriminate]. }
  destruct (c <? 1114112)%N eqn:E4; cbn [andb]; [|reflexivity].
  replace ((55296 <=? c) && (c <=? 57343))%N with false
    by (symmetry; bool_lia).
  eexists. split; [reflexivity | discriminate].
Qed.

(** A text is encoded exactly when it holds no lone surrogate. *)
Lemma encode_utf8_scalar (s : str) :
  if forallb is_scalar s
  then exists b, encode_utf8 s = Ok b
  else encode_utf8 s = Raise UnicodeEncodeError.
Proof.
  induction s as [|c s IH]; [exists []; reflexivity|].
  cbn [forallb encode_utf8].
  pose proof (encode_char_scalar c) as Hc.
  destruct (is_scalar c); cbn [andb].
  - destruct Hc as (b & -> & _). cbn [mbind result_bind].
    destruct (forallb is_scalar s).
    + destruct IH as (r & ->). eexists. reflexivity.
    + rewrite IH. reflexivity.
  - rewrite Hc. reflexivity.
Qed.

Lemma encode_utf8_ok (s : str) :
  forallb is_scalar s = true -> exists b, encode_utf8 s = Ok b.
Proof.
  intros Hs. pose proof (encode_utf8_scalar s) as H. rewrite Hs in H.
  exact H.
Qed.

Lemma encode_utf8_raise (s : str) (e : exn) :
  encode_utf8 s = Raise e ->
  e = UnicodeEncodeError /\ forallb is_scalar s = false.
Proof.
  intros E. pose proof (encode_utf8_scalar s) as H.
  destruct (forallb is_scalar s).
  - destruct H as (b & H). congruence.
  - split; [congruence | reflexivity].
Qed.

Lemma encode_utf8_app (a b : str) :
  encode_utf8 (a ++ b)
  = (x ← encode_utf8 a; y ← encode_utf8 b; Ok (x ++ y)).
Proof.
  induction a as [|c a IH]; cbn [app encode_utf8 mbind result_bind].
  - destruct (encode_utf8 b); reflexivity.
  - destruct (encode_char c) as [bc|e]; cbn [mbind result_bind];
      [|reflexivity].
    rewrite IH.
    destruct (encode_utf8 a) as [x|e]; cbn [mbind result_bind];
      [|reflexivity].
    destruct (encode_utf8 b) as [y|e]; cbn [mbind result_bind];
      [|reflexivity].
    rewrite app_assoc. reflexivity.
Qed.

Ltac decide_cond b :=
  match goal with
  | |- context [if ?c then _ else _] =>
      replace c with b
        by (symmetry; unfold is_cont, in_range; bool_lia)
  end.

(** What the encoder gives for a character, the decoder reads back as
    that character. *)
Lemma decode_encoded_char (c : char) (pre : bytes) :
  encode_char c = Ok pre ->
  forall rest,
    decode_utf8 (pre ++ rest) = (s ← decode_utf8 rest; Ok (c :: s)).
Proof.
  unfold encode_char, is_surrogate, in_range.
  pose proof (N.div_mod' c 64) as D1.
  pose proof (N.mod_lt c 64 ltac:(lia)) as M1.
  pose proof (N.div_mod' (c / 64) 64) as D2.
  pose proof (N.mod_lt (c / 64) 64 ltac:(lia)) as M2.
  pose proof (N.div_mod' (c / 4096) 64) as D3.
  pose proof (N.mod_lt (c / 4096) 64 ltac:(lia)) as M3.
  assert (Q2 : (c / 4096 = c / 64 / 64)%N)
    by (rewrite N.Div0.div_div; reflexivity).
  assert (Q3 : (c / 262144 = c / 4096 / 64)%N)
    by (rewrite N.Div0.div_div; reflexivity).
  rewrite Q2 in D3, M3. rewrite Q3, Q2.
  set (q1 := (c / 64)%N) in *. set (m1 := (c mod 64)%N) in *.
  set (q2 := (q1 / 64)%N) in *. set (m2 := (q1 mod 64)%N) in *.
  set (q3 := (q2 / 64)%N) in *. set (m3 := (q2 mod 64)%N) in *.
  destruct (c <? 128)%N eqn:E1.
  { intros [= <-] rest. cbn [app decode_utf8]. rewrite E1. reflexivity. }
  destruct (c <? 2048)%N eqn:E2.
  { intros [= <-] rest. cbn [app decode_utf8].
    decide_cond false. decide_cond true. decide_cond true.
    replace ((192 + q1 - 192) * 64 + (128 + m1 - 128))%N with c by lia.
    reflexivity. }
  destruct (c <? 65536)%N eqn:E3.
  { destruct ((55296 <=? c) && (c <=? 57343))%N eqn:E4; [discriminate|].
    intros [= <-] rest. cbn [app decode_utf8].
    decide_cond false. decide_cond false. decide_cond true.
    destruct (N.eqb_spec (224 + q2) 224), (N.eqb_spec (224 + q2) 237);
      decide_cond true;
      (replace ((224 + q2 - 224) * 4096 + (128 + m2 - 128) * 64
                + (128 + m1 - 128))%N with c by lia);
      reflexivity. }
  destruct (c <? 1114112)%N eqn:E4; [|discriminate].
  intros [= <-] rest. cbn [app decode_utf8].
  decide_cond false. decide_cond false. decide_cond false. decide_cond true.
  destruct (N.eqb_spec (240 + q3) 240), (N.eqb_spec (240 + q3) 244);
    decide_cond true;
    (replace ((240 + q3 - 240) * 262144 + (128 + m3 - 128) * 4096
              + (128 + m2 - 128) * 64 + (128 + m1 - 128))%N with c by lia);
    reflexivity.
Qed.

Lemma newline_is_no_continuation (lo hi : N) :
  (128 <= lo)%N -> in_range lo hi 10%N = false.
Proof. unfold in_range. intros. bool_lia. Qed.

(** One turn of the decoder: either the bytes begin with the encoding of
    a character, or they are refused, and are still refused when a
    newline byte and more bytes follow them. *)
Lemma decode_utf8_step (b0 : N) (r0 : bytes) :
  (exists c pre rest, b0 :: r0 = pre ++ rest /\ encode_char c = Ok pre)
  \/ (decode_utf8 (b0 :: r0) = Raise UnicodeDecodeError
      /\ forall r,
           decode_utf8 (b0 :: r0 ++ 10%N :: r) = Raise UnicodeDecodeError).
Proof.
  destruct (b0 <? 128)%N eqn:E1.
  { left. exists b0, [b0], r0. split; [reflexivity|].
    unfold encode_char. rewrite E1. reflexivity. }
  destruct (in_range 194%N 223%N b0) eqn:E2.
  { destruct r0 as [|b1 r1].
    { right. split; [|intros r]; cbn [app decode_utf8]; rewrite E1, E2;
        [reflexivity|].
      unfold is_cont. rewrite newline_is_no_continuation by lia.
      reflexivity. }
    destruct (is_cont b1) eqn:E3.
    2:{ right. split; [|intros r]; cbn [app decode_utf8];
          rewrite E1, E2, E3; reflexivity. }
    left. exists ((b0 - 192) * 64 + (b1 - 128))%N, [b0; b1], r1.
    split; [reflexivity|].
    unfold is_cont, in_range in *.
    assert (Hq : (((b0 - 192) * 64 + (b1 - 128)) / 64 = b0 - 192)%N).
    { symmetry. apply N.div_unique with (b1 - 128)%N; bool_lia. }
    assert (Hm : (((b0 - 192) * 64 + (b1 - 128)) mod 64 = b1 - 128)%N).
    { symmetry. apply N.mod_unique with (b0 - 192)%N; bool_lia. }
    unfold encode_char. rewrite Hq, Hm.
    decide_cond false. decide_cond true.
    do 2 f_equal; [|f_equal]; bool_lia. }
  destruct (in_range 224%N 239%N b0) eqn:E3.
  { destruct r0 as [|b1 [|b2 r2]].
    { right. split; [|intros r]; cbn [app decode_utf8]; rewrite E1, E2, E3;
        [reflexivity|].
      destruct r as [|x r]; [reflexivity|].
      rewrite newline_is_no_continuation
        by (destruct (b0 =? 224)%N; lia).
      reflexivity. }
    { right. split; [|intros r]; cbn [app decode_utf8]; rewrite E1, E2, E3;
        [reflexivity|].
      unfold is_cont. rewrite (newline_is_no_continuation 128%N) by lia.
      rewrite andb_false_r. reflexivity. }
    destruct (in_range (if (b0 =? 224)%N then 160%N else 128%N)
                (if (b0 =? 237)%N then 159%N else 191%N) b1
              && is_cont b2) eqn:E4.
    2:{ right. split; [|intros r]; cbn [app decode_utf8];
          rewrite E1, E2, E3, E4; reflexivity. }
    left.
    exists ((b0 - 224) * 4096 + (b1 - 128) * 64 + (b2 - 128))%N,
      [b0; b1; b2], r2.
    split; [reflexivity|].
    unfold is_cont, in_range in *.
    set (c := ((b0 - 224) * 4096 + (b1 - 128) * 64 + (b2 - 128))%N).
    assert (B : (224 <= b0 <= 239 /\ 128 <= b1 <= 191 /\ 128 <= b2 <= 191
                 /\ (b0 = 224 -> 160 <= b1) /\ (b0 = 237 -> b1 <= 159))%N).
    { destruct (N.eqb_spec b0 224), (N.eqb_spec b0 237); bool_lia. }
    clear E4.
    assert (Hq1 : (c / 64 = (b0 - 224) * 64 + (b1 - 128))%N).
    { symmetry. apply N.div_unique with (b2 - 128)%N; subst c; lia. }
    assert (Hm1 : (c mod 64 = b2 - 128)%N).
    { symmetry.
      apply N.mod_unique with ((b0 - 224) * 64 + (b1 - 128))%N;
        subst c; lia. }
    assert (Hq2 : (c / 4096 = b0 - 224)%N).
    { symmetry.
      apply N.div_unique with ((b1 - 128) * 64 + (b2 - 128))%N;
        subst c; lia. }
    assert (Hm2 : (c / 64 mod 64 = b1 - 128)%N).
    { rewrite Hq1. symmetry. apply N.mod_unique with (b0 - 224)%N; lia. }
    unfold encode_char, is_surrogate, in_range. rewrite Hq2, Hm2, Hm1.
    subst c.
    decide_cond false.
    decide_cond false.
    decide_cond true.
    decide_cond false.
    do 2 f_equal; [|f_equal; [|f_equal]]; lia. }
  destruct (in_range 240%N 244%N b0) eqn:E4.
  { destruct r0 as [|b1 [|b2 [|b3 r3]]].
    { right. split; [|intros r]; cbn [app decode_utf8];
        rewrite E1, E2, E3, E4; [reflexivity|].
      destruct r as [|x [|y r]]; [reflexivity..|].
      rewrite newline_is_no_continuation
        by (destruct (b0 =? 240)%N; lia).
      reflexivity. }
    { right. split; [|intros r]; cbn [app decode_utf8];
        rewrite E1, E2, E3, E4; [reflexivity|].
      destruct r as [|x r]; [reflexivity|].
      unfold is_cont at 1. rewrite (newline_is_no_continuation 128%N) by lia.
      rewrite andb_false_r. reflexivity. }
    { right. split; [|intros r]; cbn [app decode_utf8];
        rewrite E1, E2, E3, E4; [reflexivity|].
      unfold is_cont at 2. rewrite (newline_is_no_continuation 128%N) by lia.
      rewrite andb_false_r. reflexivity. }
    destruct (in_range (if (b0 =? 240)%N then 144%N else 128%N)
                (if (b0 =? 244)%N then 143%N else 191%N) b1
              && is_cont b2 && is_cont b3) eqn:E5.
    2:{ right. split; [|intros r]; cbn [app decode_utf8];
          rewrite E1, E2, E3, E4, E5; reflexivity. }
    left.
    exists ((b0 - 240) * 262144 + (b1 - 128) * 4096
            + (b2 - 128) * 64 + (b3 - 128))%N, [b0; b1; b2; b3], r3.
    split; [reflexivity|].
    unfold is_cont, in_range in *.
    set (c := ((b0 - 240) * 262144 + (b1 - 128) * 4096
               + (b2 - 128) * 64 + (b3 - 128))%N).
    assert (B : (240 <= b0 <= 244 /\ 128 <= b1 <= 191 /\ 128 <= b2 <= 191
                 /\ 128 <= b3 <= 191
                 /\ (b0 = 240 -> 144 <= b1) /\ (b0 = 244 -> b1 <= 143))%N).
    { destruct (N.eqb_spec b0 240), (N.eqb_spec b0 244); bool_lia. }
    clear E5.
    assert (Hq1 : (c / 64
                   = (b0 - 240) * 4096 + (b1 - 128) * 64 + (b2 - 128))%N).
    { symmetry. apply N.div_unique with (b3 - 128)%N; subst c; lia. }
    assert (Hm1 : (c mod 64 = b3 - 128)%N).
    { symmetry.
      apply N.mod_unique
        with ((b0 - 240) * 4096 + (b1 - 128) * 64 + (b2 - 128))%N;
        subst c; lia. }
    assert (Hq2 : (c / 4096 = (b0 - 240) * 64 + (b1 - 128))%N).
    { symmetry.
      apply N.div_unique with ((b2 - 128) * 64 + (b3 - 128))%N;
        subst c; lia. }
    assert (Hm2 : (c / 64 mod 64 = b2 - 128)%N).
    { rewrite Hq1. symmetry.
      apply N.mod_unique with ((b0 - 240) * 64 + (b1 - 128))%N; lia. }
    assert (Hq3 : (c / 262144 = b0 - 240)%N).
    { symmetry.
      apply N.div_unique
        with ((b1 - 128) * 4096 + (b2 - 128) * 64 + (b3 - 128))%N;
        subst c; lia. }
    assert (Hm3 : (c / 4096 mod 64 = b1 - 128)%N).
    { rewrite Hq2. symmetry. apply N.mod_unique with (b0 - 240)%N; lia. }
    unfold encode_char, is_surrogate, in_range. rewrite Hq3, Hm3, Hm2, Hm1.
    subst c.
    decide_cond false.
    decide_cond false.
    decide_cond false.
    decide_cond true.
    do 2 f_equal; [|f_equal; [|f_equal; [|f_equal]]]; lia. }
  right. split; [|intros r]; cbn [app decode_utf8];
    rewrite E1, E2, E3, E4; reflexivity.
Qed.

(** Induction along the characters the decoder reads. *)
Lemma decode_utf8_ind (P : bytes -> Prop) :
  P [] ->
  (forall c pre rest,
      pre <> [] -> encode_char c = Ok pre -> P rest -> P (pre ++ rest)) ->
  (forall b0 r0,
      decode_utf8 (b0 :: r0) = Raise UnicodeDecodeError ->
      (forall r,
          decode_utf8 (b0 :: r0 ++ 10%N :: r) = Raise UnicodeDecodeError) ->
      P (b0 :: r0)) ->
  forall b, P b.
Proof.
  intros Hnil Hchar Hbad b.
  remember (length b) as n eqn:Hn.
  revert b Hn. induction n as [n IH] using lt_wf_ind. intros b Hn.
  destruct b as [|b0 r0]; [exact Hnil|].
  destruct (decode_utf8_step b0 r0) as [(c & pre & rest & E & Hc)|[H1 H2]].
  - rewrite E.
    assert (Hpre : pre <> []).
    { pose proof (encode_char_scalar c) as Hs.
      destruct (is_scalar c); [|congruence].
      destruct Hs as (b & Hb & Hne). congruence. }
    apply (Hchar c); [exact Hpre | exact Hc |].
    apply (IH (length rest)); [|reflexivity].
    subst n. rewrite E, length_app.
    destruct pre; [congruence | cbn [length]; lia].
  - apply Hbad; assumption.
Qed.

Lemma decode_utf8_raise (b : bytes) (e : exn) :
  decode_utf8 b = Raise e -> e = UnicodeDecodeError.
Proof.
  revert e. induction b as [|c pre rest _ Hc IH|b0 r0 H1 _]
    using decode_utf8_ind; intros e.
  - discriminate.
  - rewrite (decode_encoded_char c pre Hc).
    destruct (decode_utf8 rest) as [s|e'] eqn:E; [discriminate|].
    intros [= <-]. apply IH. reflexivity.
  - rewrite H1. congruence.
Qed.

(** A decoded text holds no lone surrogate. *)
Lemma decode_utf8_scalar (b : bytes) (s : str) :
  decode_utf8 b = Ok s -> forallb is_scalar s = true.
Proof.
  revert s. induction b as [|c pre rest _ Hc IH|b0 r0 H1 _]
    using decode_utf8_ind; intros s.
  - intros [= <-]. reflexivity.
  - rewrite (decode_encoded_char c pre Hc).
    destruct (decode_utf8 rest) as [t|e'] eqn:E; [|discriminate].
    intros [= <-]. cbn [forallb]. rewrite (IH t eq_refl), andb_true_r.
    pose proof (encode_char_scalar c) as Hs.
    destruct (is_scalar c); [reflexivity | congruence].
  - rewrite H1. discriminate.
Qed.

(** The byte 10 is a newline wherever it stands: the bytes before it and
    the bytes after it are decoded apart. *)
Lemma decode_utf8_newline (a r : bytes) :
  decode_utf8 (a ++ 10%N :: r)
  = (x ← decode_utf8 a; y ← decode_utf8 r; Ok (x ++ 10%N :: y)).
Proof.
  induction a as [|c pre rest _ Hc IH|b0 r0 H1 H2] using decode_utf8_ind.
  - cbn [app decode_utf8]. change (10 <? 128)%N with true. cbv iota.
    cbn [mbind result_bind]. reflexivity.
  - rewrite <- app_assoc, !(decode_encoded_char c pre Hc), IH.
    destruct (decode_utf8 rest) as [x|e]; cbn [mbind result_bind];
      [|reflexivity].
    destruct (decode_utf8 r) as [y|e]; reflexivity.
  - change ((b0 :: r0) ++ 10%N :: r) with (b0 :: r0 ++ 10%N :: r).
    rewrite H1, H2. reflexivity.
Qed.

Lemma decode_utf8_snoc_newline (l : bytes) (t : str) :
  decode_utf8 (l ++ [10%N]) = Ok t ->
  exists t', decode_utf8 l = Ok t' /\ t = t' ++ nl.
Proof.
  rewrite decode_utf8_newline.
  destruct (decode_utf8 l) as [x|e]; cbn [mbind result_bind decode_utf8];
    [|discriminate].
  intros [= <-]. exists x. split; reflexivity.
Qed.

Lemma decode_encoded (s : str) (b : bytes) :
  encode_utf8 s = Ok b -> decode_utf8 b = Ok s.
Proof.
  revert b. induction s as [|c s IH]; intros b; cbn [encode_utf8].
  - intros [= <-]. reflexivity.
  - destruct (encode_char c) as [pre|e] eqn:Hc; cbn [mbind result_bind];
      [|discriminate].
    destruct (encode_utf8 s) as [r|e] eqn:Hs; cbn [mbind result_bind];
      [|discriminate].
    intros [= <-]. rewrite (decode_encoded_char c pre Hc), (IH r eq_refl).
    reflexivity.
Qed.

(** A text of ASCII characters is its own encoding. *)
Lemma encode_utf8_ascii (s : str) :
  forallb is_ascii s = true -> encode_utf8 s = Ok s.
Proof.
  induction s as [|c s IH]; [reflexivity|].
  cbn [forallb encode_utf8]. intros [Hc Hs]%andb_true_iff.
  unfold encode_char. unfold is_ascii in Hc. rewrite Hc, (IH Hs).
  reflexivity.
Qed.

Lemma decode_utf8_ascii (s : str) :
  forallb is_ascii s = true -> decode_utf8 s = Ok s.
Proof.
  intros Hs. apply decode_encoded, encode_utf8_ascii, Hs.
Qed.

Lemma ascii_is_scalar (s : str) :
  forallb is_ascii s = true -> forallb is_scalar s = true.
Proof.
  intros Hs. pose proof (encode_utf8_scalar s) as H.
  rewrite (encode_utf8_ascii s Hs) in H.
  destruct (forallb is_scalar s); [reflexivity | discriminate].
Qed.

End Utf8.

(** * The matcher on a pattern that takes all it can *)
Section Greedy.
Context `{UnicodeData}.

Lemma backoff_first {A} (f : nat -> option A) (lo n : nat) (res : A) :
  lo <= n -> f n = Some res -> backoff f lo n = Some res.
Proof.
  intros Hlo Hf. destruct n; simpl.
  - destruct lo; [|lia]. simpl. rewrite Hf. reflexivity.
  - replace (Nat.ltb (S n) lo) with false
      by (symmetry; apply Nat.ltb_ge; lia).
    rewrite Hf. reflexivity.
Qed.

Lemma backoff_second {A} (f : nat -> option A) (lo n : nat) (res : A) :
  lo <= n -> f (S n) = None -> f n = Some res ->
  backoff f lo (S n) = Some res.
Proof.
  intros Hlo Hn Hf. cbn [backoff].
  replace (Nat.ltb (S n) lo) with false
    by (symmetry; apply Nat.ltb_ge; lia).
  rewrite Hn. apply backoff_first; assumption.
Qed.

(** The greedy count on a run of the class that something else ends. *)
Lemma span_app (cl : cclass) (hi : option nat) (w rest : str) :
  forallb (cmatch cl) w = true ->
  match hi with Some h => length w <= h | None => True end ->
  match rest with [] => True | c :: _ => cmatch cl c = false end ->
  span cl hi (w ++ rest) = length w.
Proof.
  intros Hw Hhi Hrest. revert hi Hhi.
  induction w as [|c w IH]; intros hi Hhi.
  - simpl. destruct hi as [[|h]|]; destruct rest as [|c rest];
      simpl; try reflexivity; rewrite Hrest; reflexivity.
  - simpl in Hw. apply andb_prop in Hw as [Hc Hw].
    destruct hi as [[|h]|]; simpl in *; [lia | |].
    + rewrite Hc. f_equal. apply (IH Hw (Some h)). lia.
    + rewrite Hc. f_equal. apply (IH Hw None). exact I.
Qed.

(** A repetition that takes all it can, when what follows then
    matches. *)
Lemma run_many_all (cl : cclass) (lo : nat) (hi : option nat)
    (w rest : str) pos caps (k : cont) res :
  forallb (cmatch cl) w = true ->
  lo <= length w ->
  match hi with Some h => length w <= h | None => True end ->
  match rest with [] => True | c :: _ => cmatch cl c = false end ->
  k (pos + length w) rest caps = Some res ->
  run (Many lo hi cl) pos (w ++ rest) caps k = Some res.
Proof.
  intros Hw Hlo Hhi Hrest Hr. cbn [run].
  rewrite span_app by assumption.
  apply backoff_first; [exact Hlo|].
  rewrite drop_app_length. exact Hr.
Qed.

(** A repetition that has to give one character back. *)
Lemma run_many_but_one (cl : cclass) (lo : nat) (w : str) (c : char)
    (rest : str) pos caps (k : cont) res :
  forallb (cmatch cl) w = true ->
  cmatch cl c = true ->
  lo <= length w ->
  match rest with [] => True | c :: _ => cmatch cl c = false end ->
  k (pos + S (length w)) rest caps = None ->
  k (pos + length w) (c :: rest) caps = Some res ->
  run (Many lo None cl) pos (w ++ c :: rest) caps k = Some res.
Proof.
  intros Hw Hc Hlo Hrest Hnone Hr. cbn [run].
  replace (w ++ c :: rest) with ((w ++ [c]) ++ rest)
    by (rewrite <- app_assoc; reflexivity).
  rewrite span_app; [| |exact I|exact Hrest].
  2:{ rewrite forallb_app, Hw. simpl. rewrite Hc. reflexivity. }
  rewrite length_app. simpl length.
  replace (length w + 1) with (S (length w)) by lia.
  apply backoff_second; [exact Hlo | |].
  - replace (S (length w)) with (length (w ++ [c]))
      by (rewrite length_app; simpl; lia).
    rewrite drop_app_length.
    rewrite length_app. simpl length.
    replace (pos + (length w + 1)) with (pos + S (length w)) by lia.
    exact Hnone.
  - rewrite <- app_assoc. rewrite drop_app_length. exact Hr.
Qed.

Lemma run_one (cl : cclass) (c : char) (rest : str) pos caps
    (k : cont) res :
  cmatch cl c = true ->
  k (S pos) rest caps = Some res ->
  run (One cl) pos (c :: rest) caps k = Some res.
Proof. intros Hc Hr. cbn [run]. rewrite Hc. exact Hr. Qed.

(** The classes of the patterns on ASCII characters. *)
Lemma blank_is_space (c : char) :
  ((c =? ch " ") || (c =? 9))%N = true -> cmatch sp c = true.
Proof.
  unfold sp. cbn [cmatch existsb item_matches]. rewrite orb_false_r.
  unfold Py.isspace, Py.in_range. eval_ch. intros Hc.
  apply orb_prop in Hc as [Hc|Hc]; apply N.eqb_eq in Hc; subst c; reflexivity.
Qed.

Lemma blank_not_digit (c : char) :
  ((c =? ch " ") || (c =? 9))%N = true -> cmatch dg c = false.
Proof.
  intros Hc.
  apply orb_prop in Hc as [Hc|Hc]; apply N.eqb_eq in Hc; subst c; reflexivity.
Qed.

Lemma digit_is_decimal (c : char) :
  Py.ascii_digit c = true -> cmatch dg c = true.
Proof.
  unfold dg. cbn [cmatch existsb item_matches]. rewrite orb_false_r.
  unfold Py.isdecimal. intros Hc.
  replace (Py.is_ascii c) with true; [exact Hc|].
  symmetry. revert Hc. unfold Py.ascii_digit, Py.in_range, Py.is_ascii.
  eval_ch. bool_lia.
Qed.

Lemma digit_not_space (c : char) :
  Py.ascii_digit c = true -> cmatch sp c = false.
Proof.
  unfold sp. cbn [cmatch existsb item_matches]. rewrite orb_false_r.
  unfold Py.ascii_digit, Py.isspace, Py.in_range. eval_ch. bool_lia.
Qed.

Lemma host_char_ascii (c : char) :
  host_char c = true -> Py.is_ascii c = true.
Proof.
  unfold host_char, Py.ascii_letter, Py.ascii_lower, Py.ascii_upper,
    Py.ascii_digit, Py.in_range, Py.is_ascii.
  eval_ch. bool_lia.
Qed.

Lemma host_char_not_space (c : char) :
  host_char c = true -> Py.isspace c = false.
Proof.
  unfold host_char, Py.ascii_letter, Py.ascii_lower, Py.ascii_upper,
    Py.ascii_digit, Py.isspace, Py.in_range.
  eval_ch. bool_lia.
Qed.

Lemma host_class_spec (c : char) :
  Py.is_ascii c = true ->
  cmatch (OneOf [IWord; IChar (ch "."); IChar (ch "-")]) c = host_char c.
Proof.
  intros Ha. cbn [cmatch existsb item_matches]. unfold Py.isalnum.
  rewrite Ha, orb_false_r. unfold host_char.
  destruct (Py.ascii_letter c), (Py.ascii_digit c), (c =? ch "_")%N,
    (c =? ch ".")%N, (c =? ch "-")%N; reflexivity.
Qed.

Lemma letter_class_spec (c : char) :
  cmatch (OneOf [IRange (ch "a") (ch "z"); IRange (ch "A") (ch "Z")]) c
  = Py.ascii_letter c.
Proof.
  cbn [cmatch existsb item_matches]. rewrite orb_false_r. reflexivity.
Qed.

Lemma letter_is_host_char (c : char) :
  Py.ascii_letter c = true -> host_char c = true.
Proof. unfold host_char. intros ->. reflexivity. Qed.

Lemma run_seq_eq (r1 r2 : regex) pos s caps (k : cont) :
  run (r1 @@ r2) pos s caps k
  = run r1 pos s caps (fun pos' s' caps' => run r2 pos' s' caps' k).
Proof. reflexivity. Qed.

Lemma run_eps_eq pos s caps (k : cont) : run Eps pos s caps k = k pos s caps.
Proof. reflexivity. Qed.

Lemma run_group_eq (i : nat) (r : regex) pos s caps (k : cont) :
  run (Group i r) pos s caps k
  = run r pos s caps
      (fun pos' s' caps' => k pos' s' ((i, take (pos' - pos) s) :: caps')).
Proof. reflexivity. Qed.

Lemma forallb_impl {A} (p q : A -> bool) (l : list A) :
  (forall x, p x = true -> q x = true) ->
  forallb p l = true -> forallb q l = true.
Proof.
  intros Hpq. rewrite !forallb_forall. auto.
Qed.

Lemma take_span_dot (s : str) :
  take (span Dot None s) s = upto_newline s.
Proof.
  induction s as [|c s IH]; [reflexivity|].
  cbn [span upto_newline cmatch fmap option_fmap option_map].
  destruct (c =? 10)%N; cbn [negb]; [reflexivity|].
  cbn [take]. f_equal. exact IH.
Qed.

(** The last group, [( .* )], takes the text up to the newline. *)
Lemma run_rest_of_line (j : nat) (rest : str) pos caps :
  run (Group j (Many 0 None Dot)) pos rest caps accept
  = Some ((j, upto_newline rest) :: caps).
Proof.
  rewrite run_group_eq. cbn [run].
  apply backoff_first; [lia|]. unfold accept.
  replace (pos + span Dot None rest - pos) with (span Dot None rest) by lia.
  rewrite take_span_dot. reflexivity.
Qed.

End Greedy.



(** * More of the merge loop *)
Section LoopSteps.
Context `{UnicodeData}.

(** A turn of the loop, case by case: nothing written, a line passed
    through, or a rule written. *)
Lemma loop_body_step (cfg : settings) (st st' : loop_state) (line : str) :
  loop_body cfg st line = Ok st' ->
  (final_file st' = final_file st /\ hostnames st' = hostnames st /\
   rules st' = rules st /\ exists printed, stdout st' = stdout st ++ printed) \/
  (minimise cfg = false /\ preprocess line <> [] /\
   final_file st' = final_file st ++ [Verbatim (preprocess line)] /\
   hostnames st' = hostnames st /\ rules st' = rules st /\
   stdout st' = stdout st) \/
  (exists hostname suffix,
     extract (strip_rule (preprocess line) (minimise cfg))
     = Some (hostname, suffix) /\
     (hostname ∉ hostnames st) /\
     final_file st'
     = final_file st
         ++ [Rule hostname
               (snd (normalize_response (effective_target_ip cfg)
                       (minimise cfg) hostname suffix))] /\
     hostnames st' = {[hostname]} ∪ hostnames st /\
     rules st' = (rules st + 1)%Z /\
     stdout st' = stdout st).
Proof.
  unfold loop_body. fold (effective_target_ip cfg).
  destruct (passes_through (minimise cfg) (preprocess line)) as [pass|e]
    eqn:Hpass; cbn [mbind result_bind]; [|discriminate].
  destruct pass.
  { destruct (write_data (final_file st) (Verbatim (preprocess line)))
      as [f|e] eqn:Hw; cbn [mbind result_bind]; [|discriminate].
    apply write_data_inv in Hw as ->.
    intros Hst. apply Ok_inj in Hst. subst st'. right. left. cbn.
    split_and!; try reflexivity.
    - destruct (minimise cfg); [discriminate Hpass | reflexivity].
    - intros E. rewrite E in Hpass. unfold passes_through in Hpass.
      destruct (minimise cfg); discriminate Hpass. }
  clear Hpass.
  assert (Hsame : forall s, s = st' ->
            final_file s = final_file st -> hostnames s = hostnames st ->
            rules s = rules st ->
            (exists printed, stdout s = stdout st ++ printed) ->
            final_file st' = final_file st /\ hostnames st' = hostnames st /\
            rules st' = rules st /\
            exists printed, stdout st' = stdout st ++ printed).
  { intros s <-. auto. }
  destruct (Py.contains (u "::1") (preprocess line)).
  { intros Hst. apply Ok_inj in Hst. left.
    apply (Hsame st Hst); try reflexivity. exists []. symmetry. apply app_nil_r. }
  destruct (negb (nonempty (strip_rule (preprocess line) (minimise cfg)))
            || (matches_exclusions
                  (strip_rule (preprocess line) (minimise cfg))
                  (exclusion_regexes cfg))).
  { intros Hst. apply Ok_inj in Hst. left.
    apply (Hsame st Hst); try reflexivity. exists []. symmetry. apply app_nil_r. }
  destruct (Py.contains (u "@") (strip_rule (preprocess line) (minimise cfg))).
  { intros Hst. apply Ok_inj in Hst. left.
    apply (Hsame st Hst); try reflexivity. exists []. symmetry. apply app_nil_r. }
  rewrite normalize_rule_extract.
  destruct (extract (strip_rule (preprocess line) (minimise cfg)))
    as [[hostname suffix]|] eqn:Hex.
  2: { intros Hst. apply Ok_inj in Hst. left.
       apply (Hsame _ Hst); try reflexivity. eexists. reflexivity. }
  cbn [hostnames final_file rules stdout].
  destruct (nonempty _ && negb (bool_decide (hostname ∈ hostnames st))
            && negb (existsb _ (exclusions cfg))) eqn:Hw.
  - destruct (write_data _ _) as [f|e] eqn:Hd; cbn [mbind result_bind];
      [|discriminate].
    apply write_data_inv in Hd as ->.
    intros Hst. apply Ok_inj in Hst. subst st'. right. right.
    exists hostname, suffix. cbn [hostnames final_file rules stdout].
    apply andb_prop in Hw as [Hw _]. apply andb_prop in Hw as [_ Hw].
    apply negb_true_iff, bool_decide_eq_false in Hw.
    split_and!; try reflexivity; [exact Hw | apply app_nil_r].
  - intros Hst. apply Ok_inj in Hst. left.
    apply (Hsame _ Hst); try reflexivity. exists []. reflexivity.
Qed.

End LoopSteps.

(** * Texts without lone surrogates *)
Section Scalars.
Context `{UnicodeData}.
Import Py.

Lemma forallb_incl (p : char -> bool) (a b : str) :
  incl a b -> forallb p b = true -> forallb p a = true.
Proof.
  intros Hi Hb. apply forallb_forall. intros c Hc.
  rewrite forallb_forall in Hb. apply Hb, Hi, Hc.
Qed.

Lemma lstrip_by_incl (q : char -> bool) (s : str) : incl (lstrip_by q s) s.
Proof.
  destruct (PyFacts.lstrip_by_suffix q s) as (a & E & _).
  rewrite E at 2. apply incl_appr, incl_refl.
Qed.

Lemma rstrip_by_incl (q : char -> bool) (s : str) : incl (rstrip_by q s) s.
Proof.
  unfold rstrip_by. intros c Hc. apply in_rev in Hc.
  apply lstrip_by_incl in Hc. apply in_rev. exact Hc.
Qed.

Lemma strip_incl (s : str) : incl (strip s) s.
Proof.
  unfold strip. eapply incl_tran; [apply rstrip_by_incl|].
  apply lstrip_by_incl.
Qed.

Lemma take_incl (n : nat) (s : str) : incl (take n s) s.
Proof.
  rewrite <- (take_drop n s) at 2. apply incl_appl, incl_refl.
Qed.

Lemma slice_to_incl (s : str) (k : Z) : incl (slice_to s k) s.
Proof. unfold slice_to. destruct (k <? 0)%Z; apply take_incl. Qed.

Lemma upto_newline_incl (s : str) : incl (upto_newline s) s.
Proof.
  induction s as [|c s IH]; [apply incl_refl|].
  cbn [upto_newline]. destruct (c =? 10)%N; [apply incl_nil_l|].
  apply incl_cons; [left; reflexivity|].
  apply incl_tl, IH.
Qed.

Lemma replace_scan_incl (sep new cur : str) (skip : nat) (s : str) :
  incl (join new (split_scan sep cur skip s)) (cur ++ s ++ new).
Proof.
  revert cur skip. induction s as [|c s IH]; intros cur skip.
  - cbn [split_scan join]. intros x Hx. apply in_rev in Hx.
    apply in_or_app. left. exact Hx.
  - cbn [split_scan]. destruct skip as [|k].
    + destruct (startswith (c :: s) sep).
      * rewrite join_cons_split_scan. intros x Hx.
        apply in_app_or in Hx as [Hx|Hx].
        { apply in_rev in Hx. apply in_or_app. left. exact Hx. }
        apply in_app_or in Hx as [Hx|Hx].
        { apply in_or_app. right. apply in_or_app. right. exact Hx. }
        apply IH in Hx. cbn [app] in Hx.
        apply in_or_app. right. right. exact Hx.
      * intros x Hx. apply IH in Hx.
        apply in_app_or in Hx as [Hx|Hx].
        { destruct Hx as [<-|Hx].
          - apply in_or_app. right. left. reflexivity.
          - apply in_or_app. left. exact Hx. }
        apply in_or_app. right. right. exact Hx.
    + intros x Hx. apply IH in Hx.
      apply in_app_or in Hx as [Hx|Hx].
      { apply in_or_app. left. exact Hx. }
      apply in_or_app. right. right. exact Hx.
Qed.

(** The characters of a line at the head of the loop body are
    characters of the line, or the space of the replacement. *)
Lemma preprocess_incl (line : str) : incl (preprocess line) (line ++ u " ").
Proof.
  unfold preprocess, rstrip, replace, split.
  eapply incl_tran; [apply rstrip_by_incl|].
  apply (replace_scan_incl (tab ++ u "+") (u " ") [] 0 line).
Qed.

Lemma strip_rule_incl (line : str) (remove_comments : bool) :
  incl (strip_rule line remove_comments) line.
Proof.
  unfold strip_rule. destruct remove_comments; [|apply incl_refl].
  eapply incl_tran; [apply strip_incl | apply slice_to_incl].
Qed.

Lemma preprocess_scalar (line : str) :
  forallb is_scalar line = true ->
  forallb is_scalar (preprocess line) = true.
Proof.
  intros Hl. apply (forallb_incl _ _ _ (preprocess_incl line)).
  rewrite forallb_app, Hl. reflexivity.
Qed.

Lemma tolower_ascii_scalar (c : char) :
  is_ascii c = true -> is_scalar (tolower_ascii c) = true.
Proof.
  unfold is_ascii. intros Hc.
  assert (Hb : (tolower_ascii c < 160)%N).
  { unfold tolower_ascii. destruct (ascii_upper c); bool_lia. }
  unfold is_scalar, is_surrogate, in_range.
  replace ((55296 <=? tolower_ascii c) && (tolower_ascii c <=? 57343))%N
    with false by (symmetry; bool_lia).
  rewrite andb_true_r. bool_lia.
Qed.

Lemma lower_from_scalar (whole : str) (i : nat) (s : str) :
  lower_keeps_scalars ->
  forallb is_scalar s = true ->
  forallb is_scalar (lower_from whole i s) = true.
Proof.
  intros Hlaw. revert i. induction s as [|c s IH]; intros i; [reflexivity|].
  cbn [forallb lower_from]. intros [Hc Hs]%andb_true_iff.
  rewrite forallb_app, (IH (S i) Hs), andb_true_r.
  destruct (is_ascii c) eqn:Ha.
  - cbn [forallb]. rewrite (tolower_ascii_scalar c Ha). reflexivity.
  - apply Hlaw, Hc.
Qed.

Lemma lower_scalar (s : str) :
  lower_keeps_scalars ->
  forallb is_scalar s = true -> forallb is_scalar (lower s) = true.
Proof. intros Hlaw Hs. apply lower_from_scalar; assumption. Qed.

End Scalars.

(** * Where the hostname and the suffix of a rule stand in it *)
Section RuleParts.
Context `{UnicodeData}.

Lemma run_many_eq (lo : nat) (hi : option nat) (cl : cclass) pos s caps
    (k : cont) :
  run (Many lo hi cl) pos s caps k
  = backoff (fun n => k (pos + n) (drop n s) caps) lo (span cl hi s).
Proof. reflexivity. Qed.

Lemma drop_span_space (s : str) :
  drop (span sp None s) s = Py.lstrip_by Py.isspace s.
Proof.
  induction s as [|c s IH]; [reflexivity|].
  cbn [span Py.lstrip_by cmatch sp existsb item_matches fmap option_fmap
       option_map].
  rewrite orb_false_r. destruct (Py.isspace c); [exact IH | reflexivity].
Qed.

(** [\s*] and the last group behind it: the whitespace is passed, then
    the text up to the newline is taken. *)
Lemma run_gap_rest_of_line (j : nat) (rest : str) pos caps :
  run (Many 0 None sp @@ Group j (Many 0 None Dot)) pos rest caps accept
  = Some ((j, upto_newline (Py.lstrip_by Py.isspace rest)) :: caps).
Proof.
  rewrite run_seq_eq, run_many_eq.
  apply backoff_first; [lia|].
  rewrite drop_span_space. apply run_rest_of_line.
Qed.

Lemma ip_domain_parts (rule : str) (res : captures) :
  search ip_domain_regex rule = Some res ->
  exists before w after,
    rule = before ++ w ++ after /\ lang host w /\
    group res 2 = Some w /\ group res 3 = Some (upto_newline after).
Proof.
  unfold ip_domain_regex. rewrite search_bol. intros Hrun.
  apply run_seq in Hrun as (a1 & ? & ? & -> & _ & Hrun).
  apply run_seq in Hrun as (a2 & ? & ? & -> & _ & Hrun).
  apply run_seq in Hrun as (a3 & ? & ? & -> & _ & Hrun).
  apply run_seq in Hrun as (a4 & ? & ? & -> & _ & Hrun).
  apply run_seq_group in Hrun as (w & after & -> & Hw & Hrun);
    [|reflexivity].
  rewrite run_rest_of_line in Hrun. injection Hrun as <-.
  exists (a1 ++ a2 ++ a3 ++ a4), w, after.
  rewrite <- !app_assoc. split_and!; [reflexivity | exact Hw | reflexivity..].
Qed.

Lemma ip_ip_parts (rule : str) (res : captures) :
  search ip_ip_regex rule = Some res ->
  exists before w after,
    rule = before ++ w ++ after /\ lang ipv4 w /\
    group res 2 = Some w /\
    group res 3 = Some (upto_newline (Py.lstrip_by Py.isspace after)).
Proof.
  unfold ip_ip_regex. rewrite search_bol. intros Hrun.
  apply run_seq in Hrun as (a1 & ? & ? & -> & _ & Hrun).
  apply run_seq in Hrun as (a2 & ? & ? & -> & _ & Hrun).
  apply run_seq in Hrun as (a3 & ? & ? & -> & _ & Hrun).
  apply run_seq_group in Hrun as (w & after & -> & Hw & Hrun);
    [|reflexivity].
  rewrite run_gap_rest_of_line in Hrun. injection Hrun as <-.
  exists (a1 ++ a2 ++ a3), w, after.
  rewrite <- !app_assoc. split_and!; [reflexivity | exact Hw | reflexivity..].
Qed.

Lemma raw_domain_parts (rule : str) (res : captures) :
  search raw_domain_regex rule = Some res ->
  exists before w after,
    rule = before ++ w ++ after /\ lang host w /\
    group res 1 = Some w /\ group res 2 = Some (upto_newline after).
Proof.
  unfold raw_domain_regex. rewrite search_bol. intros Hrun.
  apply run_seq in Hrun as (a1 & ? & ? & -> & _ & Hrun).
  apply run_seq_group in Hrun as (w & after & -> & Hw & Hrun);
    [|reflexivity].
  rewrite run_rest_of_line in Hrun. injection Hrun as <-.
  exists a1, w, after.
  split_and!; [reflexivity | exact Hw | reflexivity..].
Qed.

(** The hostname that a pattern extracts is a piece of the rule,
    stripped, and in lower case unless it is an address; the suffix is
    what follows that piece up to the end of the line, behind the
    whitespace when the piece is an address. *)
Lemma extract_parts (rule key : str) (suffix : option str) :
  extract rule = Some (key, suffix) ->
  exists before w after,
    rule = before ++ w ++ after /\
    ((lang host w /\ key = Py.strip (Py.lower w) /\
      suffix = Some (upto_newline after)) \/
     (lang ipv4 w /\ key = Py.strip w /\
      suffix = Some (upto_newline (Py.lstrip_by Py.isspace after)))).
Proof.
  unfold extract.
  destruct (search ip_domain_regex rule) as [res|] eqn:E1.
  { destruct (ip_domain_parts _ _ E1) as (b & w & a & Hr & Hw & -> & ->).
    intros [= <- <-]. exists b, w, a. split; [exact Hr|]. left. auto. }
  destruct (search ip_ip_regex rule) as [res|] eqn:E2.
  { destruct (ip_ip_parts _ _ E2) as (b & w & a & Hr & Hw & -> & ->).
    intros [= <- <-]. exists b, w, a. split; [exact Hr|]. right. auto. }
  destruct (search raw_domain_regex rule) as [res|] eqn:E3; [|discriminate].
  destruct (raw_domain_parts _ _ E3) as (b & w & a & Hr & Hw & -> & ->).
  intros [= <- <-]. exists b, w, a. split; [exact Hr|]. left. auto.
Qed.

(** A rule without lone surrogates is written without one, when the
    target IP has none. *)
Lemma rule_text_scalar (ip rule key : str) (keep : bool)
    (suffix : option str) :
  lower_keeps_scalars ->
  forallb Py.is_scalar ip = true ->
  forallb Py.is_scalar rule = true ->
  extract rule = Some (key, suffix) ->
  forallb Py.is_scalar (snd (normalize_response ip keep key suffix)) = true.
Proof.
  intros Hlaw Hip Hrule Hex.
  destruct (extract_parts _ _ _ Hex) as (b & w & a & -> & Hparts).
  rewrite !forallb_app in Hrule.
  apply andb_prop in Hrule as [_ Hrule].
  apply andb_prop in Hrule as [Hw Ha].
  assert (Hkey : forallb Py.is_scalar key = true
                 /\ forallb Py.is_scalar (default [] suffix) = true).
  { destruct Hparts as [(_ & -> & ->) | (_ & -> & ->)]; cbn [default]; split.
    - apply (forallb_incl _ _ _ (strip_incl _)), lower_scalar; assumption.
    - apply (forallb_incl _ _ _ (upto_newline_incl _)), Ha.
    - apply (forallb_incl _ _ _ (strip_incl _)), Hw.
    - apply (forallb_incl _ _ _ (upto_newline_incl _)).
      apply (forallb_incl _ _ _ (lstrip_by_incl _ _)), Ha. }
  destruct Hkey as [Hkey Hsuf].
  unfold normalize_response. cbn [snd].
  destruct (Nat.ltb 0 (length ip)).
  - destruct (keep && truthy suffix);
      rewrite !forallb_app, ?Hip, ?Hkey, ?Hsuf; reflexivity.
  - rewrite forallb_app, Hkey. reflexivity.
Qed.

End RuleParts.

Section LoopInvariants.
Context `{UnicodeData}.

Lemma write_data_raise (f : list write) (data : write) (e : exn) :
  write_data f data = Raise e ->
  e = UnicodeEncodeError /\ Py.encode_utf8 (write_text data) = Raise e.
Proof.
  unfold write_data.
  destruct (Py.encode_utf8 (write_text data)) as [b|e'] eqn:E;
    cbn [mbind result_bind]; [discriminate|].
  intros [= <-]. split; [|reflexivity].
  apply encode_utf8_raise in E as [E _]. exact E.
Qed.

Lemma write_data_ok (f : list write) (data : write) :
  forallb Py.is_scalar (write_text data) = true ->
  write_data f data = Ok (f ++ [data]).
Proof.
  intros Hs. unfold write_data.
  destruct (encode_utf8_ok _ Hs) as (b & ->). reflexivity.
Qed.

(** What makes a turn raise: the index into an empty line, or
    [write_data] on a text that has no encoding. *)
Lemma loop_body_raise (cfg : settings) (st : loop_state) (line : str)
    (e : exn) :
  loop_body cfg st line = Raise e ->
  (e = IndexError /\ minimise cfg = false /\ preprocess line = []) \/
  (e = UnicodeEncodeError /\
   ((minimise cfg = false /\
     Py.encode_utf8 (preprocess line) = Raise UnicodeEncodeError) \/
    exists hostname suffix,
      extract (strip_rule (preprocess line) (minimise cfg))
      = Some (hostname, suffix) /\
      Py.encode_utf8
        (snd (normalize_response (effective_target_ip cfg) (minimise cfg)
                hostname suffix))
      = Raise UnicodeEncodeError)).
Proof.
  unfold loop_body. fold (effective_target_ip cfg).
  destruct (passes_through (minimise cfg) (preprocess line)) as [pass|e']
    eqn:Hpass; cbn [mbind result_bind].
  2:{ intros [= <-]. left. unfold passes_through in Hpass.
      destruct (minimise cfg); cbn [negb] in Hpass; [discriminate|].
      destruct (preprocess line) as [|c rest];
        cbn [Py.index lookup list_lookup mbind result_bind] in Hpass;
        [|discriminate].
      injection Hpass as <-. auto. }
  destruct pass.
  { destruct (write_data (final_file st) (Verbatim (preprocess line)))
      as [f|e'] eqn:Hw; cbn [mbind result_bind]; [discriminate|].
    intros [= <-]. apply write_data_raise in Hw as [-> Hw].
    right. split; [reflexivity|]. left. split; [|exact Hw].
    unfold passes_through in Hpass.
    destruct (minimise cfg); [discriminate Hpass | reflexivity]. }
  clear Hpass.
  destruct (Py.contains (u "::1") (preprocess line)); [discriminate|].
  destruct (negb (nonempty (strip_rule (preprocess line) (minimise cfg)))
            || (matches_exclusions
                  (strip_rule (preprocess line) (minimise cfg))
                  (exclusion_regexes cfg))); [discriminate|].
  destruct (Py.contains (u "@") (strip_rule (preprocess line) (minimise cfg)));
    [discriminate|].
  rewrite normalize_rule_extract.
  destruct (extract (strip_rule (preprocess line) (minimise cfg)))
    as [[hostname suffix]|] eqn:Hex; [|discriminate].
  cbn [hostnames final_file rules stdout].
  destruct (nonempty _ && negb (bool_decide (hostname ∈ hostnames st))
            && negb (existsb _ (exclusions cfg))); [|discriminate].
  destruct (write_data _ _) as [f|e'] eqn:Hw; cbn [mbind result_bind];
    [discriminate|].
  intros [= <-]. apply write_data_raise in Hw as [-> Hw].
  right. split; [reflexivity|]. right. exists hostname, suffix.
  split; [reflexivity | exact Hw].
Qed.

Lemma loop_body_index (cfg : settings) (st : loop_state) (line : str) :
  minimise cfg = false -> preprocess line = [] ->
  loop_body cfg st line = Raise IndexError.
Proof.
  intros Hm Hl. unfold loop_body, passes_through. rewrite Hm, Hl.
  reflexivity.
Qed.

(** A turn on a raw line: the exception is that of the decoding, or one
    of the body on the decoded line. *)
Lemma loop_turn_raise (cfg : settings) (st : loop_state) (raw : bytes)
    (e : exn) :
  loop_turn cfg st raw = Raise e ->
  (e = UnicodeDecodeError /\ Py.decode_utf8 raw = Raise UnicodeDecodeError) \/
  exists line, Py.decode_utf8 raw = Ok line /\
               loop_body cfg st line = Raise e.
Proof.
  unfold loop_turn.
  destruct (Py.decode_utf8 raw) as [line|e'] eqn:E; cbn [mbind result_bind].
  - intros Hb. right. exists line. auto.
  - intros [= <-]. left. pose proof (decode_utf8_raise _ _ E) as ->. auto.
Qed.

(** The exception of a turn on a raw line, told apart by its kind. *)
Lemma loop_turn_raise_kind (cfg : settings) (st : loop_state) (raw : bytes)
    (e : exn) :
  loop_turn cfg st raw = Raise e ->
  match e with
  | IndexError =>
      minimise cfg = false /\
      exists line, Py.decode_utf8 raw = Ok line /\ preprocess line = []
  | UnicodeDecodeError => Py.decode_utf8 raw = Raise UnicodeDecodeError
  | UnicodeEncodeError =>
      exists line hostname suffix,
        Py.decode_utf8 raw = Ok line /\
        extract (strip_rule (preprocess line) (minimise cfg))
        = Some (hostname, suffix) /\
        Py.encode_utf8
          (snd (normalize_response (effective_target_ip cfg) (minimise cfg)
                  hostname suffix))
        = Raise UnicodeEncodeError /\
        (lower_keeps_scalars ->
         forallb Py.is_scalar (effective_target_ip cfg) = false)
  | UnicodeError => False
  end.
Proof.
  intros Hturn.
  destruct (loop_turn_raise _ _ _ _ Hturn) as [[-> Hd] | (line & Hd & Hb)];
    [exact Hd|].
  pose proof (decode_utf8_scalar _ _ Hd) as Hline.
  pose proof (preprocess_scalar _ Hline) as Hpre.
  destruct (loop_body_raise _ _ _ _ Hb)
    as [(-> & Hm & Hl) | (-> & [(Hm & He) | (h & s & Hex & He)])].
  - split; [exact Hm|]. exists line. auto.
  - exfalso. destruct (encode_utf8_ok _ Hpre) as (b & Hb'). congruence.
  - exists line, h, s. split_and!; [exact Hd | exact Hex | exact He |].
    intros Hlaw.
    destruct (forallb Py.is_scalar (effective_target_ip cfg)) eqn:Hip;
      [|reflexivity].
    exfalso.
    pose proof (rule_text_scalar _ _ _ (minimise cfg) _ Hlaw Hip
                  (forallb_incl _ _ _ (strip_rule_incl _ _) Hpre) Hex) as Hs.
    destruct (encode_utf8_ok _ Hs) as (b & Hb'). congruence.
Qed.

(** A run that raises does so at a line of the stream. *)
Lemma loop_raises (cfg : settings) (lines : list bytes) (st : loop_state)
    (e : exn) :
  snd (loop cfg lines st) = Some e ->
  exists raw st', raw ∈ lines /\ loop_turn cfg st' raw = Raise e.
Proof.
  revert st. induction lines as [|raw lines IH]; intros st; simpl;
    [discriminate|].
  destruct (loop_turn cfg st raw) as [st'|e'] eqn:Hturn.
  - intros Hl. destruct (IH _ Hl) as (r & s & Hin & Hr).
    exists r, s. split; [right; exact Hin | exact Hr].
  - simpl. intros [= <-]. exists raw, st. split; [left | exact Hturn].
Qed.

(** A line on which the turn raises in every state ends the run, if
    nothing before it does. *)
Lemma loop_stops (cfg : settings) (lines : list bytes) (st : loop_state)
    (raw : bytes) :
  raw ∈ lines ->
  (forall st', exists e, loop_turn cfg st' raw = Raise e) ->
  exists e, snd (loop cfg lines st) = Some e.
Proof.
  intros Hin Hraw. revert st.
  induction lines as [|r lines IH]; intros st; [inversion Hin|].
  simpl. destruct (loop_turn cfg st r) as [st'|e'] eqn:Hturn;
    [|exists e'; reflexivity].
  apply elem_of_cons in Hin as [<-|Hin]; [|apply IH, Hin].
  destruct (Hraw st) as (e & He). congruence.
Qed.

(** X1: what ends a run.  When [write_final_file] raises, the exception
    comes from a line of the stream.  It is the [IndexError] of
    [line[0]] when minimise is off and the line, decoded, is empty after
    the replacement and the trimming of the loop; the
    [UnicodeDecodeError] of [line.decode] when the line is not UTF-8;
    the [UnicodeEncodeError] of [write_data] when the rule written for
    the line has no encoding, and then, if the case tables keep
    characters characters, the target IP holds a lone surrogate.  In
    the other direction, with minimise off a line that is empty after
    the replacement and the trimming makes the run raise, and so does a
    line that is not UTF-8 whatever minimise is. *)
Theorem write_final_file_raises (cfg : settings) (temp_file : list bytes) :
  (forall e,
     snd (write_final_file temp_file [] cfg) = Raise e ->
     exists raw, raw ∈ temp_file /\
       match e with
       | IndexError =>
           minimise cfg = false /\
           exists line, Py.decode_utf8 raw = Ok line /\ preprocess line = []
       | UnicodeDecodeError => Py.decode_utf8 raw = Raise UnicodeDecodeError
       | UnicodeEncodeError =>
           exists line hostname suffix,
             Py.decode_utf8 raw = Ok line /\
             extract (strip_rule (preprocess line) (minimise cfg))
             = Some (hostname, suffix) /\
             Py.encode_utf8
               (snd (normalize_response (effective_target_ip cfg)
                       (minimise cfg) hostname suffix))
             = Raise UnicodeEncodeError /\
             (lower_keeps_scalars ->
              forallb Py.is_scalar (effective_target_ip cfg) = false)
       | UnicodeError => False
       end) /\
  ((minimise cfg = false /\
    Exists (fun raw => exists line, Py.decode_utf8 raw = Ok line /\
                                    preprocess line = []) temp_file) \/
   Exists (fun raw => Py.decode_utf8 raw = Raise UnicodeDecodeError) temp_file ->
   exists e, snd (write_final_file temp_file [] cfg) = Raise e).
Proof.
  unfold write_final_file.
  pose proof (loop_raises cfg temp_file (initial_state cfg [] [])) as Hr.
  pose proof (loop_stops cfg temp_file (initial_state cfg [] [])) as Hs.
  destruct (loop cfg temp_file (initial_state cfg [] [])) as [st' [e'|]];
    cbn [snd] in *.
  - split; [|intros _; exists e'; reflexivity].
    intros e [= <-]. destruct (Hr e' eq_refl) as (raw & s & Hin & Hturn).
    exists raw. split; [exact Hin|].
    apply (loop_turn_raise_kind _ _ _ _ Hturn).
  - split; [discriminate|]. intros Hbad. exfalso.
    assert (Hex : exists raw, raw ∈ temp_file /\
                    forall s, exists e, loop_turn cfg s raw = Raise e).
    { destruct Hbad as [[Hm Hex] | Hex];
        apply Exists_exists in Hex as (raw & Hin & Hraw);
        exists raw; (split; [exact Hin|]); intros s.
      - destruct Hraw as (line & Hd & Hl). exists IndexError.
        rewrite (loop_turn_decoded _ _ _ _ Hd).
        apply loop_body_index; assumption.
      - exists UnicodeDecodeError. unfold loop_turn. rewrite Hraw.
        reflexivity. }
    destruct Hex as (raw & Hin & Hraw).
    destruct (Hs raw Hin Hraw) as (e & He). discriminate He.
Qed.

Lemma preprocess_newline_nonempty (l : str) : preprocess (l ++ nl) <> [].
Proof.
  assert (Hc : Py.contains nl (preprocess (l ++ nl)) = true).
  { unfold preprocess.
    apply (rstrip_keeps (u " .") [] 10%N); [reflexivity|].
    apply replace_keeps; [discriminate | discriminate | |].
    - vm_compute. repeat constructor. intros Hin.
      repeat (apply elem_of_cons in Hin as [Hin|Hin]; [discriminate|]).
      inversion Hin.
    - apply PyFacts.contains_spec. exists l, []. reflexivity. }
  intros E. rewrite E in Hc. discriminate Hc.
Qed.

(** The exception of a run, told apart by its kind, at the line that
    raised it. *)
Lemma run_raise_kind (cfg : settings) (temp_file : list bytes) (e : exn) :
  snd (write_final_file temp_file [] cfg) = Raise e ->
  exists raw st, raw ∈ temp_file /\ loop_turn cfg st raw = Raise e.
Proof.
  unfold write_final_file.
  pose proof (loop_raises cfg temp_file (initial_state cfg [] [])) as Hr.
  destruct (loop cfg temp_file (initial_state cfg [] [])) as [st' [e'|]];
    cbn [snd] in *; [|discriminate].
  intros [= <-]. exact (Hr e' eq_refl).
Qed.

Lemma run_no_index_error (cfg : settings) (temp_file : list bytes) :
  Forall (fun raw => exists l, raw = l ++ [10%N]) temp_file ->
  snd (write_final_file temp_file [] cfg) <> Raise IndexError.
Proof.
  intros Hall Hraise.
  destruct (run_raise_kind _ _ _ Hraise) as (raw & s & Hin & Hturn).
  destruct (loop_turn_raise_kind _ _ _ _ Hturn) as (_ & line & Hd & Hl).
  rewrite Forall_forall in Hall. destruct (Hall raw Hin) as (l & ->).
  apply decode_utf8_snoc_newline in Hd as (t & _ & ->).
  exact (preprocess_newline_nonempty t Hl).
Qed.

Lemma run_no_decode_error (cfg : settings) (temp_file : list bytes) :
  Forall (fun raw => exists line, Py.decode_utf8 raw = Ok line) temp_file ->
  snd (write_final_file temp_file [] cfg) <> Raise UnicodeDecodeError.
Proof.
  intros Hall Hraise.
  destruct (run_raise_kind _ _ _ Hraise) as (raw & s & Hin & Hturn).
  pose proof (loop_turn_raise_kind _ _ _ _ Hturn) as Hkind. cbv iota in Hkind.
  rewrite Forall_forall in Hall. destruct (Hall raw Hin) as (line & Hd).
  congruence.
Qed.

Lemma run_no_encode_error (cfg : settings) (temp_file : list bytes) :
  lower_keeps_scalars ->
  forallb Py.is_scalar (effective_target_ip cfg) = true ->
  snd (write_final_file temp_file [] cfg) <> Raise UnicodeEncodeError.
Proof.
  intros Hlaw Hip Hraise.
  destruct (run_raise_kind _ _ _ Hraise) as (raw & s & Hin & Hturn).
  destruct (loop_turn_raise_kind _ _ _ _ Hturn)
    as (_ & _ & _ & _ & _ & _ & Hno).
  rewrite (Hno Hlaw) in Hip. discriminate Hip.
Qed.

Lemma run_no_unicode_error (cfg : settings) (temp_file : list bytes) :
  snd (write_final_file temp_file [] cfg) <> Raise UnicodeError.
Proof.
  intros Hraise.
  destruct (run_raise_kind _ _ _ Hraise) as (raw & s & Hin & Hturn).
  exact (loop_turn_raise_kind _ _ _ _ Hturn).
Qed.

(** A run that raises nothing returns the settings with the counter
    written back. *)
Lemma run_returns (cfg : settings) (temp_file : list bytes) :
  (forall e, snd (write_final_file temp_file [] cfg) <> Raise e) ->
  exists cfg', snd (write_final_file temp_file [] cfg) = Ok cfg' /\
               number_of_rules cfg' = rules (final_state temp_file cfg).
Proof.
  unfold final_state, write_final_file.
  destruct (loop cfg temp_file (initial_state cfg [] [])) as [st [e|]];
    cbn [snd fst].
  - intros Hno. exfalso. exact (Hno e eq_refl).
  - intros _. eexists. split; reflexivity.
Qed.

Lemma run_completes (cfg : settings) (temp_file : list bytes) :
  Forall (fun raw => exists l, raw = l ++ [10%N]) temp_file ->
  Forall (fun raw => exists line, Py.decode_utf8 raw = Ok line) temp_file ->
  lower_keeps_scalars ->
  forallb Py.is_scalar (effective_target_ip cfg) = true ->
  exists cfg', snd (write_final_file temp_file [] cfg) = Ok cfg' /\
               number_of_rules cfg' = rules (final_state temp_file cfg).
Proof.
  intros Hall Hdec Hlaw Hip. apply run_returns. intros [].
  - apply run_no_index_error, Hall.
  - apply run_no_unicode_error.
  - apply run_no_decode_error, Hdec.
  - apply run_no_encode_error; assumption.
Qed.

(** X2: a stream whose lines all end with a newline.  The run does not
    raise [IndexError].  If the lines are UTF-8, the case tables keep
    characters characters and the target IP holds no lone surrogate,
    the stream is read to its end: [write_final_file] returns the
    settings, with the counter written back, and raises nothing. *)
Theorem newline_terminated_stream_completes (cfg : settings)
    (temp_file : list bytes) :
  Forall (fun raw => exists l, raw = l ++ [10%N]) temp_file ->
  snd (write_final_file temp_file [] cfg) <> Raise IndexError /\
  (Forall (fun raw => exists line, Py.decode_utf8 raw = Ok line) temp_file ->
   lower_keeps_scalars ->
   forallb Py.is_scalar (effective_target_ip cfg) = true ->
   exists cfg', snd (write_final_file temp_file [] cfg) = Ok cfg' /\
                number_of_rules cfg' = rules (final_state temp_file cfg)).
Proof.
  intros Hall. split; [apply run_no_index_error, Hall|].
  intros Hdec Hlaw Hip. apply run_completes; assumption.
Qed.

(** The three quantities that a run keeps in step. *)
Lemma loop_counter (cfg : settings) (lines : list bytes) (st : loop_state) :
  rules (fst (loop cfg lines st))
  = (rules st
     + Z.of_nat (length (written_keys (fst (loop cfg lines st))))
     - Z.of_nat (length (written_keys st)))%Z.
Proof.
  revert st. induction lines as [|raw lines IH]; intros st; simpl; [lia|].
  destruct (loop_turn cfg st raw) as [st'|e] eqn:Hturn; simpl; [|lia].
  apply loop_turn_inv in Hturn as (line & _ & Hbody).
  rewrite IH.
  destruct (loop_body_step _ _ _ _ Hbody)
    as [(Hf & _ & Hr & _) | [(_ & _ & Hf & _ & Hr & _)
       | (h & s & _ & _ & Hf & _ & Hr & _)]];
    unfold written_keys in *; rewrite Hr, Hf, ?omap_app, ?length_app; simpl; lia.
Qed.

(** X3: the counter.  At the end of a run the counter is its value in the
    settings plus the number of rules written, and this is the value
    written back into the settings when the run is not ended by an
    exception. *)
Theorem rule_counter (cfg : settings) (temp_file : list bytes) :
  let st := final_state temp_file cfg in
  rules st
  = (number_of_rules cfg + Z.of_nat (length (written_keys st)))%Z /\
  match snd (write_final_file temp_file [] cfg) with
  | Ok cfg' =>
      number_of_rules cfg'
      = (number_of_rules cfg + Z.of_nat (length (written_keys st)))%Z
  | Raise _ => True
  end.
Proof.
  cbv zeta. rewrite final_state_loop.
  pose proof (loop_counter cfg temp_file (initial_state cfg [] [])) as Hc.
  simpl in Hc. rewrite Z.sub_0_r in Hc.
  split; [exact Hc|].
  unfold write_final_file.
  destruct (loop cfg temp_file (initial_state cfg [] [])) as [st [e|]];
    simpl in *; [exact I | exact Hc].
Qed.

Lemma loop_body_grows (cfg : settings) (st st' : loop_state) (line : str) :
  loop_body cfg st line = Ok st' ->
  final_file st `prefix_of` final_file st' /\
  stdout st `prefix_of` stdout st'.
Proof.
  intros Hbody.
  destruct (loop_body_step _ _ _ _ Hbody)
    as [(Hf & _ & _ & (p & Hs)) | [(_ & _ & Hf & _ & _ & Hs)
       | (h & s & _ & _ & Hf & _ & _ & Hs)]];
    rewrite Hf, Hs; split;
    try reflexivity; try (apply prefix_app_r; reflexivity).
Qed.

Lemma loop_grows (cfg : settings) (lines : list bytes) (st : loop_state) :
  final_file st `prefix_of` final_file (fst (loop cfg lines st)) /\
  stdout st `prefix_of` stdout (fst (loop cfg lines st)).
Proof.
  revert st. induction lines as [|raw lines IH]; intros st; simpl.
  - split; reflexivity.
  - destruct (loop_turn cfg st raw) as [st'|e] eqn:Hturn; simpl;
      [|split; reflexivity].
    apply loop_turn_inv in Hturn as (line & _ & Hbody).
    destruct (loop_body_grows _ _ _ _ Hbody) as [Hf Hs].
    destruct (IH st') as [Hf' Hs']. split; etrans; eassumption.
Qed.

(** X4: one forward pass.  What a run has written to the output file and
    to the standard output after the first lines of a stream stays, in
    front of what the rest of the stream adds. *)
Theorem output_grows (cfg : settings) (prefix rest : list bytes) :
  final_file (final_state prefix cfg)
    `prefix_of` final_file (final_state (prefix ++ rest) cfg) /\
  stdout (final_state prefix cfg)
    `prefix_of` stdout (final_state (prefix ++ rest) cfg).
Proof.
  rewrite !final_state_loop, loop_app.
  destruct (loop cfg prefix (initial_state cfg [] [])) as [st' [e|]]; simpl.
  - split; reflexivity.
  - apply loop_grows.
Qed.

End LoopInvariants.

Lemma write_final_file_raises_witness :
  let cfg :=
    {| number_of_rules := 0; minimise := false; empty_target_ip := false;
       target_ip := [56575%N]; exclusion_regexes := []; exclusions := [] |} in
  let temp_file : list bytes := [u "0.0.0.0 a.com" ++ nl] in
  snd (write_final_file (H := ascii_tables) temp_file [] cfg)
  = Raise UnicodeEncodeError /\
  exists raw, raw ∈ temp_file /\
    exists line hostname suffix,
      Py.decode_utf8 raw = Ok line /\
      extract (H := ascii_tables)
        (strip_rule (preprocess line) (minimise cfg))
      = Some (hostname, suffix) /\
      Py.encode_utf8
        (snd (normalize_response (effective_target_ip cfg) (minimise cfg)
                hostname suffix))
      = Raise UnicodeEncodeError /\
      (lower_keeps_scalars (H := ascii_tables) ->
       forallb Py.is_scalar (effective_target_ip cfg) = false).
Proof.
  cbv zeta.
  assert (Hraise :
    snd (write_final_file (H := ascii_tables) [u "0.0.0.0 a.com" ++ nl] []
           {| number_of_rules := 0; minimise := false;
              empty_target_ip := false; target_ip := [56575%N];
              exclusion_regexes := []; exclusions := [] |})
    = Raise UnicodeEncodeError) by (vm_compute; reflexivity).
  split; [exact Hraise|].
  exact (proj1 (write_final_file_raises (H := ascii_tables) _ _)
           UnicodeEncodeError Hraise).
Defined.

(** The tables that leave every character beyond ASCII as it is keep
    characters characters. *)
Lemma ascii_tables_keep_scalars : lower_keeps_scalars (H := ascii_tables).
Proof.
  intros whole i c Hc. cbn [uni_tolower ascii_tables forallb].
  rewrite Hc. reflexivity.
Qed.

Lemma newline_terminated_stream_completes_witness :
  let temp_file : list bytes :=
    [u "# a list" ++ nl; u "0.0.0.0 example.com" ++ nl] in
  Forall (fun raw => exists l, raw = l ++ [10%N]) temp_file /\
  Forall (fun raw => exists line, Py.decode_utf8 raw = Ok line) temp_file /\
  lower_keeps_scalars (H := ascii_tables) /\
  forallb Py.is_scalar (effective_target_ip get_defaults) = true /\
  snd (write_final_file (H := ascii_tables) temp_file [] get_defaults)
  <> Raise IndexError /\
  exists cfg',
    snd (write_final_file (H := ascii_tables) temp_file [] get_defaults)
    = Ok cfg' /\
    number_of_rules cfg'
    = rules (final_state (H := ascii_tables) temp_file get_defaults).
Proof.
  cbv zeta.
  assert (Hall : Forall (fun raw : bytes => exists l, raw = l ++ [10%N])
                   [u "# a list" ++ nl; u "0.0.0.0 example.com" ++ nl])
    by (repeat constructor; eexists; reflexivity).
  assert (Hdec : Forall (fun raw : bytes =>
                           exists line, Py.decode_utf8 raw = Ok line)
                   [u "# a list" ++ nl; u "0.0.0.0 example.com" ++ nl])
    by (repeat constructor; eexists; vm_compute; reflexivity).
  split; [exact Hall|]. split; [exact Hdec|].
  split; [exact ascii_tables_keep_scalars|]. split; [reflexivity|].
  destruct (newline_terminated_stream_completes (H := ascii_tables)
              get_defaults
              [u "# a list" ++ nl; u "0.0.0.0 example.com" ++ nl]
              Hall) as [Hidx Hok].
  split; [exact Hidx|].
  exact (Hok Hdec ascii_tables_keep_scalars eq_refl).
Defined.

(** ** The text of a written rule *)
Section RuleText.
Context `{UnicodeData}.

(** The line that [normalize_response] builds from what a pattern
    extracted. *)
Lemma normalize_response_text (ip : str) (keep : bool) (rule key : str)
    (suffix : option str) :
  extract rule = Some (key, suffix) ->
  let r := snd (normalize_response ip keep key suffix) in
  ends_with_one_newline r /\ key <> [] /\
  (ip = [] -> r = key ++ nl) /\
  (ip <> [] -> keep = false -> r = ip ++ u " " ++ key ++ nl) /\
  (ip <> [] -> keep = true ->
   exists w, suffix = Some w /\
             r = ip ++ u " " ++ key
                   ++ (if nonempty w then u " #" ++ w else []) ++ nl).
Proof.
  intros Hex. cbv zeta.
  destruct (extract_shape _ _ _ Hex) as ((z & c & -> & Hc) & w & -> & Hw).
  pose proof (not_space_not_newline c Hc) as Hc'.
  unfold normalize_response. rewrite length_pos_nonempty. cbn [snd truthy].
  split_and!.
  - destruct (nonempty ip); [|apply one_newline, Hc'].
    destruct (keep && nonempty w) eqn:Hk.
    + apply andb_prop in Hk as [_ Hk].
      apply nonempty_true in Hk.
      destruct (last_of_nonempty w Hk Hw) as (x & d & -> & Hd).
      change (default [] (Some (x ++ [d]))) with (x ++ [d]).
      rewrite !app_assoc. apply one_newline, Hd.
    + rewrite !app_assoc. apply one_newline, Hc'.
  - destruct z; discriminate.
  - intros ->. reflexivity.
  - intros Hne ->. apply nonempty_true in Hne. rewrite Hne.
    cbn [andb]. rewrite <- !app_assoc. reflexivity.
  - intros Hne ->. apply nonempty_true in Hne. rewrite Hne.
    exists w. split; [reflexivity|]. cbn [andb].
    change (default [] (Some w)) with w.
    destruct (nonempty w); rewrite <- ?app_assoc; reflexivity.
Qed.

(** Every rule in the output file was written for a line of the
    stream, from what the patterns extracted from it. *)
Lemma loop_rule_origin (cfg : settings) (lines : list bytes)
    (st : loop_state) (hostname rule : str) :
  Rule hostname rule ∈ final_file (fst (loop cfg lines st)) ->
  Rule hostname rule ∈ final_file st \/
  exists raw line suffix,
    raw ∈ lines /\ Py.decode_utf8 raw = Ok line /\
    extract (strip_rule (preprocess line) (minimise cfg))
    = Some (hostname, suffix) /\
    rule = snd (normalize_response (effective_target_ip cfg) (minimise cfg)
                  hostname suffix).
Proof.
  revert st. induction lines as [|raw lines IH]; intros st; simpl;
    [auto|].
  destruct (loop_turn cfg st raw) as [st'|e] eqn:Hturn; simpl; [|auto].
  apply loop_turn_inv in Hturn as (line & Hd & Hbody).
  intros Hin. destruct (IH _ Hin) as [Hst' | (r & l & s & Hr & Hrest)].
  2:{ right. exists r, l, s. split; [right; exact Hr | exact Hrest]. }
  destruct (loop_body_step _ _ _ _ Hbody)
    as [(Hf & _) | [(_ & _ & Hf & _) | (h & s & Hex & _ & Hf & _)]];
    rewrite Hf in Hst'; [left; exact Hst' | |].
  - apply elem_of_app in Hst' as [Hst'|Hst']; [left; exact Hst'|].
    apply list_elem_of_singleton in Hst'. discriminate Hst'.
  - apply elem_of_app in Hst' as [Hst'|Hst']; [left; exact Hst'|].
    apply list_elem_of_singleton in Hst'. injection Hst' as -> ->.
    right. exists raw, line, s. split_and!; [left | exact Hd | exact Hex |].
    reflexivity.
Qed.

Lemma final_rule_origin (cfg : settings) (temp_file : list bytes)
    (hostname rule : str) :
  Rule hostname rule ∈ final_file (final_state temp_file cfg) ->
  exists raw line suffix,
    raw ∈ temp_file /\ Py.decode_utf8 raw = Ok line /\
    extract (strip_rule (preprocess line) (minimise cfg))
    = Some (hostname, suffix) /\
    rule = snd (normalize_response (effective_target_ip cfg) (minimise cfg)
                  hostname suffix).
Proof.
  rewrite final_state_loop. intros Hin.
  destruct (loop_rule_origin _ _ _ _ _ Hin) as [Hnil | Hor]; [|exact Hor].
  inversion Hnil.
Qed.

(** X5: the rules of the output file.  A rule that [write_final_file]
    writes has a hostname that is not empty and ends with one newline
    and not two.  With an empty target IP it is the hostname and the
    newline; with a target IP and minimise off it is the target IP, a
    space, the hostname and the newline, so that what followed the
    hostname in the source line is left out. *)
Theorem written_rule_text (cfg : settings) (temp_file : list bytes)
    (hostname rule : str) :
  Rule hostname rule ∈ final_file (final_state temp_file cfg) ->
  ends_with_one_newline rule /\ hostname <> [] /\
  (effective_target_ip cfg = [] -> rule = hostname ++ nl) /\
  (effective_target_ip cfg <> [] -> minimise cfg = false ->
   rule = effective_target_ip cfg ++ u " " ++ hostname ++ nl).
Proof.
  intros Hin.
  destruct (final_rule_origin _ _ _ _ Hin) as (raw & line & s & _ & _ & Hex & ->).
  destruct (normalize_response_text (effective_target_ip cfg) (minimise cfg)
              _ _ _ Hex) as (H1 & H2 & H3 & H4 & _).
  auto.
Qed.


End RuleText.

Lemma written_rule_text_witness :
  let temp_file : list bytes := [u "127.0.0.1 Example.COM # tracker" ++ nl] in
  let hostname := u "example.com" in
  let rule := u "0.0.0.0 example.com" ++ nl in
  Rule hostname rule
    ∈ final_file (final_state (H := ascii_tables) temp_file get_defaults) /\
  ends_with_one_newline rule /\ hostname <> [] /\
  (effective_target_ip get_defaults = [] -> rule = hostname ++ nl) /\
  (effective_target_ip get_defaults <> [] -> minimise get_defaults = false ->
   rule = effective_target_ip get_defaults ++ u " " ++ hostname ++ nl).
Proof.
  cbv zeta.
  assert (Hin : Rule (u "example.com") (u "0.0.0.0 example.com" ++ nl)
                  ∈ final_file
                      (final_state (H := ascii_tables)
                         [u "127.0.0.1 Example.COM # tracker" ++ nl]
                         get_defaults))
    by (vm_compute; apply list_elem_of_here).
  split; [exact Hin|].
  exact (written_rule_text (H := ascii_tables) _ _ _ _ Hin).
Defined.


(** ** The helpers of the loop *)
Section LineHelpers.
Context `{UnicodeData}.

Lemma startswith_snoc_absent (s sep : str) (c : char) :
  sep <> [] -> c ∉ sep ->
  Py.startswith (s ++ [c]) sep = Py.startswith s sep.
Proof.
  revert s. induction sep as [|a sep IH]; intros s Hne Hc; [congruence|].
  apply not_elem_of_cons in Hc as [Hca Hc].
  destruct s as [|b s]; simpl.
  - destruct (N.eqb_spec a c) as [->|_]; [congruence | reflexivity].
  - destruct sep as [|a' sep'].
    + simpl. reflexivity.
    + rewrite (IH s) by (auto; discriminate). reflexivity.
Qed.

Lemma startswith_length (s sep : str) :
  Py.startswith s sep = true -> length sep <= length s.
Proof.
  intros Hs. apply PyFacts.startswith_inv in Hs as [r ->].
  rewrite length_app. lia.
Qed.

Lemma scan_snoc (sep new : str) (c : char) :
  sep <> [] -> c ∉ sep ->
  forall s cur skip,
    skip <= length s ->
    Py.join new (Py.split_scan sep cur skip (s ++ [c]))
    = Py.join new (Py.split_scan sep cur skip s) ++ [c].
Proof.
  intros Hne Hc. induction s as [|b s IH]; intros cur skip Hskip.
  - simpl in Hskip. assert (skip = 0) as -> by lia.
    simpl.
    pose proof (startswith_snoc_absent [] sep c Hne Hc) as E.
    change ([] ++ [c]) with [c] in E. rewrite E.
    destruct sep; [congruence | reflexivity].
  - simpl in Hskip. destruct skip as [|k].
    + change ((b :: s) ++ [c]) with (b :: (s ++ [c])).
      cbn [Py.split_scan].
      change (b :: (s ++ [c])) with ((b :: s) ++ [c]).
      rewrite (startswith_snoc_absent (b :: s) sep c Hne Hc).
      destruct (Py.startswith (b :: s) sep) eqn:E.
      * rewrite !join_cons_split_scan.
        apply startswith_length in E. simpl in E.
        rewrite IH by lia. rewrite <- !app_assoc. reflexivity.
      * apply IH. lia.
    + simpl. apply IH. lia.
Qed.

Lemma replace_snoc (s old new : str) (c : char) :
  old <> [] -> c ∉ old ->
  Py.replace (s ++ [c]) old new = Py.replace s old new ++ [c].
Proof.
  intros Hne Hc. unfold Py.replace, Py.split.
  apply scan_snoc; [assumption | assumption | lia].
Qed.

Lemma rstrip_snoc (s chars : str) (c : char) :
  Py.mem c chars = false -> Py.rstrip (s ++ [c]) chars = s ++ [c].
Proof.
  intros Hc. unfold Py.rstrip.
  rewrite (PyFacts.rstrip_by_keep _ s c [] Hc). reflexivity.
Qed.

Lemma preprocess_snoc_newline (l : str) :
  preprocess (l ++ nl) = Py.replace l (tab ++ u "+") (u " ") ++ nl.
Proof.
  unfold preprocess, nl.
  rewrite replace_snoc.
  - apply rstrip_snoc. reflexivity.
  - discriminate.
  - vm_compute. intros Hin.
    repeat (apply elem_of_cons in Hin as [Hin|Hin]; [discriminate|]).
    inversion Hin.
Qed.

(** X7: the trimming of trailing spaces and periods (gh-271) removes
    nothing from a line that ends with a newline, as the lines of
    [readlines] do: the newline comes last and is not trimmed.  Such a
    line leaves the first steps of the loop body changed by the
    replacement of tab-plus only. *)
Theorem preprocess_newline_terminated (l : str) :
  preprocess (l ++ nl) = Py.replace l (tab ++ u "+") (u " ") ++ nl /\
  (ch "+" ∉ l -> preprocess (l ++ nl) = l ++ nl).
Proof.
  split; [apply preprocess_snoc_newline|].
  intros Hp.
  rewrite preprocess_snoc_newline, replace_without_plus by exact Hp.
  reflexivity.
Qed.

(** X8: [strip_rule] on a line without ['#'].  When comments are to be
    removed and the line has no ['#'], [find] gives -1 and the slice
    ends before the last character: the result is the line without its
    last character, stripped. *)
Theorem strip_rule_without_comment (line : str) :
  ch "#" ∉ line ->
  strip_rule line true = Py.strip (take (length line - 1) line).
Proof.
  intros Hc. unfold strip_rule, Py.find.
  change (u "#") with [ch "#"].
  rewrite find_at_char_absent by exact Hc.
  unfold Py.slice_to. simpl (_ <? _)%Z. cbv iota.
  do 2 f_equal. lia.
Qed.

Lemma find_at_char_after (d c : char) (x r : str) (i : Z) :
  d ∉ x -> d <> c ->
  Py.find_at [d] (x ++ c :: r) i = (-1)%Z \/
  (i + Z.of_nat (length x) < Py.find_at [d] (x ++ c :: r) i)%Z.
Proof.
  intros Hx Hdc. revert i. induction x as [|a x IH]; intros i.
  - simpl. destruct (N.eqb_spec d c) as [E|_]; [congruence|]. simpl.
    destruct (PyFacts.find_at_range [d] r (i + 1)%Z) as [-> | Hle];
      [left; reflexivity | right; lia].
  - apply not_elem_of_cons in Hx as [Hda Hx].
    change ((a :: x) ++ c :: r) with (a :: (x ++ c :: r)).
    cbn [Py.find_at Py.startswith].
    destruct (N.eqb_spec d a) as [E|_]; [congruence|]. cbn [andb].
    destruct (IH Hx (i + 1)%Z) as [-> | Hlt];
      [left; reflexivity | right].
    rewrite length_cons. lia.
Qed.

Ltac separator_cases :=
  repeat match goal with
         | |- context [(?a <? ?b)%Z] => destruct (Z.ltb_spec a b)
         | |- context [(?a =? ?b)%Z] => destruct (Z.eqb_spec a b)
         end;
  simpl; try reflexivity; lia.

Lemma tab_not_space : 9%N <> ch " ".
Proof. discriminate. Qed.

Lemma space_not_tab : ch " " <> 9%N.
Proof. discriminate. Qed.

(** X9: the separator that [determine_separator] finds is the first
    space or tab of the line, whichever comes first, and the empty
    string for a line with neither. *)
Theorem determine_separator_first (x r : str) (c : char) :
  ch " " ∉ x -> 9%N ∉ x -> c = ch " " \/ c = 9%N ->
  determine_separator x = [] /\
  determine_separator (x ++ c :: r) = [c].
Proof.
  intros Hs Ht Hc. split.
  - unfold determine_separator, Py.find, tab.
    change (u " ") with [ch " "].
    rewrite !find_at_char_absent by assumption. reflexivity.
  - destruct Hc as [-> | ->]; unfold determine_separator, Py.find, tab;
      change (u " ") with [ch " "]; cbv zeta.
    + pose proof (find_at_char_after 9%N (ch " ") x r 0 Ht tab_not_space)
        as Hp.
      rewrite (find_at_char_first (ch " ") x r 0) by exact Hs.
      set (p := Py.find_at _ (x ++ ch " " :: r) 0) in *.
      destruct Hp as [-> | Hlt]; separator_cases.
    + pose proof (find_at_char_after (ch " ") 9%N x r 0 Hs space_not_tab)
        as Hp.
      change (@cons N 9%N (@nil N)) with (@cons char 9%N (@nil char)).
      rewrite (find_at_char_first 9%N x r 0) by exact Ht.
      remember (Py.find_at [ch " "] (x ++ 9%N :: r) 0) as p eqn:Ep.
      clear Ep.
      destruct Hp as [-> | Hlt]; separator_cases.
Qed.

(** X10: Issue #1628.  With minimise off a line of the stream that,
    decoded, holds ['@'] is never written as a rule: the turn of the
    loop leaves the state as it is, or, for a line that begins with
    ['#'] or whitespace, passes the line through. *)
Theorem at_sign_line_not_a_rule (cfg : settings) (st : loop_state)
    (raw : bytes) (line : str) :
  Py.decode_utf8 raw = Ok line ->
  minimise cfg = false ->
  Py.contains (u "@") line = true ->
  loop_turn cfg st raw = loop_body cfg st line /\
  (loop_body cfg st line = Ok st \/
   loop_body cfg st line
   = Ok {| final_file := final_file st ++ [Verbatim (preprocess line)];
           hostnames := hostnames st; rules := rules st;
           stdout := stdout st |}).
Proof.
  intros Hd Hm Hat.
  split; [apply loop_turn_decoded, Hd|].
  pose proof (preprocess_scalar _ (decode_utf8_scalar _ _ Hd)) as Hsc.
  assert (Hc : Py.contains (u "@") (preprocess line) = true).
  { unfold preprocess.
    apply (rstrip_keeps (u " .") [] (ch "@")); [reflexivity|].
    apply replace_keeps; [discriminate | discriminate | | exact Hat].
    vm_compute. repeat constructor. intros Hin.
    repeat (apply elem_of_cons in Hin as [Hin|Hin]; [discriminate|]).
    inversion Hin. }
  unfold loop_body. rewrite Hm. cbn [strip_rule].
  destruct (preprocess line) as [|c rest] eqn:E; [discriminate Hc|].
  rewrite passes_through_first_char. cbn [mbind result_bind].
  destruct ((c =? ch "#")%N || Py.isspace c).
  { right. rewrite write_data_ok by exact Hsc. reflexivity. }
  left.
  destruct (Py.contains (u "::1") (c :: rest)); [reflexivity|].
  destruct (negb (nonempty (c :: rest))
            || matches_exclusions (c :: rest) (exclusion_regexes cfg));
    [reflexivity|].
  rewrite Hc. reflexivity.
Qed.

End LineHelpers.

Lemma strip_rule_without_comment_witness :
  let line := u "0.0.0.0 twitter.com" in
  (ch "#" ∉ line) /\
  strip_rule line true = Py.strip (take (length line - 1) line) /\
  strip_rule line true = u "0.0.0.0 twitter.co".
Proof.
  cbv zeta.
  assert (Hc : ch "#" ∉ u "0.0.0.0 twitter.com").
  { vm_compute. intros Hin.
    repeat (apply elem_of_cons in Hin as [Hin|Hin]; [discriminate|]).
    inversion Hin. }
  split; [exact Hc|].
  split; [exact (strip_rule_without_comment _ Hc) | vm_compute; reflexivity].
Defined.

Lemma determine_separator_first_witness :
  let x := u "0.0.0.0" in
  let r := u "example.com # a b" in
  (ch " " ∉ x) /\ (9%N ∉ x) /\
  determine_separator x = [] /\
  determine_separator (x ++ 9%N :: r) = [9%N].
Proof.
  cbv zeta.
  assert (Hs : ch " " ∉ u "0.0.0.0").
  { vm_compute. intros Hin.
    repeat (apply elem_of_cons in Hin as [Hin|Hin]; [discriminate|]).
    inversion Hin. }
  assert (Ht : 9%N ∉ u "0.0.0.0").
  { vm_compute. intros Hin.
    repeat (apply elem_of_cons in Hin as [Hin|Hin]; [discriminate|]).
    inversion Hin. }
  split; [exact Hs|]. split; [exact Ht|].
  exact (determine_separator_first _ _ 9%N Hs Ht (or_intror eq_refl)).
Defined.

Lemma preprocess_newline_terminated_witness :
  let l := u "0.0.0.0 example.com. . " in
  (ch "+" ∉ l) /\ preprocess (l ++ nl) = l ++ nl.
Proof.
  cbv zeta.
  assert (Hp : ch "+" ∉ u "0.0.0.0 example.com. . ").
  { vm_compute. intros Hin.
    repeat (apply elem_of_cons in Hin as [Hin|Hin]; [discriminate|]).
    inversion Hin. }
  split; [exact Hp|].
  exact (proj2 (preprocess_newline_terminated _) Hp).
Defined.

Lemma at_sign_line_not_a_rule_witness :
  let raw : bytes := u "0.0.0.0 user@example.com" ++ nl in
  let line : str := u "0.0.0.0 user@example.com" ++ nl in
  let st := initial_state get_defaults [] [] in
  Py.decode_utf8 raw = Ok line /\
  minimise get_defaults = false /\
  Py.contains (u "@") line = true /\
  loop_turn (H := ascii_tables) get_defaults st raw
  = loop_body (H := ascii_tables) get_defaults st line /\
  (loop_body (H := ascii_tables) get_defaults st line = Ok st \/
   loop_body (H := ascii_tables) get_defaults st line
   = Ok {| final_file := final_file st ++ [Verbatim (preprocess line)];
           hostnames := hostnames st; rules := rules st;
           stdout := stdout st |}).
Proof.
  cbv zeta. split; [vm_compute; reflexivity|].
  split; [reflexivity|]. split; [vm_compute; reflexivity|].
  apply (at_sign_line_not_a_rule (H := ascii_tables)).
  - vm_compute. reflexivity.
  - reflexivity.
  - vm_compute. reflexivity.
Defined.

(** ** The test of the whitelist words *)
Section ExclusionWords.
Context `{UnicodeData}.

(** An escaped text matches itself and nothing else. *)
Lemma run_literal (w : str) pos s caps (k : cont) :
  run (literal w) pos s caps k
  = if Py.startswith s w
    then k (pos + length w) (drop (length w) s) caps
    else None.
Proof.
  revert pos s. induction w as [|c w IH]; intros pos s.
  - simpl. rewrite Nat.add_0_r, drop_0. reflexivity.
  - cbn [literal run]. destruct s as [|d s]; [reflexivity|].
    cbn [cmatch existsb item_matches Py.startswith].
    rewrite orb_false_r, (N.eqb_sym d c).
    destruct (c =? d)%N; cbn [andb]; [|reflexivity].
    rewrite IH. cbn [length drop].
    replace (S pos + length w) with (pos + S (length w)) by lia.
    reflexivity.
Qed.

Lemma search_from_spec (r : regex) (s : str) (pos : nat) :
  matched (search_from r pos s) = true <->
  exists a b, s = a ++ b /\
              matched (run r (pos + length a) b [] accept) = true.
Proof.
  revert pos. induction s as [|c s IH]; intros pos.
  - simpl. split.
    + intros Hm. exists [], []. split; [reflexivity|].
      simpl. rewrite Nat.add_0_r.
      destruct (run r pos [] [] accept); [reflexivity | discriminate Hm].
    + intros (a & b & E & Hm). symmetry in E.
      apply app_eq_nil in E as [-> ->]. simpl in Hm.
      rewrite Nat.add_0_r in Hm.
      destruct (run r pos [] [] accept); [reflexivity | discriminate Hm].
  - cbn [search_from]. split.
    + intros Hm. destruct (run r pos (c :: s) [] accept) eqn:E.
      * exists [], (c :: s). split; [reflexivity|].
        simpl. rewrite Nat.add_0_r, E. reflexivity.
      * apply IH in Hm as (a & b & -> & Hm).
        exists (c :: a), b. split; [reflexivity|].
        simpl. replace (pos + S (length a)) with (S pos + length a) by lia.
        exact Hm.
    + intros (a & b & E & Hm). destruct a as [|c' a].
      * simpl in E, Hm. subst b. rewrite Nat.add_0_r in Hm.
        destruct (run r pos (c :: s) [] accept); [reflexivity|].
        discriminate Hm.
      * simpl in E. injection E as -> ->.
        destruct (run r pos (c' :: a ++ b) [] accept); [reflexivity|].
        apply IH. exists a, b. split; [reflexivity|].
        simpl in Hm.
        replace (S pos + length a) with (pos + S (length a)) by lia.
        exact Hm.
Qed.

(** The tail of the pattern: the word, then a whitespace character. *)
Lemma run_word_space (w : str) pos s caps :
  matched (run (literal w @@ One sp) pos s caps accept) = true <->
  exists c b, s = w ++ c :: b /\ Py.isspace c = true.
Proof.
  cbn [run]. rewrite run_literal.
  destruct (Py.startswith s w) eqn:E.
  - apply PyFacts.startswith_inv in E as [rest ->].
    rewrite drop_app_length. cbn [run].
    destruct rest as [|c b].
    + split; [discriminate|]. intros (c & b & E & _).
      apply (f_equal length) in E. rewrite !length_app in E. simpl in E. lia.
    + cbn [cmatch sp existsb item_matches]. rewrite orb_false_r.
      destruct (Py.isspace c) eqn:Hc.
      * split; [|reflexivity]. intros _. exists c, b. auto.
      * split; [discriminate|]. intros (c' & b' & E & Hc').
        apply app_inv_head in E. injection E as -> ->. congruence.
  - split; [discriminate|]. intros (c & b & -> & _).
    rewrite PyFacts.startswith_app in E. discriminate E.
Qed.

Lemma run_exclusion_word (w : str) pos s :
  matched (run (exclusion_word_regex w) pos s [] accept) = true <->
  (pos = 0 /\ exists c b, s = w ++ c :: b /\ Py.isspace c = true) \/
  (exists d c b, s = d :: w ++ c :: b /\
                 (Py.isspace d = true \/ d = ch ".") /\
                 Py.isspace c = true).
Proof.
  pose (k := fun pos' (s' : str) (caps' : captures) =>
               run (literal w) pos' s' ((1, take (pos' - pos) s) :: caps')
                 (fun pos'' s'' caps'' =>
                    run (One sp) pos'' s'' caps'' accept)).
  assert (Hrun : run (exclusion_word_regex w) pos s [] accept
                 = match (if Nat.eqb pos 0 then k pos s [] else None) with
                   | Some res => Some res
                   | None =>
                       match s with
                       | d :: s' =>
                           if cmatch (OneOf [ISpace; IChar (ch ".")]) d
                           then k (S pos) s' [] else None
                       | [] => None
                       end
                   end) by reflexivity.
  rewrite Hrun. clear Hrun.
  assert (Hk : forall pos' s',
             matched (k pos' s' []) = true <->
             exists c b, s' = w ++ c :: b /\ Py.isspace c = true).
  { intros pos' s'. unfold k.
    exact (run_word_space w pos' s' [(1, take (pos' - pos) s)]). }
  assert (Hone : matched
                   (match s with
                    | d :: s' =>
                        if cmatch (OneOf [ISpace; IChar (ch ".")]) d
                        then k (S pos) s' [] else None
                    | [] => None
                    end) = true <->
                 exists d c b, s = d :: w ++ c :: b /\
                               (Py.isspace d = true \/ d = ch ".") /\
                               Py.isspace c = true).
  { destruct s as [|d s'].
    - split; [discriminate|]. intros (d & c & b & E & _). discriminate E.
    - cbn [cmatch existsb item_matches]. rewrite orb_false_r.
      destruct (Py.isspace d || (d =? ch ".")%N) eqn:Hd.
      + rewrite Hk. split.
        * intros (c & b & -> & Hc). exists d, c, b.
          split; [reflexivity|]. split; [|exact Hc].
          apply orb_prop in Hd as [Hd|Hd]; [left; exact Hd|].
          right. apply N.eqb_eq, Hd.
        * intros (d' & c & b & E & _ & Hc). injection E as -> ->.
          exists c, b. auto.
      + split; [discriminate|].
        intros (d' & c & b & E & Hd' & _). injection E as -> ->.
        apply orb_false_elim in Hd as [Hd1 Hd2].
        destruct Hd' as [Hd'| ->]; [congruence|].
        rewrite N.eqb_refl in Hd2. discriminate Hd2. }
  destruct (Nat.eqb_spec pos 0) as [->|Hpos].
  - destruct (k 0 s []) eqn:E.
    + split; [|reflexivity]. intros _. left. split; [reflexivity|].
      apply (proj1 (Hk 0 s)). rewrite E. reflexivity.
    + rewrite Hone. split; [intros Hm; right; exact Hm|].
      intros [(_ & Hm) | Hm]; [|exact Hm].
      apply (proj2 (Hk 0 s)) in Hm. rewrite E in Hm. discriminate Hm.
  - rewrite Hone. split; [intros Hm; right; exact Hm|].
    intros [(Hp & _) | Hm]; [contradiction | exact Hm].
Qed.

(** X11: the whitelist test of [write_final_file].  The pattern built from
    a word is found in a line exactly when the line begins with the word
    followed by a whitespace character, or holds the word with a
    whitespace character or a period before it and a whitespace
    character after it. *)
Theorem exclusion_word_search (exclude line : str) :
  matched (search (exclusion_word_regex exclude) line) = true <->
  (exists c b, line = exclude ++ c :: b /\ Py.isspace c = true) \/
  (exists a d c b, line = a ++ d :: exclude ++ c :: b /\
                   (Py.isspace d = true \/ d = ch ".") /\
                   Py.isspace c = true).
Proof.
  unfold search. rewrite search_from_spec. split.
  - intros (a & s & -> & Hm). apply run_exclusion_word in Hm.
    destruct Hm as [(Hp & c & b & -> & Hc) | (d & c & b & -> & Hd & Hc)].
    + simpl in Hp. destruct a; [|discriminate Hp].
      left. exists c, b. auto.
    + right. exists a, d, c, b. auto.
  - intros [(c & b & -> & Hc) | (a & d & c & b & -> & Hd & Hc)].
    + exists [], (exclude ++ c :: b). split; [reflexivity|].
      apply run_exclusion_word. left. split; [reflexivity|].
      exists c, b. auto.
    + exists a, (d :: exclude ++ c :: b). split; [reflexivity|].
      apply run_exclusion_word. right. exists d, c, b. auto.
Qed.

(** A line in which the pattern of some whitelist word is found is not
    written as a rule. *)
Lemma loop_body_write_line (cfg : settings) (st st' : loop_state)
    (line : str) :
  existsb
    (fun exclude =>
       matched (search (exclusion_word_regex exclude) (preprocess line)))
    (exclusions cfg) = true ->
  loop_body cfg st line = Ok st' ->
  written_keys st' = written_keys st /\
  hostnames st' = hostnames st /\
  rules st' = rules st.
Proof.
  intros Hex. unfold loop_body. cbv zeta.
  destruct (passes_through (minimise cfg) (preprocess line)) as [pass|e];
    cbn [mbind result_bind]; [|discriminate].
  destruct pass.
  { destruct (write_data (final_file st) (Verbatim (preprocess line)))
      as [f|e] eqn:Hw; cbn [mbind result_bind]; [|discriminate].
    apply write_data_inv in Hw as ->.
    intros E. apply Ok_inj in E. subst st'. unfold written_keys. simpl.
    rewrite omap_app. simpl. rewrite app_nil_r. auto. }
  destruct (Py.contains (u "::1") (preprocess line));
    [intros E; apply Ok_inj in E; subst st'; auto|].
  destruct (negb (nonempty (strip_rule (preprocess line) (minimise cfg)))
            || matches_exclusions (strip_rule (preprocess line) (minimise cfg))
                 (exclusion_regexes cfg));
    [intros E; apply Ok_inj in E; subst st'; auto|].
  destruct (Py.contains (u "@") (strip_rule (preprocess line) (minimise cfg)));
    [intros E; apply Ok_inj in E; subst st'; auto|].
  destruct (normalize_rule _ _ _) as [[hostname rule] printed].
  rewrite Hex. cbn [negb].
  destruct hostname, rule; rewrite ?andb_false_r;
    intros E; apply Ok_inj in E; subst st'; auto.
Qed.

Lemma word_found (words : list str) (exclude text a b : str) (d c : char) :
  exclude ∈ words ->
  text = a ++ d :: exclude ++ c :: b ->
  Py.isspace d = true \/ d = ch "." ->
  Py.isspace c = true ->
  existsb
    (fun exclude => matched (search (exclusion_word_regex exclude) text))
    words = true.
Proof.
  intros Hin Htext Hd Hc.
  apply existsb_exists. exists exclude. split.
  - apply list_elem_of_In, Hin.
  - unfold search. apply search_from_spec.
    exists a, (d :: exclude ++ c :: b). split; [exact Htext|].
    apply run_exclusion_word. right. exists d, c, b. auto.
Qed.

(** X12: a whitelisted word keeps its line out of the rules.  When the
    line, after the first steps of the loop body, holds a word of
    [settings["exclusions"]] between a whitespace character or a period
    and a whitespace character, the turn of the loop writes no rule,
    adds no hostname and leaves the counter as it is. *)
Theorem whitelisted_line_not_written (cfg : settings) (st st' : loop_state)
    (line exclude a b : str) (d c : char) :
  exclude ∈ exclusions cfg ->
  preprocess line = a ++ d :: exclude ++ c :: b ->
  Py.isspace d = true \/ d = ch "." ->
  Py.isspace c = true ->
  loop_body cfg st line = Ok st' ->
  written_keys st' = written_keys st /\
  hostnames st' = hostnames st /\
  rules st' = rules st.
Proof.
  intros Hin Hline Hd Hc. apply loop_body_write_line.
  eapply word_found; eassumption.
Qed.

End ExclusionWords.

Lemma whitelisted_line_not_written_witness :
  let cfg :=
    {| number_of_rules := 0; minimise := false; empty_target_ip := false;
       target_ip := u "0.0.0.0"; exclusion_regexes := [];
       exclusions := [u "example.com"] |} in
  let st := initial_state cfg [] [] in
  let line := u "0.0.0.0 ads.example.com" ++ nl in
  (u "example.com" ∈ exclusions cfg) /\
  preprocess line
  = u "0.0.0.0 ads" ++ ch "." :: u "example.com" ++ 10%N :: [] /\
  loop_body (H := ascii_tables) cfg st line = Ok st /\
  written_keys st = written_keys st /\
  hostnames st = hostnames st /\
  rules st = rules st.
Proof.
  cbv zeta.
  split; [apply list_elem_of_here|].
  split; [vm_compute; reflexivity|].
  split; [vm_compute; reflexivity|].
  apply (whitelisted_line_not_written (H := ascii_tables)
           {| number_of_rules := 0; minimise := false;
              empty_target_ip := false; target_ip := u "0.0.0.0";
              exclusion_regexes := []; exclusions := [u "example.com"] |}
           _ _ (u "0.0.0.0 ads.example.com" ++ nl) (u "example.com")
           (u "0.0.0.0 ads") [] (ch ".") 10%N).
  - apply list_elem_of_here.
  - vm_compute. reflexivity.
  - right. reflexivity.
  - reflexivity.
  - vm_compute. reflexivity.
Defined.

(** ** The whitelist file *)
Section WhiteList.
Context `{UnicodeData}.

Lemma load_white_list_fold (ins : list str) (cfg : settings) :
  let cfg' := load_white_list (Some ins) cfg in
  exclusions cfg'
  = exclusions cfg
      ++ filter (fun w => nonempty w && negb (Py.startswith w (u "#")) = true)
           (map (fun line => Py.strip_chars line white_list_chars) ins) /\
  number_of_rules cfg' = number_of_rules cfg /\
  minimise cfg' = minimise cfg /\
  empty_target_ip cfg' = empty_target_ip cfg /\
  target_ip cfg' = target_ip cfg /\
  exclusion_regexes cfg' = exclusion_regexes cfg.
Proof.
  cbv zeta. unfold load_white_list.
  revert cfg. induction ins as [|line ins IH]; intros cfg.
  - simpl. rewrite app_nil_r. auto 6.
  - cbn [fold_left map]. rewrite filter_cons.
    destruct (nonempty (Py.strip_chars line white_list_chars)
              && negb (Py.startswith (Py.strip_chars line white_list_chars)
                         (u "#"))) eqn:E.
    + rewrite decide_True by reflexivity.
      destruct (IH {| number_of_rules := number_of_rules cfg;
                      minimise := minimise cfg;
                      empty_target_ip := empty_target_ip cfg;
                      target_ip := target_ip cfg;
                      exclusion_regexes := exclusion_regexes cfg;
                      exclusions :=
                        exclusions cfg
                          ++ [Py.strip_chars line white_list_chars] |})
        as (-> & -> & -> & -> & -> & ->).
      cbn [exclusions number_of_rules minimise empty_target_ip target_ip
           exclusion_regexes].
      rewrite <- app_assoc. auto 6.
    + rewrite decide_False by discriminate. apply IH.
Qed.

Lemma strip_chars_ends (s chars : str) :
  Py.strip_chars s chars = [] \/
  exists x m y,
    (Py.strip_chars s chars = [x] /\ y = x /\ m = [] \/
     Py.strip_chars s chars = x :: m ++ [y]) /\
    Py.mem x chars = false /\ Py.mem y chars = false.
Proof.
  unfold Py.strip_chars.
  destruct (PyFacts.lstrip_by_cases (fun c => Py.mem c chars) s)
    as [-> | (x & r & -> & Hx)]; [left; reflexivity|].
  right.
  destruct (PyFacts.rstrip_by_cases (fun c => Py.mem c chars) (x :: r))
    as [E | (z & y & E & Hy)].
  - exfalso. rewrite (PyFacts.rstrip_by_keep _ [] x r Hx) in E.
    discriminate E.
  - rewrite E.
    rewrite (PyFacts.rstrip_by_keep _ [] x r Hx) in E. simpl in E.
    destruct z as [|x' m].
    + simpl in E. injection E as <- _. exists x, [], x. auto.
    + simpl in E. injection E as <- _. exists x, m, y. auto.
Qed.

(** X13: what [load_white_list] adds.  The words already in
    [settings["exclusions"]] stay in front and the other settings are
    as before; the words added are, in the order of the file, the lines
    stripped of spaces, tabs, newlines and carriage returns at both ends
    that are not empty and do not begin with ['#'].  No added word
    begins or ends with one of the stripped characters. *)
Theorem load_white_list_words (ins : list str) (cfg : settings) :
  let cfg' := load_white_list (Some ins) cfg in
  let added :=
    filter (fun w => nonempty w && negb (Py.startswith w (u "#")) = true)
      (map (fun line => Py.strip_chars line white_list_chars) ins) in
  exclusions cfg' = exclusions cfg ++ added /\
  Forall (fun w => exists x y,
            head w = Some x /\ last w = Some y /\
            x <> ch "#" /\
            Py.mem x white_list_chars = false /\
            Py.mem y white_list_chars = false) added /\
  number_of_rules cfg' = number_of_rules cfg /\
  minimise cfg' = minimise cfg /\
  empty_target_ip cfg' = empty_target_ip cfg /\
  target_ip cfg' = target_ip cfg /\
  exclusion_regexes cfg' = exclusion_regexes cfg.
Proof.
  cbv zeta.
  destruct (load_white_list_fold ins cfg) as (He & Hrest).
  split; [exact He|]. split; [|exact Hrest].
  apply Forall_forall. intros w Hw.
  apply list_elem_of_filter in Hw as [Hkeep Hw].
  apply list_elem_of_fmap in Hw as (line & -> & _).
  apply andb_prop in Hkeep as [Hne Hhash].
  apply negb_true_iff in Hhash.
  destruct (strip_chars_ends line white_list_chars)
    as [E | (x & m & y & [(E & -> & ->) | E] & Hx & Hy)];
    rewrite E in *.
  - discriminate Hne.
  - exists x, x. split_and!; try reflexivity; try assumption.
    intros ->. discriminate Hhash.
  - exists x, y. split_and!; try reflexivity; try assumption.
    + change (x :: m ++ [y]) with ((x :: m) ++ [y]). apply last_snoc.
    + intros ->. discriminate Hhash.
Qed.

(** X14: from the whitelist file to the output.  A word that a line of the
    whitelist file holds between stripped characters is in the settings
    that [load_white_list] returns, and a line that holds the word
    between a whitespace character or a period and a whitespace
    character yields no rule in a run with these settings. *)
Theorem whitelist_file_excludes (cfg : settings) (ins : list str)
    (st st' : loop_state) (entry line a b : str) (d c : char) :
  entry ∈ ins ->
  Py.strip_chars entry white_list_chars <> [] ->
  Py.startswith (Py.strip_chars entry white_list_chars) (u "#") = false ->
  preprocess line
  = a ++ d :: Py.strip_chars entry white_list_chars ++ c :: b ->
  Py.isspace d = true \/ d = ch "." ->
  Py.isspace c = true ->
  loop_body (load_white_list (Some ins) cfg) st line = Ok st' ->
  (Py.strip_chars entry white_list_chars
     ∈ exclusions (load_white_list (Some ins) cfg)) /\
  written_keys st' = written_keys st /\
  hostnames st' = hostnames st /\
  rules st' = rules st.
Proof.
  intros Hin Hne Hhash Hline Hd Hc Hbody.
  assert (Hw : Py.strip_chars entry white_list_chars
                 ∈ exclusions (load_white_list (Some ins) cfg)).
  { destruct (load_white_list_fold ins cfg) as (-> & _).
    apply elem_of_app. right.
    apply list_elem_of_filter. split.
    - apply nonempty_true in Hne. rewrite Hne, Hhash. reflexivity.
    - apply list_elem_of_fmap. exists entry. auto. }
  split; [exact Hw|].
  eapply loop_body_write_line; [|exact Hbody].
  eapply word_found; eassumption.
Qed.

End WhiteList.

Lemma whitelist_file_excludes_witness :
  let ins := [u "# my whitelist" ++ nl; u "  example.com " ++ [13%N] ++ nl] in
  let entry := u "  example.com " ++ [13%N] ++ nl in
  let line := u "0.0.0.0 ads.example.com" ++ nl in
  let cfg' := load_white_list (Some ins) get_defaults in
  let st := initial_state cfg' [] [] in
  (entry ∈ ins) /\
  Py.strip_chars entry white_list_chars = u "example.com" /\
  exclusions cfg' = [u "example.com"] /\
  loop_body (H := ascii_tables) cfg' st line = Ok st /\
  (Py.strip_chars entry white_list_chars ∈ exclusions cfg') /\
  written_keys st = written_keys st /\
  hostnames st = hostnames st /\
  rules st = rules st.
Proof.
  cbv zeta.
  split; [apply list_elem_of_further, list_elem_of_here|].
  split; [vm_compute; reflexivity|].
  split; [vm_compute; reflexivity|].
  split; [vm_compute; reflexivity|].
  apply (whitelist_file_excludes (H := ascii_tables) get_defaults
           [u "# my whitelist" ++ nl; u "  example.com " ++ [13%N] ++ nl]
           _ _ (u "  example.com " ++ [13%N] ++ nl)
           (u "0.0.0.0 ads.example.com" ++ nl)
           (u "0.0.0.0 ads") [] (ch ".") 10%N).
  - apply list_elem_of_further, list_elem_of_here.
  - vm_compute. discriminate.
  - vm_compute. reflexivity.
  - vm_compute. reflexivity.
  - right. reflexivity.
  - reflexivity.
  - vm_compute. reflexivity.
Defined.

(** ** The order of the sources *)
Section SourceOrder.
Context `{UnicodeData}.

Lemma ltb_asym (a b : str) : Py.ltb a b = true -> Py.ltb b a = false.
Proof.
  revert b. induction a as [|x a IH]; intros [|y b]; simpl; try reflexivity;
    try discriminate.
  intros Hab.
  apply orb_prop in Hab as [Hlt | Heq].
  - apply N.ltb_lt in Hlt.
    replace (y <? x)%N with false by (symmetry; apply N.ltb_ge; lia).
    replace (y =? x)%N with false by (symmetry; apply N.eqb_neq; lia).
    reflexivity.
  - apply andb_prop in Heq as [Heq Hab]. apply N.eqb_eq in Heq. subst y.
    rewrite N.ltb_irrefl, N.eqb_refl, (IH _ Hab). reflexivity.
Qed.

Lemma ltb_le_trans (a b c : str) :
  Py.ltb b a = false -> Py.ltb c b = false -> Py.ltb c a = false.
Proof.
  revert b c. induction a as [|x a IH]; intros b c Hba Hcb.
  - destruct c; reflexivity.
  - destruct b as [|y b]; [discriminate Hba|].
    destruct c as [|z c]; [discriminate Hcb|].
    simpl in *.
    apply orb_false_elim in Hba as [Hyx Hba], Hcb as [Hzy Hcb].
    apply N.ltb_ge in Hyx, Hzy.
    destruct (N.eqb_spec y x) as [E1|Hne1];
      destruct (N.eqb_spec z y) as [E2|Hne2]; cbn [andb] in *.
    + subst y z. rewrite N.ltb_irrefl, N.eqb_refl. cbn [andb orb].
      eapply IH; eassumption.
    + replace (z <? x)%N with false by (symmetry; apply N.ltb_ge; lia).
      replace (z =? x)%N with false by (symmetry; apply N.eqb_neq; lia).
      reflexivity.
    + replace (z <? x)%N with false by (symmetry; apply N.ltb_ge; lia).
      replace (z =? x)%N with false by (symmetry; apply N.eqb_neq; lia).
      reflexivity.
    + replace (z <? x)%N with false by (symmetry; apply N.ltb_ge; lia).
      replace (z =? x)%N with false by (symmetry; apply N.eqb_neq; lia).
      reflexivity.
Qed.

Lemma insert_sorted_perm {A} (key : A -> str) (x : A) (l : list A) :
  Py.insert_sorted key x l ≡ₚ x :: l.
Proof.
  induction l as [|y l IH]; simpl; [reflexivity|].
  destruct (Py.ltb (key y) (key x)); [|reflexivity].
  rewrite IH. apply Permutation_swap.
Qed.

Lemma sorted_perm {A} (key : A -> str) (l : list A) : Py.sorted key l ≡ₚ l.
Proof.
  induction l as [|x l IH]; simpl; [reflexivity|].
  rewrite insert_sorted_perm, IH. reflexivity.
Qed.

Lemma insert_sorted_sorted {A} (key : A -> str) (x : A) (l : list A) :
  StronglySorted (fun a b => Py.ltb (key b) (key a) = false) l ->
  StronglySorted (fun a b => Py.ltb (key b) (key a) = false)
    (Py.insert_sorted key x l).
Proof.
  induction 1 as [|y l Hl IH Hy]; simpl.
  - repeat constructor.
  - destruct (Py.ltb (key y) (key x)) eqn:E.
    + constructor; [exact IH|].
      rewrite insert_sorted_perm. constructor; [|exact Hy].
      apply ltb_asym, E.
    + constructor; [constructor; assumption|].
      constructor; [exact E|].
      eapply Forall_impl; [exact Hy|]. intros z Hz. cbv beta in *.
      eapply ltb_le_trans; eassumption.
Qed.

Lemma sorted_sorted {A} (key : A -> str) (l : list A) :
  StronglySorted (fun a b => Py.ltb (key b) (key a) = false)
    (Py.sorted key l).
Proof.
  induction l as [|x l IH]; simpl; [constructor|].
  apply insert_sorted_sorted, IH.
Qed.

Lemma pop_middle {A} (a b : list A) (x : A) :
  Py.pop (a ++ x :: b) (length a) = Ok (x, a ++ b).
Proof.
  unfold Py.pop. rewrite list_lookup_middle by reflexivity.
  rewrite delete_middle. reflexivity.
Qed.

(** The loop of [sort_sources] after some turns: [top] has been moved,
    [passed] has been passed over. *)
Lemma move_to_top_spec (top passed sources : list str) :
  move_to_top (positions_from (length top + length passed) sources)
    (top ++ passed ++ sources)
  = Ok (rev (filter (fun y => is_hrshadhin y = true) sources) ++ top
          ++ passed ++ filter (fun y => is_hrshadhin y = false) sources).
Proof.
  revert top passed.
  induction sources as [|y sources IH]; intros top passed.
  - simpl. reflexivity.
  - cbn [positions_from]. rewrite !filter_cons.
    destruct (is_hrshadhin y) eqn:E.
    + rewrite decide_True by reflexivity.
      rewrite decide_False by discriminate.
      cbn [move_to_top].
      rewrite (app_assoc top passed (y :: sources)).
      replace (length top + length passed) with (length (top ++ passed))
        by (rewrite length_app; reflexivity).
      rewrite pop_middle. cbn [mbind result_bind].
      rewrite <- app_assoc.
      pose proof (IH (y :: top) passed) as IH'.
      cbn [length] in IH'. rewrite length_app.
      change (S (length top) + length passed)
        with (S (length top + length passed)) in IH'.
      change ((y :: top) ++ passed ++ sources)
        with (y :: top ++ passed ++ sources) in IH'.
      rewrite IH'. cbn [rev]. rewrite <- !app_assoc. reflexivity.
    + rewrite decide_False by discriminate.
      rewrite decide_True by reflexivity.
      pose proof (IH top (passed ++ [y])) as IH'.
      rewrite length_app in IH'. cbn [length] in IH'.
      replace (length top + (length passed + 1))
        with (S (length top + length passed)) in IH' by lia.
      rewrite <- !app_assoc in IH'. cbn [app] in IH'.
      exact IH'.
Qed.

Lemma top_and_rest_perm (l : list str) :
  rev (filter (fun y => is_hrshadhin y = true) l)
    ++ filter (fun y => is_hrshadhin y = false) l ≡ₚ l.
Proof.
  rewrite <- Permutation_rev.
  induction l as [|y l IH]; [reflexivity|].
  rewrite !filter_cons.
  destruct (is_hrshadhin y).
  - rewrite decide_True by reflexivity.
    rewrite decide_False by discriminate.
    simpl. rewrite IH. reflexivity.
  - rewrite decide_False by discriminate.
    rewrite decide_True by reflexivity.
    rewrite <- Permutation_middle. rewrite IH. reflexivity.
Qed.

(** X15: [sort_sources].  The function raises nothing.  With the sources
    sorted by their key (lower case, without hyphens, underscores and
    spaces), the result is the sources that hold "hrshadhin" in the
    reverse of that order, followed by the other sources in that order.
    The sorted list is in ascending order of the keys, and the result
    has the items of the argument, each as often as the argument. *)
Theorem sort_sources_order (sources : list str) :
  let sorted := Py.sorted sort_key sources in
  let result :=
    rev (filter (fun y => is_hrshadhin y = true) sorted)
      ++ filter (fun y => is_hrshadhin y = false) sorted in
  sort_sources sources = Ok result /\
  StronglySorted (fun a b => Py.ltb (sort_key b) (sort_key a) = false) sorted /\
  result ≡ₚ sources.
Proof.
  cbv zeta. split_and!.
  - unfold sort_sources.
    exact (move_to_top_spec [] [] (Py.sorted sort_key sources)).
  - apply sorted_sorted.
  - rewrite top_and_rest_perm. apply sorted_perm.
Qed.

End SourceOrder.

(** ** [domain_to_idna] on ASCII lines *)
Section AsciiLines.
Context `{UnicodeData}.

Lemma encode_ascii (input : str) :
  forallb Py.is_ascii input = true ->
  Idna.encode input = Ok input \/ Idna.encode input = Raise UnicodeError.
Proof.
  intros Ha. unfold Idna.encode. destruct input as [|c s]; [left; reflexivity|].
  rewrite Ha.
  destruct (negb _); [right; reflexivity|].
  destruct (Nat.leb _ _); [right; reflexivity | left; reflexivity].
Qed.

Lemma join_skip (sep new cur t s : str) :
  Py.join new (Py.split_scan sep cur (length t) (t ++ s))
  = Py.join new (Py.split_scan sep cur 0 s).
Proof.
  induction t as [|c t IH]; [reflexivity|]. simpl. exact IH.
Qed.

Lemma join_split_scan (sep : str) (n : nat) :
  sep <> [] ->
  forall s cur, length s <= n ->
    Py.join sep (Py.split_scan sep cur 0 s) = rev cur ++ s.
Proof.
  intros Hne. induction n as [|n IH]; intros s cur Hlen.
  - destruct s; [|simpl in Hlen; lia]. simpl. rewrite app_nil_r. reflexivity.
  - destruct s as [|c s]; [simpl; rewrite app_nil_r; reflexivity|].
    cbn [Py.split_scan]. simpl in Hlen.
    destruct (Py.startswith (c :: s) sep) eqn:E.
    + apply PyFacts.startswith_inv in E as [r E].
      destruct sep as [|c' sep']; [congruence|].
      simpl in E. injection E as -> ->.
      rewrite join_cons_split_scan.
      cbn [length]. rewrite Nat.sub_succ, Nat.sub_0_r.
      rewrite join_skip, IH by (rewrite length_app in Hlen; lia).
      simpl. reflexivity.
    + rewrite IH by lia. simpl. rewrite <- app_assoc. reflexivity.
Qed.

(** [sep.join(s.split(sep))] is [s]. *)
Lemma join_split (s sep : str) :
  sep <> [] -> Py.join sep (Py.split s sep) = s.
Proof.
  intros Hne. unfold Py.split.
  rewrite (join_split_scan sep (length s) Hne s []) by lia. reflexivity.
Qed.

Lemma split_scan_ascii (sep : str) (s cur : str) (skip : nat) :
  forallb Py.is_ascii s = true -> forallb Py.is_ascii cur = true ->
  Forall (fun p => forallb Py.is_ascii p = true)
    (Py.split_scan sep cur skip s).
Proof.
  revert cur skip. induction s as [|c s IH]; intros cur skip Hs Hcur.
  - simpl. constructor; [|constructor].
    rewrite forallb_forall in *. intros x Hx. apply Hcur.
    apply in_rev. exact Hx.
  - simpl in Hs. apply andb_prop in Hs as [Hc Hs].
    cbn [Py.split_scan]. destruct skip as [|k]; [|apply IH; assumption].
    destruct (Py.startswith (c :: s) sep).
    + constructor; [|apply IH; [assumption | reflexivity]].
      rewrite forallb_forall in *. intros x Hx. apply Hcur.
      apply in_rev. exact Hx.
    + apply IH; [assumption|]. simpl. rewrite Hc, Hcur. reflexivity.
Qed.

(** Where [find] sees a character first. *)
Lemma find_char_first (c : char) (s : str) :
  Py.contains [c] s = true ->
  exists pre post,
    s = pre ++ c :: post /\ (c ∉ pre) /\
    Py.find s [c] = Z.of_nat (length pre).
Proof.
  intros Hc.
  assert (Hin : c ∈ s).
  { apply PyFacts.contains_spec in Hc as (a & b & ->).
    apply elem_of_app. right. left. }
  clear Hc.
  assert (Hsplit : exists pre post, s = pre ++ c :: post /\ c ∉ pre).
  { induction s as [|d s IH]; [inversion Hin|].
    destruct (N.eq_dec d c) as [->|Hne].
    - exists [], s. split; [reflexivity|]. intros Hx. inversion Hx.
    - apply elem_of_cons in Hin as [->|Hin]; [congruence|].
      destruct (IH Hin) as (pre & post & -> & Hpre).
      exists (d :: pre), post. split; [reflexivity|].
      intros Hx. apply elem_of_cons in Hx as [->|Hx]; [congruence|].
      exact (Hpre Hx). }
  destruct Hsplit as (pre & post & -> & Hpre).
  exists pre, post. split; [reflexivity|]. split; [exact Hpre|].
  unfold Py.find. rewrite find_at_char_first by exact Hpre. lia.
Qed.

(** The text in front of a comment, as the split by the comment gives
    it. *)
Lemma split_scan_comment (c : char) (pre post cur : str) :
  c ∉ pre ->
  exists rest,
    Py.split_scan (c :: post) cur 0 (pre ++ c :: post)
    = (rev cur ++ pre) :: rest.
Proof.
  revert cur. induction pre as [|d pre IH]; intros cur Hpre.
  - cbn [app Py.split_scan].
    pose proof (PyFacts.startswith_app (c :: post) []) as E.
    rewrite app_nil_r in E. rewrite E.
    eexists. rewrite app_nil_r. reflexivity.
  - apply not_elem_of_cons in Hpre as [Hcd Hpre].
    cbn [app Py.split_scan Py.startswith].
    destruct (N.eqb_spec c d) as [->|_]; [congruence|]. cbn [andb].
    destruct (IH (d :: cur) Hpre) as (rest & ->).
    exists rest. simpl. rewrite <- app_assoc. reflexivity.
Qed.

Lemma encode_domain_token_ascii (splited_line : list str) :
  Forall (fun p => forallb Py.is_ascii p = true) splited_line ->
  encode_domain_token splited_line = Ok splited_line \/
  encode_domain_token splited_line = Raise IndexError \/
  encode_domain_token splited_line = Raise UnicodeError.
Proof.
  intros Hall. unfold encode_domain_token.
  set (index := skip_empty (drop 1 splited_line) 1).
  destruct (splited_line !! index) as [tok|] eqn:Htok.
  2:{ assert (Hi : Py.index splited_line index = Raise IndexError)
        by (unfold Py.index; rewrite Htok; reflexivity).
      rewrite Hi. right. left. reflexivity. }
  assert (Hi : Py.index splited_line index = Ok tok)
    by (unfold Py.index; rewrite Htok; reflexivity).
  rewrite Hi. cbn [mbind result_bind].
  assert (Ha : forallb Py.is_ascii tok = true).
  { rewrite Forall_forall in Hall. apply Hall.
    eapply list_elem_of_lookup_2, Htok. }
  assert (Hlast : (tok' ← Py.index splited_line index;
                   encoded ← Idna.encode tok';
                   Ok (<[index := encoded]> splited_line))
                  = Ok splited_line \/
                  (tok' ← Py.index splited_line index;
                   encoded ← Idna.encode tok';
                   Ok (<[index := encoded]> splited_line))
                  = Raise UnicodeError).
  { rewrite Hi. cbn [mbind result_bind].
    destruct (encode_ascii tok Ha) as [-> | ->]; cbn [mbind result_bind].
    - left. rewrite list_insert_id by exact Htok. reflexivity.
    - right. reflexivity. }
  destruct (Py.contains (u "#") tok) eqn:Hc.
  - change (u "#") with [ch "#"] in *.
    destruct (find_char_first _ _ Hc) as (pre & post & -> & Hpre & Hfind).
    rewrite Hfind.
    replace (-1 <? Z.of_nat (length pre))%Z with true
      by (symmetry; apply Z.ltb_lt; lia).
    unfold Py.slice_from. rewrite Nat2Z.id, drop_app_length.
    unfold Py.split.
    destruct (split_scan_comment (ch "#") pre post [] Hpre) as (rest & ->).
    cbn [rev app Py.index lookup list_lookup mbind result_bind].
    assert (Hpa : forallb Py.is_ascii pre = true).
    { rewrite forallb_app in Ha. apply andb_prop in Ha as [Ha _]. exact Ha. }
    destruct (encode_ascii pre Hpa) as [-> | ->]; cbn [mbind result_bind].
    + rewrite list_insert_id by exact Htok.
      destruct Hlast as [-> | ->]; auto.
    + right. right. reflexivity.
  - cbn [mbind result_bind]. destruct Hlast as [-> | ->]; auto.
Qed.

Lemma determine_separator_values (line : str) :
  determine_separator line = [] \/
  determine_separator line = u " " \/
  determine_separator line = tab.
Proof.
  unfold determine_separator. cbv zeta.
  repeat match goal with
         | |- context [if ?b then _ else _] => destruct b
         end; auto.
Qed.

(** X16: [domain_to_idna] leaves an ASCII line as it is.  For a line of
    ASCII characters the function returns the line unchanged, or raises
    [UnicodeError] (a label that is empty or too long); it never returns
    another text. *)
Theorem domain_to_idna_ascii (line : str) :
  forallb Py.is_ascii line = true ->
  domain_to_idna line = Ok line \/ domain_to_idna line = Raise UnicodeError.
Proof.
  intros Ha. unfold domain_to_idna.
  destruct (Py.startswith line (u "#")); cbn [negb]; [left; reflexivity|].
  cbv zeta.
  destruct (nonempty (determine_separator line)) eqn:Hsep;
    [|apply encode_ascii, Ha].
  apply nonempty_true in Hsep.
  assert (Hall : Forall (fun p => forallb Py.is_ascii p = true)
                   (Py.split line (determine_separator line)))
    by (apply split_scan_ascii; [exact Ha | reflexivity]).
  destruct (encode_domain_token_ascii _ Hall) as [-> | [-> | ->]].
  - left. rewrite join_split by exact Hsep. reflexivity.
  - left. rewrite join_split by exact Hsep. reflexivity.
  - right. reflexivity.
Qed.

End AsciiLines.

Lemma domain_to_idna_ascii_witness :
  let line := u "0.0.0.0 example.com # a comment" in
  forallb Py.is_ascii line = true /\
  (domain_to_idna (H := ascii_tables) line = Ok line \/
   domain_to_idna (H := ascii_tables) line = Raise UnicodeError).
Proof.
  cbv zeta.
  assert (Ha : forallb Py.is_ascii (u "0.0.0.0 example.com # a comment")
               = true) by (vm_compute; reflexivity).
  split; [exact Ha|].
  exact (domain_to_idna_ascii (H := ascii_tables) _ Ha).
Defined.

(** ** The first pattern on lines in the usual form *)
Section Canonical.
Context `{UnicodeData}.

(** An octet and its period, as the first group takes them. *)
Lemma run_octet_dot (o rest : str) pos caps (k : cont) res :
  octet_text o = true ->
  k (S (pos + length o)) rest
    ((1, take (S (pos + length o) - pos) (o ++ ch "." :: rest)) :: caps)
  = Some res ->
  run (Group 1 (octet @@ One (lit "."))) pos (o ++ ch "." :: rest) caps k
  = Some res.
Proof.
  unfold octet_text. intros Ho Hk.
  apply andb_prop in Ho as [Ho Hd]. apply andb_prop in Ho as [Hne Hlen].
  apply nonempty_true in Hne. apply Nat.leb_le in Hlen.
  rewrite run_group_eq, run_seq_eq. unfold octet.
  apply run_many_all.
  - eapply forallb_impl; [|exact Hd]. apply digit_is_decimal.
  - destruct o; [congruence | simpl; lia].
  - exact Hlen.
  - reflexivity.
  - apply run_one; [reflexivity | exact Hk].
Qed.

Lemma run_octet (o ws rest : str) pos caps (k : cont) res :
  octet_text o = true ->
  ws <> [] -> blanks ws = true ->
  k (pos + length o) (ws ++ rest) caps = Some res ->
  run octet pos (o ++ ws ++ rest) caps k = Some res.
Proof.
  unfold octet_text. intros Ho Hws Hblank Hk.
  apply andb_prop in Ho as [Ho Hd]. apply andb_prop in Ho as [Hne Hlen].
  apply nonempty_true in Hne. apply Nat.leb_le in Hlen.
  unfold octet. apply run_many_all.
  - eapply forallb_impl; [|exact Hd]. apply digit_is_decimal.
  - destruct o; [congruence | simpl; lia].
  - exact Hlen.
  - destruct ws as [|c ws]; [congruence|]. simpl in Hblank |- *.
    apply andb_prop in Hblank as [Hc _]. apply blank_not_digit, Hc.
  - exact Hk.
Qed.

Lemma run_blanks (ws h : str) (l : char) (rest : str) pos caps (k : cont)
    res :
  ws <> [] -> blanks ws = true ->
  h <> [] -> forallb host_char h = true ->
  k (pos + length ws) (h ++ l :: rest) caps = Some res ->
  run (Many 1 None sp) pos (ws ++ h ++ l :: rest) caps k = Some res.
Proof.
  intros Hws Hblank Hh Hhost Hk. apply run_many_all.
  - eapply forallb_impl; [|exact Hblank]. apply blank_is_space.
  - destruct ws; [congruence | simpl; lia].
  - exact I.
  - destruct h as [|x h]; [congruence|]. simpl.
    simpl in Hhost. apply andb_prop in Hhost as [Hx _].
    unfold sp. cbn [cmatch existsb item_matches]. rewrite orb_false_r.
    apply host_char_not_space, Hx.
  - exact Hk.
Qed.

(** The hostname and what follows it, as the last two groups take
    them. *)
Lemma run_host (i j : nat) (h : str) (l : char) (rest : str) pos caps :
  h <> [] -> forallb host_char h = true -> Py.ascii_letter l = true ->
  ends_host rest = true ->
  run (Group i host @@ Group j (Many 0 None Dot)) pos (h ++ l :: rest) caps
    accept
  = Some ((j, upto_newline rest) :: (i, h ++ [l]) :: caps).
Proof.
  intros Hne Hh Hl Hrest.
  rewrite run_seq_eq, run_group_eq. unfold host. rewrite run_seq_eq.
  assert (Hcls : match rest with
                 | [] => True
                 | c :: _ =>
                     cmatch (OneOf [IWord; IChar (ch "."); IChar (ch "-")]) c
                     = false
                 end).
  { destruct rest as [|c rest]; [exact I|]. simpl in Hrest.
    apply andb_prop in Hrest as [Ha Hc]. apply negb_true_iff in Hc.
    rewrite host_class_spec by exact Ha. exact Hc. }
  apply run_many_but_one.
  - apply forallb_forall. intros c Hc.
    rewrite forallb_forall in Hh. specialize (Hh c Hc).
    rewrite host_class_spec by (apply host_char_ascii, Hh). exact Hh.
  - rewrite host_class_spec by (apply ascii_letter_is_ascii, Hl).
    apply letter_is_host_char, Hl.
  - destruct h; [congruence | simpl; lia].
  - exact Hcls.
  - cbn [run]. destruct rest as [|c rest]; [reflexivity|].
    rewrite letter_class_spec. simpl in Hrest.
    apply andb_prop in Hrest as [_ Hc]. apply negb_true_iff in Hc.
    destruct (Py.ascii_letter c) eqn:E; [|reflexivity].
    rewrite (letter_is_host_char c E) in Hc. discriminate Hc.
  - apply run_one; [rewrite letter_class_spec; exact Hl|].
    rewrite run_rest_of_line.
    replace (S (pos + length h) - pos) with (length (h ++ [l]))
      by (rewrite length_app; simpl; lia).
    replace (h ++ l :: rest) with ((h ++ [l]) ++ rest)
      by (rewrite <- app_assoc; reflexivity).
    rewrite take_app_length. reflexivity.
Qed.

Lemma search_usual_form (lead o1 o2 o3 o4 ws h : str) (l : char)
    (rest : str) :
  blanks lead = true ->
  octet_text o1 = true -> octet_text o2 = true ->
  octet_text o3 = true -> octet_text o4 = true ->
  ws <> [] -> blanks ws = true ->
  h <> [] -> forallb host_char h = true -> Py.ascii_letter l = true ->
  ends_host rest = true ->
  exists res,
    search ip_domain_regex
      (lead ++ o1 ++ ch "." :: o2 ++ ch "." :: o3 ++ ch "." :: o4
         ++ ws ++ h ++ l :: rest) = Some res /\
    group res 2 = Some (h ++ [l]) /\
    group res 3 = Some (upto_newline rest).
Proof.
  intros Hlead Ho1 Ho2 Ho3 Ho4 Hws Hblank Hh Hhost Hl Hrest.
  unfold ip_domain_regex. rewrite search_bol.
  eexists. split.
  - rewrite run_seq_eq. apply run_many_all.
    + eapply forallb_impl; [|exact Hlead]. apply blank_is_space.
    + lia.
    + exact I.
    + destruct o1 as [|d o1]; [discriminate Ho1|].
      simpl. apply digit_not_space.
      unfold octet_text in Ho1. simpl in Ho1.
      apply andb_prop in Ho1 as [_ Ho1].
      apply andb_prop in Ho1 as [Ho1 _]. exact Ho1.
    + cbn [times]. rewrite run_seq_eq. rewrite run_seq_eq.
      apply run_octet_dot; [exact Ho1|].
      rewrite run_seq_eq.
      apply run_octet_dot; [exact Ho2|].
      rewrite run_seq_eq.
      apply run_octet_dot; [exact Ho3|].
      rewrite run_eps_eq. cbv beta. rewrite run_seq_eq.
      apply run_octet; [exact Ho4 | exact Hws | exact Hblank|].
      rewrite run_seq_eq.
      apply run_blanks; [assumption..|].
      apply run_host; assumption.
  - split; reflexivity.
Qed.

Lemma lower_from_ascii (whole s : str) (i : nat) :
  forallb Py.is_ascii s = true ->
  Py.lower_from whole i s = map Py.tolower_ascii s.
Proof.
  revert i. induction s as [|c s IH]; intros i Hs; [reflexivity|].
  simpl in Hs. apply andb_prop in Hs as [Hc Hs].
  cbn [Py.lower_from map]. rewrite Hc, IH by exact Hs. reflexivity.
Qed.

Lemma tolower_host_char (c : char) :
  host_char c = true -> host_char (Py.tolower_ascii c) = true.
Proof.
  unfold Py.tolower_ascii.
  destruct (Py.ascii_upper c) eqn:E; [|auto]. intros _.
  revert E.
  unfold host_char, Py.ascii_letter, Py.ascii_lower, Py.ascii_upper,
    Py.ascii_digit, Py.in_range.
  eval_ch. bool_lia.
Qed.

Lemma strip_without_space (s : str) :
  forallb (fun c => negb (Py.isspace c)) s = true -> Py.strip s = s.
Proof.
  intros Hs. unfold Py.strip.
  assert (Hl : forall t, forallb (fun c => negb (Py.isspace c)) t = true ->
                         Py.lstrip_by Py.isspace t = t).
  { intros [|c t] Ht; [reflexivity|]. simpl in Ht |- *.
    apply andb_prop in Ht as [Hc _]. apply negb_true_iff in Hc.
    rewrite Hc. reflexivity. }
  rewrite (Hl s Hs). unfold Py.rstrip_by.
  rewrite Hl.
  - apply rev_involutive.
  - rewrite forallb_forall in *. intros c Hc. apply Hs.
    apply in_rev. exact Hc.
Qed.

(** The key of a hostname of ASCII characters of the class. *)
Lemma host_key (host : str) :
  forallb host_char host = true ->
  Py.strip (Py.lower host) = map Py.tolower_ascii host.
Proof.
  intros Hh. unfold Py.lower. rewrite lower_from_ascii.
  - apply strip_without_space.
    rewrite forallb_forall in *. intros c Hc.
    apply in_map_iff in Hc as (d & <- & Hd).
    apply negb_true_iff, host_char_not_space, tolower_host_char, Hh, Hd.
  - eapply forallb_impl; [|exact Hh]. apply host_char_ascii.
Qed.

Lemma extract_usual_form (lead o1 o2 o3 o4 ws h : str) (l : char)
    (rest : str) :
  blanks lead = true ->
  octet_text o1 = true -> octet_text o2 = true ->
  octet_text o3 = true -> octet_text o4 = true ->
  ws <> [] -> blanks ws = true ->
  h <> [] -> forallb host_char h = true -> Py.ascii_letter l = true ->
  ends_host rest = true ->
  extract (lead ++ ipv4_text o1 o2 o3 o4 ++ ws ++ h ++ [l] ++ rest)
  = Some (map Py.tolower_ascii (h ++ [l]), Some (upto_newline rest)).
Proof.
  intros Hlead Ho1 Ho2 Ho3 Ho4 Hws Hblank Hh Hhost Hl Hrest.
  destruct (search_usual_form lead o1 o2 o3 o4 ws h l rest)
    as (res & Hs & H2 & H3); try assumption.
  unfold extract, ipv4_text. change (u ".") with [ch "."].
  rewrite <- !app_assoc. cbn [app].
  rewrite Hs, H2, H3.
  change (default [] (Some (h ++ [l]))) with (h ++ [l]).
  rewrite host_key; [reflexivity|].
  rewrite forallb_app, Hhost. simpl.
  rewrite (letter_is_host_char l Hl). reflexivity.
Qed.

(** X17: [normalize_rule] on a rule in the usual form.  The rule is made
    of optional blanks, an address of four octets of one to three
    digits, one or more blanks, and a hostname of two characters or
    more: one or more ASCII letters, digits, underscores, periods or
    hyphens ([h], not empty), then an ASCII letter ([l]).  The hostname
    is followed by nothing or by an ASCII character that is not of this
    class.  Then the first pattern matches: the hostname returned is
    the hostname of the rule in lower case, the rule returned is built
    from it and from the text up to the first newline, and nothing is
    printed.  (A hostname of one letter is matched by no pattern.) *)
Theorem normalize_rule_usual_form (lead o1 o2 o3 o4 ws h : str) (l : char)
    (rest target_ip : str) (keep_domain_comments : bool) :
  blanks lead = true ->
  octet_text o1 = true -> octet_text o2 = true ->
  octet_text o3 = true -> octet_text o4 = true ->
  ws <> [] -> blanks ws = true ->
  h <> [] -> forallb host_char h = true -> Py.ascii_letter l = true ->
  ends_host rest = true ->
  let hostname := map Py.tolower_ascii (h ++ [l]) in
  let suffix := upto_newline rest in
  normalize_rule (lead ++ ipv4_text o1 o2 o3 o4 ++ ws ++ h ++ [l] ++ rest)
    target_ip keep_domain_comments
  = ((Some hostname,
      Some (if nonempty target_ip
            then target_ip ++ u " " ++ hostname
                   ++ (if keep_domain_comments && nonempty suffix
                       then u " #" ++ suffix else [])
                   ++ nl
            else hostname ++ nl)),
     []).
Proof.
  intros Hlead Ho1 Ho2 Ho3 Ho4 Hws Hblank Hh Hhost Hl Hrest. cbv zeta.
  rewrite normalize_rule_extract.
  rewrite (extract_usual_form lead o1 o2 o3 o4 ws h l rest) by assumption.
  unfold normalize_response. rewrite length_pos_nonempty.
  cbn [snd truthy].
  change (default [] (Some (upto_newline rest))) with (upto_newline rest).
  destruct (nonempty target_ip); [|reflexivity].
  destruct (keep_domain_comments && nonempty (upto_newline rest));
    rewrite <- ?app_assoc; reflexivity.
Qed.

End Canonical.

Lemma normalize_rule_usual_form_witness :
  let rule := u "127.0.0.1" ++ tab ++ u "Ads.Example-1.COM # tracker" ++ nl in
  blanks [] = true /\
  octet_text (u "127") = true /\ octet_text (u "0") = true /\
  octet_text (u "0") = true /\ octet_text (u "1") = true /\
  tab <> [] /\ blanks tab = true /\
  u "Ads.Example-1.CO" <> [] /\
  forallb host_char (u "Ads.Example-1.CO") = true /\
  Py.ascii_letter (ch "M") = true /\
  ends_host (u " # tracker" ++ nl) = true /\
  rule = [] ++ ipv4_text (u "127") (u "0") (u "0") (u "1") ++ tab
           ++ u "Ads.Example-1.CO" ++ [ch "M"] ++ u " # tracker" ++ nl /\
  normalize_rule (H := ascii_tables) rule (u "0.0.0.0") false
  = ((Some (u "ads.example-1.com"),
      Some (u "0.0.0.0 ads.example-1.com" ++ nl)), []) /\
  normalize_rule (H := ascii_tables) rule (u "0.0.0.0") true
  = ((Some (u "ads.example-1.com"),
      Some (u "0.0.0.0 ads.example-1.com # # tracker" ++ nl)), []).
Proof.
  cbv zeta.
  do 5 (split; [reflexivity|]).
  split; [discriminate|]. split; [reflexivity|].
  split; [discriminate|].
  do 3 (split; [reflexivity|]).
  split; [vm_compute; reflexivity|].
  split.
  - exact (normalize_rule_usual_form (H := ascii_tables)
             [] (u "127") (u "0") (u "0") (u "1") tab
             (u "Ads.Example-1.CO") (ch "M") (u " # tracker" ++ nl)
             (u "0.0.0.0") false
             eq_refl eq_refl eq_refl eq_refl eq_refl
             ltac:(discriminate) eq_refl ltac:(discriminate)
             eq_refl eq_refl eq_refl).
  - exact (normalize_rule_usual_form (H := ascii_tables)
             [] (u "127") (u "0") (u "0") (u "1") tab
             (u "Ads.Example-1.CO") (ch "M") (u " # tracker" ++ nl)
             (u "0.0.0.0") true
             eq_refl eq_refl eq_refl eq_refl eq_refl
             ltac:(discriminate) eq_refl ltac:(discriminate)
             eq_refl eq_refl eq_refl).
Defined.

(** ** The loop on lines in the usual form *)
Section UsualLines.
Context `{UnicodeData}.

Lemma usual_body (o1 o2 o3 o4 ws h : str) (l : char) :
  octet_text o1 = true -> octet_text o2 = true ->
  octet_text o3 = true -> octet_text o4 = true ->
  blanks ws = true -> forallb host_char h = true ->
  Py.ascii_letter l = true ->
  forallb usual_char (ipv4_text o1 o2 o3 o4 ++ ws ++ h ++ [l]) = true.
Proof.
  intros Ho1 Ho2 Ho3 Ho4 Hws Hh Hl.
  assert (Ho : forall o, octet_text o = true -> forallb usual_char o = true).
  { intros o Ho. unfold octet_text in Ho. apply andb_prop in Ho as [_ Ho].
    eapply forallb_impl; [|exact Ho]. intros c Hc. unfold usual_char.
    rewrite Hc. reflexivity. }
  unfold ipv4_text. rewrite !forallb_app.
  rewrite (Ho o1 Ho1), (Ho o2 Ho2), (Ho o3 Ho3), (Ho o4 Ho4).
  cbn [andb]. change (forallb usual_char (u ".")) with true. cbn [andb].
  apply andb_true_intro. split; [|apply andb_true_intro; split].
  - eapply forallb_impl; [|exact Hws]. intros c Hc. unfold usual_char.
    apply orb_prop in Hc as [-> | ->]; rewrite ?orb_true_r; reflexivity.
  - eapply forallb_impl; [|exact Hh]. intros c Hc. unfold usual_char.
    rewrite Hc, !orb_true_r. reflexivity.
  - simpl. unfold usual_char. rewrite (letter_is_host_char l Hl).
    rewrite !orb_true_r. reflexivity.
Qed.

Lemma not_usual_absent (c : char) (s : str) :
  usual_char c = false -> forallb usual_char s = true -> c ∉ s.
Proof.
  intros Hc Hs Hin. rewrite forallb_forall in Hs.
  apply list_elem_of_In in Hin. rewrite (Hs c Hin) in Hc. discriminate Hc.
Qed.

Lemma contains_absent (m s : str) (c : char) :
  c ∈ m -> c ∉ s -> Py.contains m s = false.
Proof.
  intros Hm Hs. destruct (Py.contains m s) eqn:E; [|reflexivity].
  exfalso. apply PyFacts.contains_spec in E as (a & b & ->).
  apply Hs. apply elem_of_app. right. apply elem_of_app. left. exact Hm.
Qed.

Lemma strip_keeps_ends (c : char) (m : str) (d : char) :
  Py.isspace c = false -> Py.isspace d = false ->
  Py.strip (c :: m ++ [d]) = c :: m ++ [d].
Proof.
  intros Hc Hd. unfold Py.strip. simpl. rewrite Hc.
  change (c :: m ++ [d]) with ((c :: m) ++ [d]).
  rewrite (PyFacts.rstrip_by_keep Py.isspace (c :: m) d [] Hd). reflexivity.
Qed.

Lemma octet_head (o : str) :
  octet_text o = true ->
  exists d o', o = d :: o' /\ Py.ascii_digit d = true.
Proof.
  unfold octet_text. intros Ho. destruct o as [|d o']; [discriminate Ho|].
  simpl in Ho. apply andb_prop in Ho as [_ Ho].
  apply andb_prop in Ho as [Hd _]. exists d, o'. auto.
Qed.

Lemma digit_facts (d : char) :
  Py.ascii_digit d = true ->
  (d =? ch "#")%N = false /\ Py.isspace d = false.
Proof.
  unfold Py.ascii_digit, Py.isspace, Py.in_range. eval_ch. intros Hd.
  split; bool_lia.
Qed.

Lemma letter_not_space (l : char) :
  Py.ascii_letter l = true -> Py.isspace l = false.
Proof.
  intros Hl. apply host_char_not_space, letter_is_host_char, Hl.
Qed.

Lemma usual_char_ascii (c : char) :
  usual_char c = true -> Py.is_ascii c = true.
Proof.
  unfold usual_char, host_char, Py.ascii_letter, Py.ascii_lower,
    Py.ascii_upper, Py.ascii_digit, Py.in_range, Py.is_ascii.
  eval_ch. bool_lia.
Qed.

Lemma tolower_ascii_is_ascii (c : char) :
  Py.is_ascii c = true -> Py.is_ascii (Py.tolower_ascii c) = true.
Proof.
  unfold Py.tolower_ascii, Py.ascii_upper, Py.in_range, Py.is_ascii.
  eval_ch. intros Hc.
  destruct ((65 <=? c) && (c <=? 90))%N eqn:E; bool_lia.
Qed.

Lemma hostname_ascii (h : str) (l : char) :
  forallb host_char h = true -> Py.ascii_letter l = true ->
  forallb Py.is_ascii (map Py.tolower_ascii (h ++ [l])) = true.
Proof.
  intros Hh Hl. apply forallb_forall. intros c Hc.
  apply in_map_iff in Hc as (d & <- & Hd).
  apply tolower_ascii_is_ascii.
  apply in_app_or in Hd as [Hd|Hd].
  - rewrite forallb_forall in Hh. apply host_char_ascii, Hh, Hd.
  - destruct Hd as [<-|[]]. apply ascii_letter_is_ascii, Hl.
Qed.

(** The text of a rule with an ASCII hostname is encoded when the
    target IP is. *)
Lemma plain_rule_scalar (cfg : settings) (hostname : str) :
  forallb Py.is_scalar (effective_target_ip cfg) = true ->
  forallb Py.is_ascii hostname = true ->
  forallb Py.is_scalar (write_text (plain_rule cfg hostname)) = true.
Proof.
  intros Hip Hh. apply ascii_is_scalar in Hh.
  unfold plain_rule. cbn [write_text].
  destruct (nonempty (effective_target_ip cfg));
    rewrite !forallb_app, ?Hip, Hh; reflexivity.
Qed.

(** A line in the usual form is ASCII: its bytes are its characters. *)
Lemma usual_line_decoded (o1 o2 o3 o4 ws h : str) (l : char) :
  octet_text o1 = true -> octet_text o2 = true ->
  octet_text o3 = true -> octet_text o4 = true ->
  blanks ws = true -> forallb host_char h = true ->
  Py.ascii_letter l = true ->
  Py.decode_utf8 (usual_line o1 o2 o3 o4 ws h l)
  = Ok (usual_line o1 o2 o3 o4 ws h l).
Proof.
  intros Ho1 Ho2 Ho3 Ho4 Hb Hh Hl. apply decode_utf8_ascii.
  pose proof (usual_body o1 o2 o3 o4 ws h l Ho1 Ho2 Ho3 Ho4 Hb Hh Hl)
    as Hchars.
  replace (usual_line o1 o2 o3 o4 ws h l)
    with ((ipv4_text o1 o2 o3 o4 ++ ws ++ h ++ [l]) ++ nl)
    by (unfold usual_line; rewrite <- !app_assoc; reflexivity).
  rewrite forallb_app. apply andb_true_intro. split; [|reflexivity].
  eapply forallb_impl; [|exact Hchars]. apply usual_char_ascii.
Qed.

(** What [normalize_rule] gives for a rule in the usual form that
    nothing but a newline follows. *)
Lemma normalize_rule_plain (cfg : settings) (o1 o2 o3 o4 ws h : str)
    (l : char) (rest : str) (keep : bool) :
  octet_text o1 = true -> octet_text o2 = true ->
  octet_text o3 = true -> octet_text o4 = true ->
  ws <> [] -> blanks ws = true ->
  h <> [] -> forallb host_char h = true -> Py.ascii_letter l = true ->
  rest = [] \/ rest = nl ->
  normalize_rule (ipv4_text o1 o2 o3 o4 ++ ws ++ h ++ [l] ++ rest)
    (effective_target_ip cfg) keep
  = ((Some (map Py.tolower_ascii (h ++ [l])),
      Some (write_text (plain_rule cfg (map Py.tolower_ascii (h ++ [l]))))),
     []).
Proof.
  intros Ho1 Ho2 Ho3 Ho4 Hws Hblank Hh Hhost Hl Hrest.
  rewrite normalize_rule_extract.
  rewrite (extract_usual_form [] o1 o2 o3 o4 ws h l rest); try assumption;
    try reflexivity.
  2:{ destruct Hrest as [-> | ->]; reflexivity. }
  assert (Hs : upto_newline rest = [])
    by (destruct Hrest as [-> | ->]; reflexivity).
  rewrite Hs. unfold normalize_response, plain_rule.
  rewrite length_pos_nonempty. cbn [snd truthy write_text nonempty].
  rewrite andb_false_r.
  destruct (nonempty (effective_target_ip cfg));
    rewrite <- ?app_assoc; reflexivity.
Qed.

Lemma usual_line_turn (cfg : settings) (st : loop_state)
    (o1 o2 o3 o4 ws h : str) (l : char) :
  octet_text o1 = true -> octet_text o2 = true ->
  octet_text o3 = true -> octet_text o4 = true ->
  ws <> [] -> blanks ws = true ->
  h <> [] -> forallb host_char h = true -> Py.ascii_letter l = true ->
  exclusion_regexes cfg = [] -> exclusions cfg = [] ->
  forallb Py.is_scalar (effective_target_ip cfg) = true ->
  let hostname : str := map Py.tolower_ascii (h ++ [l]) in
  loop_body cfg st (usual_line o1 o2 o3 o4 ws h l)
  = Ok (if bool_decide (hostname ∈ hostnames st) then st
        else {| final_file := final_file st ++ [plain_rule cfg hostname];
                hostnames := {[hostname]} ∪ hostnames st;
                rules := (rules st + 1)%Z;
                stdout := stdout st |}).
Proof.
  intros Ho1 Ho2 Ho3 Ho4 Hws Hblank Hh Hhost Hl Hre Hex Hip. cbv zeta.
  pose proof (usual_body o1 o2 o3 o4 ws h l Ho1 Ho2 Ho3 Ho4 Hblank Hhost Hl)
    as Hchars.
  set (body := ipv4_text o1 o2 o3 o4 ++ ws ++ h ++ [l]) in *.
  assert (Hline : usual_line o1 o2 o3 o4 ws h l = body ++ nl).
  { unfold usual_line, body. rewrite <- !app_assoc. reflexivity. }
  assert (Habsent : forall c, usual_char c = false -> c <> 10%N ->
                              c ∉ body ++ nl).
  { intros c Hc Hnl Hin. apply elem_of_app in Hin as [Hin|Hin].
    - exact (not_usual_absent c body Hc Hchars Hin).
    - apply list_elem_of_singleton in Hin. contradiction. }
  destruct (octet_head o1 Ho1) as (d & o1' & Eo1 & Hd).
  destruct (digit_facts d Hd) as [Hhash Hspace].
  assert (Hshape : exists m, body = d :: m ++ [l]).
  { exists (o1' ++ u "." ++ o2 ++ u "." ++ o3 ++ u "." ++ o4 ++ ws ++ h).
    unfold body, ipv4_text. rewrite Eo1. rewrite <- !app_assoc. reflexivity. }
  destruct Hshape as (m & Hshape).
  assert (Hpre : preprocess (body ++ nl) = body ++ nl).
  { rewrite preprocess_snoc_newline, replace_without_plus; [reflexivity|].
    apply not_usual_absent; [reflexivity | exact Hchars]. }
  assert (Hstrip : strip_rule (body ++ nl) (minimise cfg)
                   = if minimise cfg then body else body ++ nl).
  { unfold strip_rule. destruct (minimise cfg); [|reflexivity].
    unfold Py.find. change (u "#") with [ch "#"].
    rewrite find_at_char_absent
      by (apply Habsent; [reflexivity | discriminate]).
    unfold Py.slice_to. simpl (_ <? _)%Z. cbv iota.
    rewrite length_app. simpl length.
    replace (Z.to_nat (Z.of_nat (length body + 1) + -1)) with (length body)
      by lia.
    rewrite take_app_length, Hshape.
    apply strip_keeps_ends; [exact Hspace | apply letter_not_space, Hl]. }
  assert (Hnorm : normalize_rule
                    (strip_rule (body ++ nl) (minimise cfg))
                    (effective_target_ip cfg) (minimise cfg)
                  = ((Some (map Py.tolower_ascii (h ++ [l])),
                      Some (write_text
                              (plain_rule cfg
                                 (map Py.tolower_ascii (h ++ [l]))))), [])).
  { rewrite Hstrip. destruct (minimise cfg).
    - replace body with (ipv4_text o1 o2 o3 o4 ++ ws ++ h ++ [l] ++ [])
        by (unfold body; rewrite app_nil_r; reflexivity).
      apply normalize_rule_plain; auto.
    - replace (body ++ nl)
        with (ipv4_text o1 o2 o3 o4 ++ ws ++ h ++ [l] ++ nl)
        by (unfold body; rewrite <- !app_assoc; reflexivity).
      apply normalize_rule_plain; auto. }
  rewrite Hline. unfold loop_body. cbv zeta.
  rewrite Hpre.
  match goal with
  | |- context [normalize_rule _ ?t _] =>
      change t with (effective_target_ip cfg)
  end.
  rewrite Hnorm, Hre, Hex.
  assert (Hpass : passes_through (minimise cfg) (body ++ nl) = Ok false).
  { destruct (minimise cfg); [apply passes_through_minimise|].
    rewrite Hshape. cbn [app]. rewrite passes_through_first_char.
    rewrite Hhash, Hspace. reflexivity. }
  rewrite Hpass. cbn [mbind result_bind].
  rewrite (contains_absent (u "::1") (body ++ nl) (ch ":"));
    [|left | apply Habsent; [reflexivity | discriminate]].
  assert (Hne : nonempty (strip_rule (body ++ nl) (minimise cfg)) = true).
  { rewrite Hstrip. destruct (minimise cfg); rewrite Hshape; reflexivity. }
  rewrite Hne. cbn [negb orb matches_exclusions existsb].
  assert (Hat : Py.contains (u "@")
                  (strip_rule (body ++ nl) (minimise cfg)) = false).
  { apply (contains_absent _ _ (ch "@")); [left|].
    rewrite Hstrip. destruct (minimise cfg).
    - apply not_usual_absent; [reflexivity | exact Hchars].
    - apply Habsent; [reflexivity | discriminate]. }
  rewrite Hat. cbn [negb andb].
  assert (Hrule : nonempty
                    (write_text
                       (plain_rule cfg (map Py.tolower_ascii (h ++ [l]))))
                  = true).
  { unfold plain_rule. cbn [write_text].
    destruct (nonempty (effective_target_ip cfg)) eqn:E.
    - destruct (effective_target_ip cfg); [discriminate E | reflexivity].
    - rewrite map_app. destruct (map Py.tolower_ascii h); reflexivity. }
  rewrite Hrule. cbn [andb]. rewrite andb_true_r.
  cbn [hostnames final_file rules stdout]. rewrite app_nil_r.
  destruct (bool_decide
              ((map Py.tolower_ascii (h ++ [l]) : str) ∈ hostnames st))
    eqn:Hseen; cbn [negb].
  - destruct st. reflexivity.
  - rewrite write_data_ok
      by (apply plain_rule_scalar;
          [exact Hip | apply hostname_ascii; assumption]).
    reflexivity.
Qed.

Lemma usual_stream_loop (cfg : settings) (lines : list bytes)
    (names : list str) :
  Forall2 usual_form lines names ->
  exclusion_regexes cfg = [] -> exclusions cfg = [] ->
  forallb Py.is_scalar (effective_target_ip cfg) = true ->
  forall st,
  exists st',
    loop cfg lines st = (st', None) /\
    final_file st'
    = final_file st ++ map (plain_rule cfg) (first_seen (hostnames st) names) /\
    rules st'
    = (rules st
       + Z.of_nat (length (first_seen (hostnames st) names)))%Z /\
    stdout st' = stdout st.
Proof.
  intros Hall Hre Hex Hip.
  induction Hall as [|line name lines names Hline Hall IH]; intros st.
  - exists st. simpl. rewrite app_nil_r, Z.add_0_r. auto.
  - destruct Hline as [o1 o2 o3 o4 ws h l Ho1 Ho2 Ho3 Ho4 Hws Hb Hh Hhost Hl].
    cbn [loop first_seen].
    rewrite (loop_turn_decoded cfg st _ _
               (usual_line_decoded o1 o2 o3 o4 ws h l
                  Ho1 Ho2 Ho3 Ho4 Hb Hhost Hl)).
    rewrite (usual_line_turn cfg st o1 o2 o3 o4 ws h l) by assumption.
    cbv zeta.
    destruct (bool_decide
                ((map Py.tolower_ascii (h ++ [l]) : str) ∈ hostnames st)).
    + apply IH.
    + destruct (IH {| final_file :=
                        final_file st
                          ++ [plain_rule cfg
                                (map Py.tolower_ascii (h ++ [l]))];
                      hostnames :=
                        {[map Py.tolower_ascii (h ++ [l])]} ∪ hostnames st;
                      rules := (rules st + 1)%Z;
                      stdout := stdout st |})
        as (st' & Hloop & Hf & Hr & Hs).
      exists st'. split; [exact Hloop|].
      cbn [final_file hostnames rules stdout] in Hf, Hr, Hs.
      rewrite Hf, Hr, Hs. cbn [map length].
      rewrite <- app_assoc. split_and!; [reflexivity | | reflexivity].
      rewrite Nat2Z.inj_succ.
      match goal with
      | |- (_ + 1 + ?x = _ + Z.succ ?y)%Z => change y with x
      end.
      lia.
Qed.

(** X18: a file of rules in the usual form.  A line in the usual form
    is an address of four octets, one or more blanks, a hostname of two
    characters or more (ASCII letters, digits, underscores, periods and
    hyphens, the last a letter) and a newline; it is ASCII, so its bytes
    are its characters.  With no exclusion patterns, no whitelist words
    and a target IP without lone surrogates, a run over such lines
    raises nothing and prints nothing, and writes one rule for each
    hostname that is not reserved, in lower case, at its first
    occurrence and in that order; the counter grows by their number. *)
Theorem usual_stream (cfg : settings) (temp_file : list bytes)
    (names : list str) :
  Forall2 usual_form temp_file names ->
  exclusion_regexes cfg = [] -> exclusions cfg = [] ->
  forallb Py.is_scalar (effective_target_ip cfg) = true ->
  let written := first_seen reserved_hostnames names in
  final_file (final_state temp_file cfg) = map (plain_rule cfg) written /\
  stdout (final_state temp_file cfg) = [] /\
  exists cfg',
    snd (write_final_file temp_file [] cfg) = Ok cfg' /\
    number_of_rules cfg'
    = (number_of_rules cfg + Z.of_nat (length written))%Z.
Proof.
  intros Hall Hre Hex Hip. cbv zeta.
  destruct (usual_stream_loop cfg temp_file names Hall Hre Hex Hip
              (initial_state cfg [] []))
    as (st' & Hloop & Hf & Hr & Hs).
  unfold final_state, write_final_file. rewrite Hloop.
  cbn [fst snd]. cbn [initial_state final_file hostnames rules stdout] in *.
  split; [exact Hf|]. split; [exact Hs|].
  eexists. split; [reflexivity|]. exact Hr.
Qed.

(** X19: comment lines.  A line of the stream that, decoded, begins
    with ['#'] is written as it is after the first steps of the loop
    body when minimise is off, and leaves no trace when minimise is
    on. *)
Theorem comment_line_turn (cfg : settings) (st : loop_state) (raw : bytes)
    (text : str) :
  Py.decode_utf8 raw = Ok (ch "#" :: text) ->
  loop_turn cfg st raw = loop_body cfg st (ch "#" :: text) /\
  loop_body cfg st (ch "#" :: text)
  = Ok (if minimise cfg then st
        else {| final_file :=
                  final_file st ++ [Verbatim (preprocess (ch "#" :: text))];
                hostnames := hostnames st; rules := rules st;
                stdout := stdout st |}) /\
  exists text', preprocess (ch "#" :: text) = ch "#" :: text'.
Proof.
  intros Hd. split; [apply loop_turn_decoded, Hd|].
  pose proof (preprocess_scalar _ (decode_utf8_scalar _ _ Hd)) as Hsc.
  assert (Hpre : exists text', preprocess (ch "#" :: text) = ch "#" :: text').
  { unfold preprocess.
    pose proof (scan_through (tab ++ u "+") (u " ") [ch "#"] text) as Hs.
    unfold Py.replace, Py.split. cbn [app] in Hs. rewrite Hs.
    - unfold Py.rstrip.
      match goal with
      | |- context [Py.rstrip_by ?p (_ :: ?y)] =>
          pose proof (PyFacts.rstrip_by_keep p [] (ch "#") y eq_refl) as Hr
      end.
      cbn [app] in Hr. rewrite Hr.
      eexists. reflexivity.
    - discriminate.
    - constructor; [|constructor]. vm_compute. intros Hin.
      repeat (apply elem_of_cons in Hin as [Hin|Hin]; [discriminate|]).
      inversion Hin. }
  split; [|exact Hpre].
  destruct Hpre as (text' & Hpre).
  unfold loop_body. cbv zeta. rewrite Hpre.
  destruct (minimise cfg) eqn:Hm.
  - rewrite passes_through_minimise. cbn [mbind result_bind].
    destruct (Py.contains (u "::1") (ch "#" :: text')); [reflexivity|].
    unfold strip_rule, Py.find. change (u "#") with [ch "#"].
    rewrite PyFacts.find_at_here by reflexivity.
    reflexivity.
  - rewrite passes_through_first_char. rewrite N.eqb_refl.
    cbn [orb mbind result_bind].
    rewrite Hpre in Hsc. rewrite write_data_ok by exact Hsc.
    reflexivity.
Qed.

End UsualLines.

Lemma comment_line_turn_witness :
  let raw : bytes := u "# Title: a list" ++ nl in
  let text : str := u " Title: a list" ++ nl in
  let st := initial_state get_defaults [] [] in
  Py.decode_utf8 raw = Ok (ch "#" :: text) /\
  loop_turn (H := ascii_tables) get_defaults st raw
  = loop_body (H := ascii_tables) get_defaults st (ch "#" :: text) /\
  loop_body (H := ascii_tables) get_defaults st (ch "#" :: text)
  = Ok (if minimise get_defaults then st
        else {| final_file :=
                  final_file st ++ [Verbatim (preprocess (ch "#" :: text))];
                hostnames := hostnames st; rules := rules st;
                stdout := stdout st |}) /\
  exists text', preprocess (ch "#" :: text) = ch "#" :: text'.
Proof.
  cbv zeta.
  assert (Hd : Py.decode_utf8 (u "# Title: a list" ++ nl)
               = Ok (ch "#" :: u " Title: a list" ++ nl))
    by (vm_compute; reflexivity).
  split; [exact Hd|].
  exact (comment_line_turn (H := ascii_tables) get_defaults
           (initial_state get_defaults [] []) _ _ Hd).
Defined.

Lemma usual_stream_witness :
  let temp_file : list bytes :=
    [u "0.0.0.0 Ads.example.com" ++ nl;
     u "127.0.0.1" ++ tab ++ u "localhost" ++ nl;
     u "0.0.0.0 tracker.example.org" ++ nl;
     u "0.0.0.0  ads.example.com" ++ nl] in
  let names :=
    [u "ads.example.com"; u "localhost"; u "tracker.example.org";
     u "ads.example.com"] in
  Forall2 usual_form temp_file names /\
  forallb Py.is_scalar (effective_target_ip get_defaults) = true /\
  first_seen reserved_hostnames names
  = [u "ads.example.com"; u "tracker.example.org"] /\
  final_file (final_state (H := ascii_tables) temp_file get_defaults)
  = map (plain_rule get_defaults) (first_seen reserved_hostnames names) /\
  stdout (final_state (H := ascii_tables) temp_file get_defaults) = [] /\
  exists cfg',
    snd (write_final_file (H := ascii_tables) temp_file [] get_defaults)
    = Ok cfg' /\
    number_of_rules cfg'
    = (number_of_rules get_defaults
       + Z.of_nat (length (first_seen reserved_hostnames names)))%Z.
Proof.
  cbv zeta.
  assert (Hall : Forall2 usual_form
                   [u "0.0.0.0 Ads.example.com" ++ nl;
                    u "127.0.0.1" ++ tab ++ u "localhost" ++ nl;
                    u "0.0.0.0 tracker.example.org" ++ nl;
                    u "0.0.0.0  ads.example.com" ++ nl]
                   [u "ads.example.com"; u "localhost";
                    u "tracker.example.org"; u "ads.example.com"]).
  { constructor; [|constructor; [|constructor; [|constructor; [|constructor]]]].
    - exact (usual_form_intro (u "0") (u "0") (u "0") (u "0") (u " ")
               (u "Ads.example.co") (ch "m")
               eq_refl eq_refl eq_refl eq_refl ltac:(discriminate) eq_refl
               ltac:(discriminate) eq_refl eq_refl).
    - exact (usual_form_intro (u "127") (u "0") (u "0") (u "1") tab
               (u "localhos") (ch "t")
               eq_refl eq_refl eq_refl eq_refl ltac:(discriminate) eq_refl
               ltac:(discriminate) eq_refl eq_refl).
    - exact (usual_form_intro (u "0") (u "0") (u "0") (u "0") (u " ")
               (u "tracker.example.or") (ch "g")
               eq_refl eq_refl eq_refl eq_refl ltac:(discriminate) eq_refl
               ltac:(discriminate) eq_refl eq_refl).
    - exact (usual_form_intro (u "0") (u "0") (u "0") (u "0") (u "  ")
               (u "ads.example.co") (ch "m")
               eq_refl eq_refl eq_refl eq_refl ltac:(discriminate) eq_refl
               ltac:(discriminate) eq_refl eq_refl). }
  split; [exact Hall|].
  split; [vm_compute; reflexivity|].
  split; [vm_compute; reflexivity|].
  exact (usual_stream (H := ascii_tables) get_defaults _ _ Hall
           eq_refl eq_refl eq_refl).
Defined.

(** ** The merged file and its lines *)
Section MergedFile.
Context `{UnicodeData}.

Lemma elem_of_rev_inv (c : N) (s : list N) : c ∈ rev s -> c ∈ s.
Proof.
  intros Hin. apply list_elem_of_In, in_rev, list_elem_of_In. exact Hin.
Qed.

Lemma readlines_scan_spec (data cur : bytes) :
  10%N ∉ cur ->
  exists full tail,
    readlines_scan cur data
    = full ++ (if nonempty tail then [tail] else []) /\
    Forall (fun line => exists body, line = body ++ [10%N] /\ 10%N ∉ body)
      full /\
    (10%N ∉ tail) /\
    rev cur ++ data = concat full ++ tail.
Proof.
  revert cur. induction data as [|c data IH]; intros cur Hcur.
  - exists [], (rev cur). split_and!.
    + destruct cur as [|x cur]; [reflexivity|].
      cbn [readlines_scan app].
      assert (Hne : nonempty (rev (x :: cur)) = true).
      { apply nonempty_true. intros E.
        apply (f_equal (@length _)) in E. rewrite length_rev in E.
        discriminate E. }
      rewrite Hne. reflexivity.
    + constructor.
    + intros Hin. apply Hcur. apply elem_of_rev_inv. exact Hin.
    + rewrite app_nil_r. reflexivity.
  - cbn [readlines_scan]. destruct (N.eqb_spec c 10) as [->|Hc].
    + destruct (IH [] ltac:(intros Hin; inversion Hin))
        as (full & tail & -> & Hfull & Htail & Hdata).
      exists (rev (10%N :: cur) :: full), tail. split_and!.
      * reflexivity.
      * constructor; [|exact Hfull]. exists (rev cur).
        split; [reflexivity|].
        intros Hin. apply Hcur. apply elem_of_rev_inv. exact Hin.
      * exact Htail.
      * simpl in Hdata |- *. rewrite Hdata, <- !app_assoc. reflexivity.
    + destruct (IH (c :: cur)) as (full & tail & -> & Hfull & Htail & Hdata).
      { intros Hin. apply elem_of_cons in Hin as [Hin|Hin];
          [congruence | exact (Hcur Hin)]. }
      exists full, tail. split_and!; try assumption; try reflexivity.
      simpl in Hdata. rewrite <- app_assoc in Hdata. exact Hdata.
Qed.

(** The lines put together are the data; every line but the last is a
    run of bytes without newline followed by a newline, and the last is
    either such a line or a run without newline that is not empty. *)
Lemma readlines_lines (data : bytes) :
  exists full tail,
    readlines data = full ++ (if nonempty tail then [tail] else []) /\
    Forall (fun line => exists body, line = body ++ [10%N] /\ 10%N ∉ body)
      full /\
    (10%N ∉ tail) /\
    data = concat full ++ tail /\
    concat (readlines data) = data.
Proof.
  destruct (readlines_scan_spec data [])
    as (full & tail & Hr & Hfull & Htail & Hdata).
  { intros Hin. inversion Hin. }
  exists full, tail. unfold readlines. simpl in Hdata.
  split_and!; try assumption.
  rewrite Hr, Hdata, concat_app. f_equal.
  destruct tail; simpl; [reflexivity | rewrite app_nil_r; reflexivity].
Qed.

Lemma readlines_terminated (data : bytes) :
  data = [] \/ (exists data', data = data' ++ [10%N]) ->
  Forall (fun line => exists l, line = l ++ [10%N]) (readlines data).
Proof.
  intros Hend.
  destruct (readlines_scan_spec data [])
    as (full & tail & Hr & Hfull & Htail & Hdata).
  { intros Hin. inversion Hin. }
  unfold readlines. rewrite Hr. simpl in Hdata.
  assert (Ht : tail = []).
  { destruct tail as [|x tail] using rev_ind; [reflexivity|]. exfalso.
    destruct Hend as [-> | (data' & ->)].
    - symmetry in Hdata. apply app_eq_nil in Hdata as [_ Hdata].
      destruct tail; discriminate Hdata.
    - rewrite app_assoc in Hdata. apply app_inj_tail in Hdata as [_ <-].
      apply Htail. apply elem_of_app. right. left. }
  rewrite Ht. simpl. rewrite app_nil_r.
  eapply Forall_impl; [exact Hfull|].
  intros line (body & -> & _). exists body. reflexivity.
Qed.

(** Bytes that are decoded stay decoded in front of other bytes. *)
Lemma decode_utf8_app (a b : bytes) (s : str) :
  Py.decode_utf8 a = Ok s ->
  Py.decode_utf8 (a ++ b) = (t ← Py.decode_utf8 b; Ok (s ++ t)).
Proof.
  revert s. induction a as [|c pre rest _ Hc IH|b0 r0 H1 _]
    using decode_utf8_ind; intros s.
  - intros [= <-]. cbn [app]. destruct (Py.decode_utf8 b); reflexivity.
  - rewrite <- app_assoc, !(decode_encoded_char c pre Hc).
    destruct (Py.decode_utf8 rest) as [x|e] eqn:E; cbn [mbind result_bind];
      [|discriminate].
    intros [= <-]. rewrite (IH x eq_refl).
    destruct (Py.decode_utf8 b); reflexivity.
  - rewrite H1. discriminate.
Qed.

(** The lines of data that is UTF-8 are UTF-8, each for itself. *)
Lemma lines_decoded (full : list bytes) (tail : bytes) (s : str) :
  Py.decode_utf8 (concat full ++ tail) = Ok s ->
  Forall (fun line => exists body, line = body ++ [10%N] /\ 10%N ∉ body)
    full ->
  Forall (fun raw => exists line, Py.decode_utf8 raw = Ok line) full /\
  exists t, Py.decode_utf8 tail = Ok t.
Proof.
  intros Hd Hfull. revert s Hd.
  induction Hfull as [|line full (body & -> & _) _ IH]; intros s Hd.
  - split; [constructor | exists s; exact Hd].
  - cbn [concat] in Hd. rewrite <- !app_assoc in Hd. cbn [app] in Hd.
    rewrite decode_utf8_newline in Hd.
    destruct (Py.decode_utf8 body) as [x|e] eqn:Ex;
      cbn [mbind result_bind] in Hd; [|discriminate].
    destruct (Py.decode_utf8 (concat full ++ tail)) as [y|e] eqn:Ey;
      cbn [mbind result_bind] in Hd; [|discriminate].
    destruct (IH y eq_refl) as [Hall Htail].
    split; [|exact Htail]. constructor; [|exact Hall].
    exists (x ++ [10%N]). rewrite decode_utf8_newline, Ex. reflexivity.
Qed.

Lemma readlines_decoded (data : bytes) (s : str) :
  Py.decode_utf8 data = Ok s ->
  Forall (fun raw => exists line, Py.decode_utf8 raw = Ok line)
    (readlines data).
Proof.
  intros Hd.
  destruct (readlines_lines data) as (full & tail & -> & Hfull & _ & E & _).
  rewrite E in Hd. destruct (lines_decoded _ _ _ Hd Hfull) as [Hall Htail].
  apply Forall_app. split; [exact Hall|].
  destruct (nonempty tail); constructor; [exact Htail | constructor].
Qed.

Lemma write_data_bytes_inv (f f' : bytes) (data : str) :
  write_data_bytes f data = Ok f' ->
  exists b, Py.encode_utf8 data = Ok b /\ f' = f ++ b.
Proof.
  unfold write_data_bytes.
  destruct (Py.encode_utf8 data) as [b|e]; cbn [mbind result_bind];
    [|discriminate].
  intros [= <-]. exists b. auto.
Qed.

(** What [write_data] adds to the merge file for a text that ends with
    a newline ends with the newline byte, and the file stays UTF-8. *)
Lemma write_data_bytes_end (f f' : bytes) (data : str) :
  write_data_bytes f (data ++ nl) = Ok f' -> exists d, f' = d ++ [10%N].
Proof.
  intros Hw. apply write_data_bytes_inv in Hw as (b & Hb & ->).
  rewrite encode_utf8_app in Hb.
  destruct (Py.encode_utf8 data) as [x|e]; cbn [mbind result_bind] in Hb;
    [|discriminate].
  injection Hb as <-. exists (f ++ x). rewrite <- app_assoc. reflexivity.
Qed.

Lemma write_data_bytes_decoded (f f' : bytes) (data s : str) :
  Py.decode_utf8 f = Ok s ->
  write_data_bytes f data = Ok f' ->
  Py.decode_utf8 f' = Ok (s ++ data).
Proof.
  intros Hf Hw. apply write_data_bytes_inv in Hw as (b & Hb & ->).
  rewrite (decode_utf8_app _ _ _ Hf), (decode_encoded _ _ Hb). reflexivity.
Qed.

Lemma write_sources_spec (sources : list (str * str)) (acc data : bytes)
    (s : str) :
  write_sources sources acc = Ok data ->
  Py.decode_utf8 acc = Ok s ->
  (acc = [] \/ exists d, acc = d ++ [10%N]) ->
  (exists t, Py.decode_utf8 data = Ok t) /\
  (data = [] \/ exists d, data = d ++ [10%N]).
Proof.
  revert acc s. induction sources as [|[name content] sources IH];
    intros acc s; cbn [write_sources].
  - intros [= <-] Hs Hend. split; [exists s; exact Hs | exact Hend].
  - cbv zeta.
    destruct (write_data_bytes acc _) as [f|e] eqn:Hw;
      cbn [mbind result_bind]; [|discriminate].
    intros Hrest Hs _.
    apply (IH f _ Hrest (write_data_bytes_decoded _ _ _ _ Hs Hw)).
    right. rewrite !app_assoc in Hw.
    exact (write_data_bytes_end _ _ _ Hw).
Qed.

(** What [create_initial_file] wrote is UTF-8, and is empty or ends
    with a newline unless the blacklist does otherwise. *)
Lemma create_initial_file_spec (sources : list (str * str))
    (black_list : option str) (data : bytes) :
  create_initial_file sources black_list = Ok data ->
  match black_list with
  | Some content => content = [] \/ exists content', content = content' ++ nl
  | None => True
  end ->
  (exists t, Py.decode_utf8 data = Ok t) /\
  (data = [] \/ exists d, data = d ++ [10%N]).
Proof.
  unfold create_initial_file.
  destruct (write_sources sources []) as [f|e] eqn:Hs;
    cbn [mbind result_bind]; [|discriminate].
  destruct (write_sources_spec _ _ _ [] Hs eq_refl (or_introl eq_refl))
    as [(t & Ht) Hend].
  destruct black_list as [content|].
  - intros Hw Hb. split.
    + exists (t ++ content). exact (write_data_bytes_decoded _ _ _ _ Ht Hw).
    + destruct Hb as [-> | (content' & ->)].
      * apply write_data_bytes_inv in Hw as (b & Hb & ->).
        injection Hb as <-. rewrite app_nil_r. exact Hend.
      * right. exact (write_data_bytes_end _ _ _ Hw).
  - intros [= <-] _. split; [exists t; exact Ht | exact Hend].
Qed.

(** X20: the merge of the sources is read to its end.  When there is no
    blacklist file, or the blacklist is empty or ends with a newline,
    every line that [write_final_file] reads from what
    [create_initial_file] wrote ends with a newline and is UTF-8, so the
    run raises neither [IndexError] nor [UnicodeDecodeError]; and when
    the case tables keep characters characters and the target IP holds
    no lone surrogate, it raises nothing and returns the settings. *)
Theorem merged_sources_complete (sources : list (str * str))
    (black_list : option str) (cfg : settings) (data : bytes) :
  create_initial_file sources black_list = Ok data ->
  match black_list with
  | Some content => content = [] \/ exists content', content = content' ++ nl
  | None => True
  end ->
  let temp_file := readlines data in
  Forall (fun raw => exists l, raw = l ++ [10%N]) temp_file /\
  Forall (fun raw => exists line, Py.decode_utf8 raw = Ok line) temp_file /\
  snd (write_final_file temp_file [] cfg) <> Raise IndexError /\
  snd (write_final_file temp_file [] cfg) <> Raise UnicodeDecodeError /\
  (lower_keeps_scalars ->
   forallb Py.is_scalar (effective_target_ip cfg) = true ->
   exists cfg', snd (write_final_file temp_file [] cfg) = Ok cfg').
Proof.
  intros Hdata Hb. cbv zeta.
  destruct (create_initial_file_spec _ _ _ Hdata Hb) as [(t & Ht) Hend].
  pose proof (readlines_terminated _ Hend) as Hall.
  pose proof (readlines_decoded _ _ Ht) as Hdec.
  split_and!; [exact Hall | exact Hdec | apply run_no_index_error, Hall |
               apply run_no_decode_error, Hdec |].
  intros Hlaw Hip.
  destruct (run_completes cfg _ Hall Hdec Hlaw Hip) as (cfg' & Hok & _).
  exists cfg'. exact Hok.
Qed.

End MergedFile.

Lemma merged_sources_complete_witness :
  let sources :=
    [(u "adaway.org", u "127.0.0.1 localhost" ++ nl ++ u "0.0.0.0 example.com");
     (u "yoyo.org", u "# a list" ++ nl ++ u "0.0.0.0 example.org" ++ nl)] in
  let black_list := Some (u "0.0.0.0 blocked.example" ++ nl) in
  exists data,
    create_initial_file sources black_list = Ok data /\
    let temp_file := readlines data in
    Forall (fun raw => exists l, raw = l ++ [10%N]) temp_file /\
    Forall (fun raw => exists line, Py.decode_utf8 raw = Ok line) temp_file /\
    snd (write_final_file (H := ascii_tables) temp_file [] get_defaults)
    <> Raise IndexError /\
    snd (write_final_file (H := ascii_tables) temp_file [] get_defaults)
    <> Raise UnicodeDecodeError /\
    exists cfg',
      snd (write_final_file (H := ascii_tables) temp_file [] get_defaults)
      = Ok cfg'.
Proof.
  cbv zeta.
  destruct (create_initial_file
              [(u "adaway.org",
                u "127.0.0.1 localhost" ++ nl ++ u "0.0.0.0 example.com");
               (u "yoyo.org",
                u "# a list" ++ nl ++ u "0.0.0.0 example.org" ++ nl)]
              (Some (u "0.0.0.0 blocked.example" ++ nl)))
    as [data|e] eqn:Hdata; [|vm_compute in Hdata; discriminate Hdata].
  exists data. split; [reflexivity|].
  destruct (merged_sources_complete (H := ascii_tables) _ _ get_defaults data
              Hdata (or_intror (ex_intro _ _ eq_refl)))
    as (Hall & Hdec & Hidx & Hde & Hok).
  split_and!; [exact Hall | exact Hdec | exact Hidx | exact Hde |].
  exact (Hok ascii_tables_keep_scalars eq_refl).
Defined.

(** ** The last pattern on bare hostnames *)
Section BareDomain.
Context `{UnicodeData}.

Lemma letter_not_digit (x : char) :
  Py.ascii_letter x = true -> cmatch dg x = false.
Proof.
  intros Hx. unfold dg. cbn [cmatch existsb item_matches].
  rewrite orb_false_r. unfold Py.isdecimal.
  rewrite (ascii_letter_is_ascii x Hx).
  revert Hx. unfold Py.ascii_letter, Py.ascii_lower, Py.ascii_upper,
    Py.ascii_digit, Py.in_range. eval_ch. bool_lia.
Qed.

Lemma space_class (c : char) : cmatch sp c = Py.isspace c.
Proof.
  unfold sp. cbn [cmatch existsb item_matches]. apply orb_false_r.
Qed.

(** A text that begins, after blanks, with a letter does not begin,
    after whitespace, with a digit. *)
Lemma letter_is_no_digit (w : str) (d : char) (tail lead : str) (x : char)
    (tail' : str) :
  Forall (fun c => cmatch sp c = true) w -> cmatch dg d = true ->
  blanks lead = true -> Py.ascii_letter x = true ->
  w ++ d :: tail <> lead ++ x :: tail'.
Proof.
  intros Hw Hd Hlead Hx. revert lead Hlead.
  induction Hw as [|s w Hs Hw IH]; intros lead Hlead E.
  - destruct lead as [|b lead]; simpl in E.
    + injection E as -> _. rewrite (letter_not_digit x Hx) in Hd.
      discriminate Hd.
    + injection E as -> _. simpl in Hlead.
      apply andb_prop in Hlead as [Hb _].
      rewrite (blank_not_digit b Hb) in Hd. discriminate Hd.
  - destruct lead as [|b lead]; simpl in E.
    + injection E as -> _. rewrite space_class in Hs.
      rewrite (letter_not_space x Hx) in Hs. discriminate Hs.
    + injection E as _ E. simpl in Hlead.
      apply andb_prop in Hlead as [_ Hlead]. exact (IH lead Hlead E).
Qed.

Lemma octet_lang_head (o : str) :
  lang octet o -> exists d o', o = d :: o' /\ cmatch dg d = true.
Proof.
  intros (Hlen & Hall & _). destruct o as [|d o']; [simpl in Hlen; lia|].
  exists d, o'. split; [reflexivity|]. inversion Hall; assumption.
Qed.

Lemma first_pattern_rejects (lead : str) (x : char) (tail : str) :
  blanks lead = true -> Py.ascii_letter x = true ->
  search ip_domain_regex (lead ++ x :: tail) = None.
Proof.
  intros Hlead Hx.
  destruct (search ip_domain_regex (lead ++ x :: tail)) as [res|] eqn:E;
    [exfalso | reflexivity].
  unfold ip_domain_regex in E. rewrite search_bol in E.
  apply run_seq_plain in E as (w & s' & Hrule & Hw & E); [|reflexivity].
  apply run_sound in E as (w2 & s'' & extra & -> & Hlang & _).
  destruct Hlang as (w21 & w22 & -> & Ht & _).
  cbn [times] in Ht.
  destruct Ht as (g1 & g23 & -> & Hg1 & _).
  destruct Hg1 as (o & dot & -> & Ho & _).
  destruct (octet_lang_head o Ho) as (d & o' & -> & Hd).
  destruct Hw as (_ & Hw & _).
  apply (letter_is_no_digit w d (o' ++ dot ++ g23 ++ w22 ++ s'') lead x tail);
    try assumption.
  rewrite Hrule. cbn [app]. rewrite <- !app_assoc. reflexivity.
Qed.

Lemma second_pattern_rejects (lead : str) (x : char) (tail : str) :
  blanks lead = true -> Py.ascii_letter x = true ->
  search ip_ip_regex (lead ++ x :: tail) = None.
Proof.
  intros Hlead Hx.
  destruct (search ip_ip_regex (lead ++ x :: tail)) as [res|] eqn:E;
    [exfalso | reflexivity].
  unfold ip_ip_regex in E. rewrite search_bol in E.
  apply run_seq_plain in E as (w & s' & Hrule & Hw & E); [|reflexivity].
  apply run_sound in E as (w2 & s'' & extra & -> & Hlang & _).
  destruct Hlang as (w21 & w22 & -> & Hip & _).
  cbn [lang] in Hip. unfold ipv4 in Hip.
  destruct Hip as (o & more & -> & Ho & _).
  destruct (octet_lang_head o Ho) as (d & o' & -> & Hd).
  destruct Hw as (_ & Hw & _).
  apply (letter_is_no_digit w d (o' ++ more ++ w22 ++ s'') lead x tail);
    try assumption.
  rewrite Hrule. cbn [app]. rewrite <- !app_assoc. reflexivity.
Qed.

Lemma extract_bare_domain (lead : str) (x : char) (h : str) (l : char)
    (rest : str) :
  blanks lead = true -> Py.ascii_letter x = true ->
  forallb host_char h = true -> Py.ascii_letter l = true ->
  ends_host rest = true ->
  extract (lead ++ (x :: h) ++ [l] ++ rest)
  = Some (map Py.tolower_ascii ((x :: h) ++ [l]), Some (upto_newline rest)).
Proof.
  intros Hlead Hx Hhost Hl Hrest.
  assert (Hxh : forallb host_char (x :: h) = true)
    by (simpl; rewrite (letter_is_host_char x Hx), Hhost; reflexivity).
  unfold extract. cbn [app].
  rewrite first_pattern_rejects, second_pattern_rejects by assumption.
  assert (Hs : search raw_domain_regex (lead ++ x :: h ++ l :: rest)
               = Some [(2, upto_newline rest); (1, (x :: h) ++ [l])]).
  { unfold raw_domain_regex. rewrite search_bol, run_seq_eq.
    apply run_many_all.
    - eapply forallb_impl; [|exact Hlead]. apply blank_is_space.
    - lia.
    - exact I.
    - rewrite space_class. apply letter_not_space, Hx.
    - apply (run_host 1 2 (x :: h) l rest); [discriminate | assumption..]. }
  rewrite Hs. cbn [group Nat.eqb].
  change (default [] (Some ((x :: h) ++ [l]))) with ((x :: h) ++ [l]).
  rewrite host_key; [reflexivity|].
  rewrite forallb_app, Hxh. simpl.
  rewrite (letter_is_host_char l Hl). reflexivity.
Qed.

(** X21: [normalize_rule] on a bare hostname.  The rule has no address:
    it is made of optional blanks and a hostname of two characters or
    more, which are an ASCII letter ([x]), then ASCII letters, digits,
    underscores, periods or hyphens or none ([h]), then an ASCII letter
    ([l]); the hostname is followed by nothing or by an ASCII character
    that is not of this class.  Such a rule is matched by the last
    pattern only: the hostname returned is the hostname in lower case,
    and the rule returned puts the target IP in front of it.  (A
    hostname of one letter is matched by no pattern.) *)
Theorem normalize_rule_bare_domain (lead : str) (x : char) (h : str)
    (l : char) (rest target_ip : str) (keep_domain_comments : bool) :
  blanks lead = true -> Py.ascii_letter x = true ->
  forallb host_char h = true -> Py.ascii_letter l = true ->
  ends_host rest = true ->
  let rule := lead ++ (x :: h) ++ [l] ++ rest in
  let hostname := map Py.tolower_ascii ((x :: h) ++ [l]) in
  let suffix := upto_newline rest in
  search ip_domain_regex rule = None /\
  search ip_ip_regex rule = None /\
  normalize_rule rule target_ip keep_domain_comments
  = ((Some hostname,
      Some (if nonempty target_ip
            then target_ip ++ u " " ++ hostname
                   ++ (if keep_domain_comments && nonempty suffix
                       then u " #" ++ suffix else [])
                   ++ nl
            else hostname ++ nl)),
     []).
Proof.
  intros Hlead Hx Hhost Hl Hrest. cbv zeta.
  split; [apply first_pattern_rejects; assumption|].
  split; [apply second_pattern_rejects; assumption|].
  rewrite normalize_rule_extract.
  rewrite (extract_bare_domain lead x h l rest) by assumption.
  unfold normalize_response. rewrite length_pos_nonempty.
  cbn [snd truthy].
  change (default [] (Some (upto_newline rest))) with (upto_newline rest).
  destruct (nonempty target_ip); [|reflexivity].
  destruct (keep_domain_comments && nonempty (upto_newline rest));
    rewrite <- ?app_assoc; reflexivity.
Qed.

(** X25: a hostname of one letter.  The hostname pattern asks for two
    characters, so a rule whose hostname is one letter, with an address
    or without, is matched by none of the three patterns:
    [normalize_rule] returns [(None, None)] and prints the rule between
    "==>" and "<==". *)
Theorem one_letter_hostname_rejected (target_ip : str)
    (keep_domain_comments : bool) :
  rejected target_ip keep_domain_comments (u "0.0.0.0 a") /\
  rejected target_ip keep_domain_comments (u "a").
Proof.
  unfold rejected. repeat split; vm_compute; reflexivity.
Qed.

End BareDomain.

Lemma normalize_rule_bare_domain_witness :
  let rule := u "  Tracker.Example.ORG" ++ nl in
  blanks (u "  ") = true /\ Py.ascii_letter (ch "T") = true /\
  forallb host_char (u "racker.Example.OR") = true /\
  Py.ascii_letter (ch "G") = true /\ ends_host nl = true /\
  rule = u "  " ++ (ch "T" :: u "racker.Example.OR") ++ [ch "G"] ++ nl /\
  search (H := ascii_tables) ip_domain_regex rule = None /\
  search (H := ascii_tables) ip_ip_regex rule = None /\
  normalize_rule (H := ascii_tables) rule (u "0.0.0.0") false
  = ((Some (u "tracker.example.org"),
      Some (u "0.0.0.0 tracker.example.org" ++ nl)), []).
Proof.
  cbv zeta.
  do 5 (split; [reflexivity|]).
  split; [vm_compute; reflexivity|].
  exact (normalize_rule_bare_domain (H := ascii_tables)
           (u "  ") (ch "T") (u "racker.Example.OR") (ch "G") nl
           (u "0.0.0.0") false eq_refl eq_refl eq_refl eq_refl eq_refl).
Defined.

(** ** What the exclusion patterns are applied to *)
Section ExclusionPatterns.
Context `{UnicodeData}.

Lemma words_scan_skip (ws s : str) :
  Forall (fun c => Py.isspace c = true) ws ->
  Py.words_scan [] (ws ++ s) = Py.words_scan [] s.
Proof.
  induction 1 as [|c ws Hc _ IH]; [reflexivity|].
  simpl. rewrite Hc. exact IH.
Qed.

Lemma words_scan_last (t cur : str) :
  Forall (fun x => Py.isspace x = false) t ->
  rev cur ++ t <> [] ->
  Py.words_scan cur t = [rev cur ++ t].
Proof.
  intros Ht. revert cur. induction Ht as [|c t Hc _ IH]; intros cur Hne.
  - simpl. rewrite app_nil_r in *.
    destruct cur as [|x cur]; [simpl in Hne; congruence|].
    reflexivity.
  - simpl. rewrite Hc. rewrite IH.
    + simpl. rewrite <- app_assoc. reflexivity.
    + simpl. rewrite <- app_assoc. simpl. destruct (rev cur); discriminate.
Qed.

(** X22: what [matches_exclusions] shows to the exclusion patterns.  For a
    rule of two tokens or more the patterns are searched in the second
    token alone, so in the hostname of a rule with an address; for a
    rule of one token they are searched in that token. *)
Theorem matches_exclusions_token (a ws b rest : str)
    (exclusion_regexes : list (str -> bool)) :
  a <> [] -> Forall (fun x => Py.isspace x = false) a ->
  ws <> [] -> Forall (fun x => Py.isspace x = true) ws ->
  b <> [] -> Forall (fun x => Py.isspace x = false) b ->
  rest = [] \/ (exists c r, rest = c :: r /\ Py.isspace c = true) ->
  matches_exclusions (a ++ ws ++ b ++ rest) exclusion_regexes
  = existsb (fun exclusionRegex => exclusionRegex b) exclusion_regexes /\
  matches_exclusions a exclusion_regexes
  = existsb (fun exclusionRegex => exclusionRegex a) exclusion_regexes.
Proof.
  intros Ha Hna Hws Hsp Hb Hnb Hrest. split.
  - unfold matches_exclusions, Py.words.
    destruct ws as [|c ws']; [congruence|].
    apply Forall_cons in Hsp as [Hc Hsp].
    cbn [app]. rewrite (words_scan_token a _ [] c) by assumption.
    rewrite words_scan_skip by exact Hsp.
    destruct Hrest as [-> | (c' & r & -> & Hc')].
    + rewrite app_nil_r, words_scan_last by assumption. reflexivity.
    + rewrite (words_scan_token b r [] c') by assumption. reflexivity.
  - unfold matches_exclusions, Py.words.
    rewrite words_scan_last by assumption. reflexivity.
Qed.

End ExclusionPatterns.

Lemma matches_exclusions_token_witness :
  let a := u "0.0.0.0" in
  let b := u "ads.example.com" in
  let regexes := [fun s : str => Py.startswith s (u "ads.")] in
  a <> [] /\ Forall (fun x => Py.isspace x = false) a /\
  tab <> [] /\ Forall (fun x => Py.isspace x = true) tab /\
  b <> [] /\ Forall (fun x => Py.isspace x = false) b /\
  matches_exclusions (a ++ tab ++ b ++ []) regexes
  = existsb (fun exclusionRegex => exclusionRegex b) regexes /\
  matches_exclusions a regexes
  = existsb (fun exclusionRegex => exclusionRegex a) regexes.
Proof.
  cbv zeta.
  assert (Ha : Forall (fun x => Py.isspace x = false) (u "0.0.0.0"))
    by (vm_compute; repeat constructor).
  assert (Hb : Forall (fun x => Py.isspace x = false) (u "ads.example.com"))
    by (vm_compute; repeat constructor).
  assert (Ht : Forall (fun x => Py.isspace x = true) tab)
    by (repeat constructor).
  split; [discriminate|]. split; [exact Ha|].
  split; [discriminate|]. split; [exact Ht|].
  split; [discriminate|]. split; [exact Hb|].
  apply (matches_exclusions_token (u "0.0.0.0") tab (u "ads.example.com") []);
    try assumption; try discriminate.
  left. reflexivity.
Defined.

(** ** A second run over the output *)
Section SecondRun.
Context `{UnicodeData}.

Lemma first_seen_again (names : list str) (seen : gset str) :
  first_seen seen (first_seen seen names) = first_seen seen names.
Proof.
  revert seen. induction names as [|name names IH]; intros seen;
    [reflexivity|].
  cbn [first_seen].
  destruct (bool_decide (name ∈ seen)) eqn:E; [apply IH|].
  cbn [first_seen]. rewrite E. f_equal. apply IH.
Qed.

Lemma first_seen_Forall (P : str -> Prop) (names : list str)
    (seen : gset str) :
  Forall P names -> Forall P (first_seen seen names).
Proof.
  intros Hall. revert seen.
  induction Hall as [|name names Hn _ IH]; intros seen; [constructor|].
  cbn [first_seen]. destruct (bool_decide (name ∈ seen)); [apply IH|].
  constructor; [exact Hn | apply IH].
Qed.

Lemma tolower_ascii_again (c : char) :
  Py.tolower_ascii (Py.tolower_ascii c) = Py.tolower_ascii c.
Proof.
  unfold Py.tolower_ascii.
  destruct (Py.ascii_upper c) eqn:E; [|rewrite E; reflexivity].
  replace (Py.ascii_upper (c + 32)%N) with false; [reflexivity|].
  symmetry. revert E. unfold Py.ascii_upper, Py.in_range. eval_ch. bool_lia.
Qed.

Lemma tolower_letter (c : char) :
  Py.ascii_letter c = true -> Py.ascii_letter (Py.tolower_ascii c) = true.
Proof.
  unfold Py.tolower_ascii.
  destruct (Py.ascii_upper c) eqn:E; [|auto]. intros _. revert E.
  unfold Py.ascii_letter, Py.ascii_lower, Py.ascii_upper, Py.in_range.
  eval_ch. bool_lia.
Qed.

(** A written rule is itself a line in the usual form, for the hostname
    it was written for. *)
Lemma plain_rule_usual (cfg : settings) (t1 t2 t3 t4 line name : str) :
  effective_target_ip cfg = ipv4_text t1 t2 t3 t4 ->
  octet_text t1 = true -> octet_text t2 = true ->
  octet_text t3 = true -> octet_text t4 = true ->
  usual_form line name ->
  usual_form (write_text (plain_rule cfg name)) name.
Proof.
  intros Hip Ht1 Ht2 Ht3 Ht4 Hu.
  destruct Hu as [o1 o2 o3 o4 ws h l Ho1 Ho2 Ho3 Ho4 Hws Hb Hh Hhost Hl].
  unfold plain_rule. cbn [write_text]. rewrite Hip.
  replace (nonempty (ipv4_text t1 t2 t3 t4)) with true.
  2:{ destruct (octet_head t1 Ht1) as (d & t1' & -> & _). reflexivity. }
  rewrite map_app. cbn [map].
  pose proof (usual_form_intro t1 t2 t3 t4 (u " ")
                (map Py.tolower_ascii h) (Py.tolower_ascii l)
                Ht1 Ht2 Ht3 Ht4) as Hform.
  unfold usual_line in Hform.
  rewrite map_app, map_map in Hform. cbn [map] in Hform.
  rewrite tolower_ascii_again in Hform.
  rewrite (map_ext _ Py.tolower_ascii
             (fun c => tolower_ascii_again c)) in Hform.
  rewrite <- !app_assoc. apply Hform.
  - discriminate.
  - reflexivity.
  - destruct h; [congruence | discriminate].
  - rewrite forallb_forall in *. intros c Hc.
    apply in_map_iff in Hc as (c' & <- & Hc').
    apply tolower_host_char, Hhost, Hc'.
  - apply tolower_letter, Hl.
Qed.

Lemma octet_text_ascii (o : str) :
  octet_text o = true -> forallb Py.is_ascii o = true.
Proof.
  unfold octet_text. intros Ho. apply andb_prop in Ho as [_ Ho].
  eapply forallb_impl; [|exact Ho]. intros c.
  unfold Py.ascii_digit, Py.in_range, Py.is_ascii. eval_ch. bool_lia.
Qed.

Lemma ipv4_text_ascii (t1 t2 t3 t4 : str) :
  octet_text t1 = true -> octet_text t2 = true ->
  octet_text t3 = true -> octet_text t4 = true ->
  forallb Py.is_ascii (ipv4_text t1 t2 t3 t4) = true.
Proof.
  intros Ht1 Ht2 Ht3 Ht4. unfold ipv4_text.
  rewrite !forallb_app, (octet_text_ascii _ Ht1), (octet_text_ascii _ Ht2),
    (octet_text_ascii _ Ht3), (octet_text_ascii _ Ht4).
  reflexivity.
Qed.

Lemma usual_name_ascii (line name : str) :
  usual_form line name -> forallb Py.is_ascii name = true.
Proof.
  intros Hu.
  destruct Hu as [o1 o2 o3 o4 ws h l Ho1 Ho2 Ho3 Ho4 Hws Hb Hh Hhost Hl].
  apply hostname_ascii; assumption.
Qed.

Lemma plain_rule_ascii (cfg : settings) (hostname : str) :
  forallb Py.is_ascii (effective_target_ip cfg) = true ->
  forallb Py.is_ascii hostname = true ->
  forallb Py.is_ascii (write_text (plain_rule cfg hostname)) = true.
Proof.
  intros Hip Hh. unfold plain_rule. cbn [write_text].
  destruct (nonempty (effective_target_ip cfg));
    rewrite !forallb_app, ?Hip, Hh; reflexivity.
Qed.

(** X23: a second run changes nothing.  With no exclusion patterns and no
    whitelist words and a target IP of four octets, the rules that a run
    over lines in the usual form has written are lines in the usual form
    again, and a run over them writes the same rules.  The rules are
    ASCII, so the bytes that [write_data] puts into the file for a rule
    are the characters of the rule, and these are the lines of the
    second run. *)
Theorem second_run_same (cfg : settings) (temp_file : list bytes)
    (names : list str) (t1 t2 t3 t4 : str) :
  Forall2 usual_form temp_file names ->
  exclusion_regexes cfg = [] -> exclusions cfg = [] ->
  effective_target_ip cfg = ipv4_text t1 t2 t3 t4 ->
  octet_text t1 = true -> octet_text t2 = true ->
  octet_text t3 = true -> octet_text t4 = true ->
  let written := final_file (final_state temp_file cfg) in
  Forall (fun w => Py.encode_utf8 (write_text w) = Ok (write_text w))
    written /\
  final_file (final_state (map write_text written) cfg) = written.
Proof.
  intros Hall Hre Hex Hip Ht1 Ht2 Ht3 Ht4. cbv zeta.
  pose proof (ipv4_text_ascii _ _ _ _ Ht1 Ht2 Ht3 Ht4) as Hascii.
  rewrite <- Hip in Hascii.
  pose proof (ascii_is_scalar _ Hascii) as Hsc.
  destruct (usual_stream_loop cfg temp_file names Hall Hre Hex Hsc
              (initial_state cfg [] []))
    as (st1 & Hloop1 & Hf1 & _).
  cbn [initial_state final_file hostnames] in Hf1.
  assert (Hfirst : final_file (final_state temp_file cfg)
                   = map (plain_rule cfg)
                       (first_seen reserved_hostnames names)).
  { unfold final_state, write_final_file. rewrite Hloop1. exact Hf1. }
  rewrite Hfirst. clear st1 Hloop1 Hf1 Hfirst.
  assert (Hnames : Forall (fun name => exists line, usual_form line name)
                     names).
  { clear -Hall. induction Hall; constructor; eauto. }
  pose proof (first_seen_Forall _ _ reserved_hostnames Hnames) as Hw.
  split.
  { apply Forall_map. eapply Forall_impl; [exact Hw|].
    intros name (line & Hline). cbv beta.
    apply encode_utf8_ascii, plain_rule_ascii;
      [exact Hascii | exact (usual_name_ascii _ _ Hline)]. }
  assert (Hall2 : Forall2 usual_form
                    (map write_text
                       (map (plain_rule cfg)
                          (first_seen reserved_hostnames names)))
                    (first_seen reserved_hostnames names)).
  { induction Hw as [|name rest (line & Hline) _ IH]; [constructor|].
    cbn [map]. constructor; [|exact IH].
    eapply plain_rule_usual; eassumption. }
  destruct (usual_stream_loop cfg _ _ Hall2 Hre Hex Hsc
              (initial_state cfg [] []))
    as (st2 & Hloop2 & Hf2 & _).
  cbn [initial_state final_file hostnames] in Hf2.
  unfold final_state, write_final_file. rewrite Hloop2. cbn [fst].
  rewrite Hf2, first_seen_again. reflexivity.
Qed.

End SecondRun.

Lemma second_run_same_witness :
  let temp_file : list bytes :=
    [u "127.0.0.1" ++ tab ++ u "Ads.Example.com" ++ nl;
     u "0.0.0.0 tracker.example.org" ++ nl;
     u "0.0.0.0  ads.example.com" ++ nl] in
  let names :=
    [u "ads.example.com"; u "tracker.example.org"; u "ads.example.com"] in
  Forall2 usual_form temp_file names /\
  effective_target_ip get_defaults
  = ipv4_text (u "0") (u "0") (u "0") (u "0") /\
  final_file (final_state (H := ascii_tables) temp_file get_defaults)
  = [Rule (u "ads.example.com") (u "0.0.0.0 ads.example.com" ++ nl);
     Rule (u "tracker.example.org") (u "0.0.0.0 tracker.example.org" ++ nl)] /\
  Forall (fun w => Py.encode_utf8 (write_text w) = Ok (write_text w))
    (final_file (final_state (H := ascii_tables) temp_file get_defaults)) /\
  final_file
    (final_state (H := ascii_tables)
       (map write_text
          (final_file (final_state (H := ascii_tables) temp_file get_defaults)))
       get_defaults)
  = final_file (final_state (H := ascii_tables) temp_file get_defaults).
Proof.
  cbv zeta.
  assert (Hall : Forall2 usual_form
                   [u "127.0.0.1" ++ tab ++ u "Ads.Example.com" ++ nl;
                    u "0.0.0.0 tracker.example.org" ++ nl;
                    u "0.0.0.0  ads.example.com" ++ nl]
                   [u "ads.example.com"; u "tracker.example.org";
                    u "ads.example.com"]).
  { constructor; [|constructor; [|constructor; [|constructor]]].
    - exact (usual_form_intro (u "127") (u "0") (u "0") (u "1") tab
               (u "Ads.Example.co") (ch "m")
               eq_refl eq_refl eq_refl eq_refl ltac:(discriminate) eq_refl
               ltac:(discriminate) eq_refl eq_refl).
    - exact (usual_form_intro (u "0") (u "0") (u "0") (u "0") (u " ")
               (u "tracker.example.or") (ch "g")
               eq_refl eq_refl eq_refl eq_refl ltac:(discriminate) eq_refl
               ltac:(discriminate) eq_refl eq_refl).
    - exact (usual_form_intro (u "0") (u "0") (u "0") (u "0") (u "  ")
               (u "ads.example.co") (ch "m")
               eq_refl eq_refl eq_refl eq_refl ltac:(discriminate) eq_refl
               ltac:(discriminate) eq_refl eq_refl). }
  split; [exact Hall|].
  split; [reflexivity|].
  split; [vm_compute; reflexivity|].
  exact (second_run_same (H := ascii_tables) get_defaults _ _
           (u "0") (u "0") (u "0") (u "0") Hall
           eq_refl eq_refl eq_refl eq_refl eq_refl eq_refl eq_refl).
Defined.
